(** * Snyk universal-broker group configuration

    A shallow embedding of [snyk_api.py] (the API gateway and the bulk
    orchestrator built on it) and of [main] of [broker_mass_configure.py],
    together with the properties of their workflows.

    Layout:
    - Python values: decoded JSON, truthiness, [dict.get], iteration,
      equality, the exceptions the code can meet, name resolution;
    - the HTTP boundary: requests, replies, the remote service as a function
      of the requests issued so far, and a state-and-exception monad that
      threads the request trace;
    - the gateway methods of [SnykAPI];
    - the orchestrator methods of [SnykAPI];
    - the vocabulary of the properties and a scenario to run them on;
    - the generic integration calls with [mass_configure_broker], the raw
      group listing and the command line, with their vocabulary and a
      second scenario;
    - the properties, method by method.

    Strings are ASCII text.  Log lines are left out; what an f-string of a
    log line evaluates is kept where it can raise ([len] of a decoded
    value). *)

From Stdlib Require Import String Ascii List ZArith Bool Lia DecimalString.
Import ListNotations.
Local Open Scope string_scope.
Local Open Scope list_scope.

#[local] Set Warnings "-register-all".

(* ===================================================================== *)
(** * Python values *)
(* ===================================================================== *)

(** A value produced by [resp.json()].  Numbers are integers (the code never
    computes with a decoded number); an object is the list of its members
    in insertion order, keys distinct. *)
Inductive json : Type :=
| JNull
| JBool (b : bool)
| JNum (n : Z)
| JStr (s : string)
| JArr (items : list json)
| JObj (members : list (string * json)).

(** Exceptions, all subclasses of [Exception]; [exn_text] is [str(e)]. *)
Inductive exn_class : Type :=
| ValueError | AttributeError | TypeError | NameError
| RequestException | JSONDecodeError.

Record exn : Type := Exn { exn_kind : exn_class; exn_text : string }.

(** Result of evaluating a pure Python expression. *)
Inductive res (A : Type) : Type :=
| Ok (a : A)
| Err (e : exn).
Arguments Ok {A} a.
Arguments Err {A} e.

Definition res_bind {A B} (r : res A) (k : A -> res B) : res B :=
  match r with
  | Ok a => k a
  | Err e => Err e
  end.

Notation "'let?' x ':=' r 'in' k" := (res_bind r (fun x => k))
  (at level 10, x name, r at level 100, k at level 200).

Fixpoint res_map {A B} (f : A -> res B) (l : list A) : res (list B) :=
  match l with
  | [] => Ok []
  | x :: xs =>
      let? y := f x in
      let? ys := res_map f xs in
      Ok (y :: ys)
  end.

(** [type(v).__name__] *)
Definition py_type_name (v : json) : string :=
  match v with
  | JNull => "NoneType"
  | JBool _ => "bool"
  | JNum _ => "int"
  | JStr _ => "str"
  | JArr _ => "list"
  | JObj _ => "dict"
  end.

Definition no_attribute (v : json) (attr : string) : exn :=
  Exn AttributeError
      ("'" ++ py_type_name v ++ "' object has no attribute '" ++ attr ++ "'")%string.

(** [bool(v)]: the test of [if v] and [if not v]. *)
Definition truthy (v : json) : bool :=
  match v with
  | JNull => false
  | JBool b => b
  | JNum n => negb (Z.eqb n 0)
  | JStr s => negb (String.eqb s "")
  | JArr items => match items with [] => false | _ => true end
  | JObj members => match members with [] => false | _ => true end
  end.

(** A [str]-or-[None] attribute of the client ([Optional[str]]). *)
Definition of_optional (o : option string) : json :=
  match o with
  | Some s => JStr s
  | None => JNull
  end.

Fixpoint lookup (k : string) (members : list (string * json)) : option json :=
  match members with
  | [] => None
  | (k', v) :: rest => if String.eqb k k' then Some v else lookup k rest
  end.

(** [d.get(k, default)] *)
Definition py_get (d : json) (k : string) (default : json) : res json :=
  match d with
  | JObj members =>
      Ok (match lookup k members with Some v => v | None => default end)
  | _ => Err (no_attribute d "get")
  end.

Fixpoint chars (s : string) : list json :=
  match s with
  | EmptyString => []
  | String c rest => JStr (String c EmptyString) :: chars rest
  end.

(** [for x in v]: the items [v] yields, or the [TypeError] of [iter(v)]. *)
Definition py_iter (v : json) : res (list json) :=
  match v with
  | JArr items => Ok items
  | JObj members => Ok (map (fun kv => JStr (fst kv)) members)
  | JStr s => Ok (chars s)
  | _ => Err (Exn TypeError
                  ("'" ++ py_type_name v ++ "' object is not iterable")%string)
  end.

(** [len(v)] *)
Definition py_len (v : json) : res nat :=
  match v with
  | JArr items => Ok (List.length items)
  | JObj members => Ok (List.length members)
  | JStr s => Ok (String.length s)
  | _ => Err (Exn TypeError
                  ("object of type '" ++ py_type_name v ++ "' has no len()")%string)
  end.

(** [v.startswith(p)] *)
Definition py_startswith (v : json) (p : string) : res bool :=
  match v with
  | JStr s => Ok (String.prefix p s)
  | _ => Err (no_attribute v "startswith")
  end.

(** [str.lower] on ASCII text: the letters A to Z become a to z.  A
    character outside ASCII is left as it is, which is [str.lower] for some
    of them only; the properties that read a lowered text are stated for
    ASCII text. *)
Definition lower_ascii (c : ascii) : ascii :=
  let n := nat_of_ascii c in
  if andb (Nat.leb 65 n) (Nat.leb n 90) then ascii_of_nat (n + 32) else c.

Fixpoint lower (s : string) : string :=
  match s with
  | EmptyString => EmptyString
  | String c rest => String (lower_ascii c) (lower rest)
  end.

(** [v.lower()] *)
Definition py_lower (v : json) : res string :=
  match v with
  | JStr s => Ok (lower s)
  | _ => Err (no_attribute v "lower")
  end.

(** [needle in hay] on strings *)
Fixpoint contains (needle hay : string) : bool :=
  String.prefix needle hay ||
  match hay with
  | EmptyString => false
  | String _ rest => contains needle rest
  end.

(** [a == b] on decoded JSON: [True == 1], lists pointwise, dicts as maps. *)
Fixpoint py_eq (a b : json) {struct a} : bool :=
  match a, b with
  | JNull, JNull => true
  | JBool x, JBool y => Bool.eqb x y
  | JBool x, JNum n => Z.eqb (if x then 1 else 0) n
  | JNum n, JBool x => Z.eqb n (if x then 1 else 0)
  | JNum n, JNum m => Z.eqb n m
  | JStr s, JStr s' => String.eqb s s'
  | JArr l, JArr l' =>
      (fix pointwise (l l' : list json) {struct l} : bool :=
         match l, l' with
         | [], [] => true
         | x :: xs, y :: ys => py_eq x y && pointwise xs ys
         | _, _ => false
         end) l l'
  | JObj m, JObj m' =>
      Nat.eqb (List.length m) (List.length m') &&
      (fix included (m : list (string * json)) {struct m} : bool :=
         match m with
         | [] => true
         | (k, v) :: rest =>
             match lookup k m' with
             | Some v' => py_eq v v'
             | None => false
             end && included rest
         end) m
  | _, _ => false
  end.

(** [a != b] *)
Definition py_ne (a b : json) : bool := negb (py_eq a b).

Definition join (sep : string) (l : list string) : string := String.concat sep l.

(** [str(v)] as an f-string formats it.  Containers print through [repr];
    the quoting of a string inside a container is the simple one (no escape
    sequences).  The code formats values into log lines and into the
    [integration_id] argument that only reaches log lines. *)
Fixpoint py_str (v : json) : string :=
  (match v with
  | JNull => "None"
  | JBool true => "True"
  | JBool false => "False"
  | JNum n => NilZero.string_of_int (Z.to_int n)
  | JStr s => s
  | JArr items =>
      "[" ++ join ", " (map (fun x => match x with
                                      | JStr s => "'" ++ s ++ "'"
                                      | _ => py_str x
                                      end) items) ++ "]"
  | JObj members =>
      "{" ++ join ", " (map (fun '(k, x) => "'" ++ k ++ "': " ++
                                          match x with
                                          | JStr s => "'" ++ s ++ "'"
                                          | _ => py_str x
                                          end) members) ++ "}"
  end)%string.

(** An f-string with the given pieces. *)
Definition fstring (pieces : list json) : json :=
  JStr (join "" (map py_str pieces)).

(* ===================================================================== *)
(** * Name resolution *)
(* ===================================================================== *)

(** A Python object passed as an argument: a JSON-like value, or an object
    bound to a module-level or builtin name (a module, a class, a function). *)
Inductive pyobj : Type :=
| Value (v : json)
| Global (name : string).

(** The names bound at module level in [snyk_api.py]: those every module
    has, the imports, the three dataclasses and the client class. *)
Definition module_globals : list string :=
  ["__name__"; "__doc__"; "__package__"; "__loader__"; "__spec__";
   "__file__"; "__cached__"; "__builtins__";
   "requests"; "json"; "Dict"; "List"; "Optional"; "Any"; "NamedTuple";
   "datetime"; "logging"; "dataclass";
   "Organization"; "BrokerConnection"; "BrokerIntegration"; "SnykAPI"].

(** The builtin functions and types: the names of [builtins] that start with
    a lower-case letter.  The others (exception classes, constants, dunder
    names) start with a capital or an underscore and are left out, the only
    name the code reads this way being a lower-case one. *)
Definition builtin_functions : list string :=
  ["abs"; "aiter"; "all"; "anext"; "any"; "ascii"; "bin"; "bool";
   "breakpoint"; "bytearray"; "bytes"; "callable"; "chr"; "classmethod";
   "compile"; "complex"; "copyright"; "credits"; "delattr"; "dict"; "dir";
   "divmod"; "enumerate"; "eval"; "exec"; "exit"; "filter"; "float";
   "format"; "frozenset"; "getattr"; "globals"; "hasattr"; "hash"; "help";
   "hex"; "id"; "input"; "int"; "isinstance"; "issubclass"; "iter"; "len";
   "license"; "list"; "locals"; "map"; "max"; "memoryview"; "min"; "next";
   "object"; "oct"; "open"; "ord"; "pow"; "print"; "property"; "quit";
   "range"; "repr"; "reversed"; "round"; "set"; "setattr"; "slice";
   "sorted"; "staticmethod"; "str"; "sum"; "super"; "tuple"; "type";
   "vars"; "zip"].

(** Reading a name that the function body never assigns: the module's
    globals, then the builtins, else [NameError]. *)
Definition load_global (n : string) : res pyobj :=
  if existsb (String.eqb n) (module_globals ++ builtin_functions)
  then Ok (Global n)
  else Err (Exn NameError ("name '" ++ n ++ "' is not defined")%string).

(* ===================================================================== *)
(** * The HTTP boundary *)
(* ===================================================================== *)

Inductive Method : Type := GET | POST | PATCH | DELETE.

(** The URL of a request: one constructor per f-string of the gateway, with
    the values the f-string interpolates ([base_url] is the constant
    [https://api.snyk.io/rest]). *)
Inductive Url : Type :=
| url_group_orgs (group : string)
    (* {base_url}/groups/{group_id}/orgs *)
| url_cursor (u : string)
    (* a links.next cursor, made absolute *)
| url_org (org : json)
    (* {base_url}/orgs/{org_id} *)
| url_org_integrations (org : json)
    (* {base_url}/orgs/{org_id}/integrations *)
| url_org_integration (org integration : json)
    (* {base_url}/orgs/{org_id}/integrations/{integration_id} *)
| url_org_broker_connections (org : string)
    (* {base_url}/orgs/{org_id}/brokers/connections *)
| url_connection_integrations (tenant : string) (connection : json)
    (* {base_url}/tenants/{tenant_id}/brokers/connections/{connection_id}/integrations *)
| url_connection_org_integrations (tenant : string) (connection org integration : json)
    (* .../connections/{connection_id}/orgs/{org_id}/integrations/{integration_id} *)
| url_connection_org_integration (tenant : string) (connection org : json).
    (* .../connections/{connection_id}/orgs/{org_id}/integration *)

Record Request : Type := mkRequest {
  method : Method;
  url : Url;
  params : list (string * json);
  payload : option json
}.

(** What [resp.json()] finds: a decoded document, or a body that is not
    JSON (the call then raises with the given text). *)
Inductive Body : Type :=
| Json (j : json)
| NotJson (err : string).

Record Response : Type := mkResponse {
  status_code : Z;
  body : Body
}.

(** What [session.request] does: it returns a response or raises. *)
Inductive Reply : Type :=
| Resp (r : Response)
| Raise (e : exn).

(** The remote service: its reply to a request may depend on every request
    issued before it. *)
Definition Server : Type := list Request -> Request -> Reply.

(** The outcome of a call: a value, an exception that escapes it, or a
    pagination loop that was still running when the fuel ran out. *)
Inductive outcome (A : Type) : Type :=
| Ret (a : A)
| Exc (e : exn)
| OutOfFuel.
Arguments Ret {A} a.
Arguments Exc {A} e.
Arguments OutOfFuel {A}.

(** A computation threads the trace of the requests issued so far. *)
Definition M (A : Type) : Type := list Request -> outcome A * list Request.

Definition ret {A} (a : A) : M A := fun t => (Ret a, t).

Definition raise {A} (e : exn) : M A := fun t => (Exc e, t).

Definition bind {A B} (m : M A) (k : A -> M B) : M B :=
  fun t =>
    match m t with
    | (Ret a, t') => k a t'
    | (Exc e, t') => (Exc e, t')
    | (OutOfFuel, t') => (OutOfFuel, t')
    end.

Definition lift {A} (r : res A) : M A :=
  match r with
  | Ok a => ret a
  | Err e => raise e
  end.

(** [try: body  except Exception as e: handler e] *)
Definition try_except {A} (body : M A) (handler : exn -> M A) : M A :=
  fun t =>
    match body t with
    | (Exc e, t') => handler e t'
    | other => other
    end.

Notation "x <- m ;; k" := (bind m (fun x => k))
  (at level 61, m at next level, right associativity).

(** [for x in l: s = body x s] *)
Fixpoint for_each {A S} (body : A -> S -> M S) (l : list A) (s : S) : M S :=
  match l with
  | [] => ret s
  | x :: xs => s' <- body x s ;; for_each body xs s'
  end.

(** [resp.json()] *)
Definition json_of (resp : Response) : res json :=
  match body resp with
  | Json j => Ok j
  | NotJson err => Err (Exn JSONDecodeError err)
  end.

(** [if not v: raise ValueError(msg)] for an [Optional[str]] *)
Definition require (v : option string) (msg : string) : res string :=
  match v with
  | Some s => if truthy (JStr s) then Ok s else Err (Exn ValueError msg)
  | None => Err (Exn ValueError msg)
  end.

(* ===================================================================== *)
(** * Data model *)
(* ===================================================================== *)

Module Organization.
Record t : Type := mk {
  id : json;
  name : json;
  slug : json;
  group_id : json;
  is_personal : json;
  access_requests_enabled : json;
  created_at : json;
  updated_at : json
}.
End Organization.

Module BrokerConnection.
Record t : Type := mk {
  id : json;
  name : json;
  connection_type : json;
  deployment_id : json
}.
End BrokerConnection.

Module BrokerIntegration.
Record t : Type := mk {
  id : json;
  org_id : json;
  integration_type : json
}.
End BrokerIntegration.

(** The attributes [SnykAPI.__init__] stores. *)
Record SnykAPI : Type := mkSnykAPI {
  token : string;
  tenant_id : option string;
  group_id : option string;
  source_org_id : option string;
  region : string;
  debug : bool
}.

(** The record a bulk workflow returns: [{'success': [...], 'failed': [...],
    'skipped': [...]}], each entry a dict. *)
Record Results : Type := mkResults {
  success : list json;
  failed : list json;
  skipped : list json
}.

Definition no_results : Results := mkResults [] [] [].

(* ===================================================================== *)
(** * The gateway: methods of [SnykAPI] that wrap one endpoint each *)
(* ===================================================================== *)

Section Gateway.

Variable server : Server.
Variable self : SnykAPI.

(** [_make_request]: the request goes out, the service replies; the
    logging around it has no effect on the caller. *)
Definition _make_request (m : Method) (u : Url)
           (ps : list (string * json)) (js : option json) : M Response :=
  fun t =>
    let rq := mkRequest m u ps js in
    match server t rq with
    | Resp r => (Ret r, t ++ [rq])
    | Raise e => (Exc e, t ++ [rq])
    end.

(** The [Organization(...)] built from one element of the page. *)
Definition organization_of (org_data : json) : res Organization.t :=
  let? attrs := py_get org_data "attributes" (JObj []) in
  let? id := py_get org_data "id" JNull in
  let? name := py_get attrs "name" (JStr "") in
  let? slug := py_get attrs "slug" (JStr "") in
  let? group_id := py_get attrs "group_id" (JStr "") in
  let? is_personal := py_get attrs "is_personal" (JBool false) in
  let? access_requests_enabled :=
    py_get attrs "access_requests_enabled" (JBool false) in
  let? created_at := py_get attrs "created_at" (JStr "") in
  let? updated_at := py_get attrs "updated_at" (JStr "") in
  Ok (Organization.mk id name slug group_id is_personal
                      access_requests_enabled created_at updated_at).

(** The [while True] loop of [get_organizations_for_group]; one unit of
    fuel per page requested. *)
Fixpoint group_orgs_pages (fuel : nat) (u : Url)
         (all_orgs : list Organization.t) : M (list Organization.t) :=
  match fuel with
  | O => fun t => (OutOfFuel, t)
  | S fuel' =>
      resp <- _make_request GET u
                [("version", JStr "2024-10-15"); ("limit", JNum 100)] None ;;
      if (status_code resp =? 200)%Z then
        data <- lift (json_of resp) ;;
        orgs <- lift (py_get data "data" (JArr [])) ;;
        if negb (truthy orgs) then ret all_orgs
        else
          items <- lift (py_iter orgs) ;;
          page <- lift (res_map organization_of items) ;;
          let all_orgs := all_orgs ++ page in
          links <- lift (py_get data "links" (JObj [])) ;;
          next_url <- lift (py_get links "next" JNull) ;;
          if negb (truthy next_url) then ret all_orgs
          else
            absolute <- lift (py_startswith next_url "/") ;;
            let u' := if absolute
                      then url_cursor ("https://api.snyk.io" ++ py_str next_url)%string
                      else url_cursor (py_str next_url) in
            group_orgs_pages fuel' u' all_orgs
      else if (status_code resp =? 404)%Z then ret []
      else if ((status_code resp =? 403) || (status_code resp =? 401))%Z
           then ret []
      else ret []
  end.

Definition get_organizations_for_group (fuel : nat) (group : option string)
  : M (list Organization.t) :=
  let group := match group with
               | None => group_id self
               | Some g => Some g
               end in
  g <- lift (require group
               "Group ID must be provided either as parameter or in constructor") ;;
  group_orgs_pages fuel (url_group_orgs g) [].

Fixpoint validate_versions (org : json) (versions : list string) : M bool :=
  match versions with
  | [] => ret false
  | version :: rest =>
      resp <- _make_request GET (url_org org) [("version", JStr version)] None ;;
      if (status_code resp =? 200)%Z then ret true
      else if (status_code resp =? 404)%Z then validate_versions org rest
      else if ((status_code resp =? 403) || (status_code resp =? 401))%Z
           then ret false
      else validate_versions org rest
  end.

Definition versions : list string := ["2024-10-15"; "2023-05-29"; "2023-06-18"].

Definition validate_organization_access (org : json) : M bool :=
  validate_versions org versions.

Definition get_organization_details (org : json) : M json :=
  resp <- _make_request GET (url_org org) [("version", JStr "2024-10-15")] None ;;
  if (status_code resp =? 200)%Z then
    data <- lift (json_of resp) ;;
    lift (py_get data "data" JNull)
  else ret JNull.

Definition get_organization_name (org : json) : M json :=
  org_details <- get_organization_details org ;;
  if truthy org_details then
    attrs <- lift (py_get org_details "attributes" (JObj [])) ;;
    lift (py_get attrs "name" org)
  else ret org.

Definition get_integrations_for_org (org : json) : M json :=
  resp <- _make_request GET (url_org_integrations org)
            [("version", JStr "2024-10-15")] None ;;
  if (status_code resp =? 200)%Z then
    data <- lift (json_of resp) ;;
    integrations <- lift (py_get data "data" (JArr [])) ;;
    _ <- lift (py_len integrations) ;;
    ret integrations
  else ret (JArr []).

Definition delete_integration (org integration : json) : M bool :=
  resp <- _make_request DELETE (url_org_integration org integration)
            [("version", JStr "2024-10-15")] None ;;
  if (status_code resp =? 204)%Z then ret true else ret false.

(** The test of the loop of [get_broker_integrations]. *)
Definition is_broker (integration : json) : res bool :=
  let? attrs := py_get integration "attributes" (JObj []) in
  let? integration_type := py_get attrs "type" (JStr "") in
  let? lowered := py_lower integration_type in
  Ok (contains "broker" lowered || contains "snyk-broker" lowered).

Fixpoint select_brokers (integrations : list json) : res (list json) :=
  match integrations with
  | [] => Ok []
  | integration :: rest =>
      let? keep := is_broker integration in
      let? kept := select_brokers rest in
      Ok (if keep then integration :: kept else kept)
  end.

Definition get_broker_integrations (org : json) : M (list json) :=
  integrations <- get_integrations_for_org org ;;
  items <- lift (py_iter integrations) ;;
  lift (select_brokers items).

Definition broker_connection_of (conn_data : json) : res BrokerConnection.t :=
  let? attrs := py_get conn_data "attributes" (JObj []) in
  let? id := py_get conn_data "id" JNull in
  let? name := py_get attrs "name" (JStr "") in
  let? connection_type := py_get attrs "connection_type" (JStr "") in
  let? deployment_id := py_get attrs "deployment_id" (JStr "") in
  Ok (BrokerConnection.mk id name connection_type deployment_id).

Definition get_broker_connections (org : option string)
  : M (list BrokerConnection.t) :=
  let org := match org with
             | None => source_org_id self
             | Some o => Some o
             end in
  o <- lift (require org
               "Organization ID must be provided either as parameter or in constructor") ;;
  resp <- _make_request GET (url_org_broker_connections o)
            [("version", JStr "2025-09-28"); ("limit", JNum 100)] None ;;
  if (status_code resp =? 200)%Z then
    data <- lift (json_of resp) ;;
    connections_data <- lift (py_get data "data" (JArr [])) ;;
    items <- lift (py_iter connections_data) ;;
    lift (res_map broker_connection_of items)
  else ret [].

Definition broker_integration_of (integration_data : json)
  : res BrokerIntegration.t :=
  let? id := py_get integration_data "id" JNull in
  let? org_id := py_get integration_data "org_id" JNull in
  let? integration_type := py_get integration_data "integration_type" JNull in
  Ok (BrokerIntegration.mk id org_id integration_type).

Definition get_broker_integrations_for_connection (connection : json)
  : M (list BrokerIntegration.t) :=
  tenant <- lift (require (tenant_id self)
                    "Tenant ID must be provided in constructor") ;;
  resp <- _make_request GET (url_connection_integrations tenant connection)
            [("version", JStr "2025-09-28")] None ;;
  if (status_code resp =? 200)%Z then
    data <- lift (json_of resp) ;;
    integrations_data <- lift (py_get data "data" (JArr [])) ;;
    items <- lift (py_iter integrations_data) ;;
    lift (res_map broker_integration_of items)
  else ret [].

Definition delete_broker_integration (connection org integration : json)
  : M bool :=
  tenant <- lift (require (tenant_id self)
                    "Tenant ID must be provided in constructor") ;;
  resp <- _make_request DELETE
            (url_connection_org_integrations tenant connection org integration)
            [("version", JStr "2025-09-28")] None ;;
  if (status_code resp =? 204)%Z then ret true else ret false.

(** [integration_id] is formatted into log lines only. *)
Definition create_broker_integration
           (connection org : json) (integration_id : pyobj)
           (integration_type : json) : M bool :=
  tenant <- lift (require (tenant_id self)
                    "Tenant ID must be provided in constructor") ;;
  resp <- _make_request POST
            (url_connection_org_integration tenant connection org)
            [("version", JStr "2025-09-28")]
            (Some (JObj [("data", JObj [("type", integration_type)])])) ;;
  if (status_code resp =? 201)%Z then ret true else ret false.

End Gateway.

(* ===================================================================== *)
(** * The orchestrator: the bulk workflows of [SnykAPI] *)
(* ===================================================================== *)

Definition add_success (r : Results) (entry : json) : Results :=
  mkResults (success r ++ [entry]) (failed r) (skipped r).

Definition add_failed (r : Results) (entry : json) : Results :=
  mkResults (success r) (failed r ++ [entry]) (skipped r).

Definition add_skipped (r : Results) (entry : json) : Results :=
  mkResults (success r) (failed r) (skipped r ++ [entry]).

Definition is_empty {A} (l : list A) : bool :=
  match l with
  | [] => true
  | _ => false
  end.

Section Orchestrator.

Variable server : Server.
Variable self : SnykAPI.

(** [[org for org in all_orgs if org.id != self.source_org_id]] *)
Definition target_orgs_of (all_orgs : list Organization.t)
  : list Organization.t :=
  filter (fun org => py_ne (Organization.id org)
                           (of_optional (source_org_id self)))
         all_orgs.

Definition get_target_organizations_for_broker_config (fuel : nat)
  : M (list Organization.t) :=
  _ <- lift (require (group_id self)
               "Group ID must be provided in constructor") ;;
  _ <- lift (require (source_org_id self)
               "Source organization ID must be provided in constructor") ;;
  all_orgs <- get_organizations_for_group server self fuel None ;;
  ret (target_orgs_of all_orgs).

(** The first integration of the source organization ([for ... break]). *)
Definition source_integration_of (integrations : list BrokerIntegration.t)
  : option BrokerIntegration.t :=
  find (fun integration =>
          py_eq (BrokerIntegration.org_id integration)
                (of_optional (source_org_id self)))
       integrations.

(** Step 3 of [configure_broker_for_organizations_bulk]. *)
Definition deletion_pass (broker_connection_id : json)
           (source_integrations : list BrokerIntegration.t) : M unit :=
  for_each
    (fun integration (_ : unit) =>
       if py_ne (BrokerIntegration.org_id integration)
                (of_optional (source_org_id self))
       then
         _ <- delete_broker_integration server self broker_connection_id
                (BrokerIntegration.org_id integration)
                (BrokerIntegration.id integration) ;;
         ret tt
       else ret tt)
    source_integrations tt.

(** The [try] block of the loop of step 4, on the three lists. *)
Definition configure_one_steps (broker_connection_id : json)
           (source_integration : BrokerIntegration.t)
           (org : Organization.t) (lists : Results) : M Results :=
  accessible <- validate_organization_access server (Organization.id org) ;;
  if negb accessible then
    ret (add_failed lists
           (JObj [("org_id", Organization.id org);
                  ("org_name", Organization.name org);
                  ("reason", JStr "Access denied")]))
  else
    created <- create_broker_integration server self
                 broker_connection_id
                 (Organization.id org)
                 (Value (fstring [Organization.id org; JStr "-";
                                  broker_connection_id]))
                 (BrokerIntegration.integration_type source_integration) ;;
    if (created : bool) then
      ret (add_success lists
             (JObj [("org_id", Organization.id org);
                    ("org_name", Organization.name org);
                    ("broker_connection_id", broker_connection_id);
                    ("status", JStr "configured")]))
    else
      ret (add_failed lists
             (JObj [("org_id", Organization.id org);
                    ("org_name", Organization.name org);
                    ("reason", JStr "Failed to create broker integration")])).

(** The body of the loop of step 4: the [try] block and its handler. *)
Definition configure_one (broker_connection_id : json)
           (source_integration : BrokerIntegration.t)
           (org : Organization.t) (lists : Results) : M Results :=
  try_except
    (configure_one_steps broker_connection_id source_integration org lists)
    (fun e =>
       ret (add_failed lists
              (JObj [("org_id", Organization.id org);
                     ("org_name", Organization.name org);
                     ("reason", JStr (exn_text e))]))).

(** Step 4 of [configure_broker_for_organizations_bulk]. *)
Definition creation_pass (broker_connection_id : json)
           (source_integration : BrokerIntegration.t)
           (target_orgs : list Organization.t) : M Results :=
  for_each (configure_one broker_connection_id source_integration)
           target_orgs no_results.

(** [configure_broker_for_organizations_bulk] from the point where
    [broker_connection_id] is known. *)
Definition bulk_with_connection (all_orgs : list Organization.t)
           (broker_connection_id : json) : M Results :=
  source_integrations <-
    get_broker_integrations_for_connection server self broker_connection_id ;;
  match source_integration_of source_integrations with
  | None => ret no_results
  | Some source_integration =>
      let target_orgs := target_orgs_of all_orgs in
      _ <- deletion_pass broker_connection_id source_integrations ;;
      creation_pass broker_connection_id source_integration target_orgs
  end.

Definition configure_broker_for_organizations_bulk (fuel : nat)
           (broker_connection_id : json) : M Results :=
  all_orgs <- get_organizations_for_group server self fuel None ;;
  if is_empty all_orgs then ret no_results
  else if negb (truthy broker_connection_id) then
    source_connections <- get_broker_connections server self (source_org_id self) ;;
    match source_connections with
    | [] => ret no_results
    | first :: _ =>
        bulk_with_connection all_orgs (BrokerConnection.id first)
    end
  else bulk_with_connection all_orgs broker_connection_id.

(** Step 3 of [_configure_broker_for_org]: [false] when a removal failed
    and the method returns [False] from inside the loop. *)
Fixpoint remove_existing (broker_connection_id org : json)
         (integrations : list BrokerIntegration.t) : M bool :=
  match integrations with
  | [] => ret true
  | integration :: rest =>
      if py_eq (BrokerIntegration.org_id integration) org then
        removed <- delete_broker_integration server self broker_connection_id org
                     (BrokerIntegration.id integration) ;;
        if negb removed then ret false
        else remove_existing broker_connection_id org rest
      else remove_existing broker_connection_id org rest
  end.

(** The [try] block of [_configure_broker_for_org]. *)
Definition configure_broker_for_org_steps (org broker_connection_id : json)
  : M bool :=
  integrations <-
    get_broker_integrations_for_connection server self broker_connection_id ;;
  match source_integration_of integrations with
  | None => ret false
  | Some source_integration =>
      removed <- remove_existing broker_connection_id org integrations ;;
      if negb removed then ret false
      else
        let integration_type :=
          BrokerIntegration.integration_type source_integration in
        integration_id <- lift (load_global "integration_id") ;;
        created <- create_broker_integration server self broker_connection_id org
                     integration_id integration_type ;;
        if (created : bool) then ret true else ret false
  end.

Definition _configure_broker_for_org (org broker_connection_id : json)
  : M bool :=
  try_except (configure_broker_for_org_steps org broker_connection_id)
             (fun _ => ret false).

(** The body of the loop of [configure_broker_for_organizations]. *)
Definition configure_org (broker_connection_id org : json)
           (results : Results) : M Results :=
  try_except
    (accessible <- validate_organization_access server org ;;
     if negb accessible then
       org_name <- get_organization_name server org ;;
       ret (add_skipped results
              (JObj [("org_id", org);
                     ("org_name", org_name);
                     ("reason", JStr "Organization not accessible")]))
     else
       configured <- _configure_broker_for_org org broker_connection_id ;;
       if (configured : bool) then
         org_name <- get_organization_name server org ;;
         ret (add_success results
                (JObj [("org_id", org);
                       ("org_name", org_name);
                       ("broker_connection_id", broker_connection_id);
                       ("status", JStr "configured")]))
       else
         org_name <- get_organization_name server org ;;
         ret (add_failed results
                (JObj [("org_id", org);
                       ("org_name", org_name);
                       ("reason", JStr "Failed to configure broker integration")])))
    (fun e =>
       org_name <- get_organization_name server org ;;
       ret (add_failed results
              (JObj [("org_id", org);
                     ("org_name", org_name);
                     ("reason", JStr ("Exception: " ++ exn_text e)%string)]))).

Definition configure_broker_for_organizations (fuel : nat)
           (broker_connection_id : json)
           (target_org_ids : option (list json)) : M Results :=
  target_org_ids <-
    match target_org_ids with
    | None =>
        target_orgs <- get_target_organizations_for_broker_config fuel ;;
        ret (map Organization.id target_orgs)
    | Some ids => ret ids
    end ;;
  for_each (configure_org broker_connection_id) target_org_ids no_results.

End Orchestrator.

(* ===================================================================== *)
(** * Vocabulary of the properties *)
(* ===================================================================== *)

(** [issues P m]: whatever the trace [m] starts from, it only appends to it,
    and every request it appends satisfies [P]. *)
Definition issues {A} (P : Request -> Prop) (m : M A) : Prop :=
  forall t, exists new, snd (m t) = t ++ new /\ Forall P new.

Definition is_get (r : Request) : Prop := method r = GET.

(** The organization a URL is scoped to, when it is scoped to one. *)
Definition organization_of_url (u : Url) : option json :=
  match u with
  | url_org org => Some org
  | url_org_integrations org => Some org
  | url_org_integration org _ => Some org
  | url_org_broker_connections org => Some (JStr org)
  | url_connection_org_integrations _ _ org _ => Some org
  | url_connection_org_integration _ _ org => Some org
  | url_group_orgs _ => None
  | url_cursor _ => None
  | url_connection_integrations _ _ => None
  end.

(** A request that leaves the organization [source] as it is: a read, or a
    write scoped to another organization. *)
Definition spares (source : json) (r : Request) : Prop :=
  method r = GET \/
  exists org, organization_of_url (url r) = Some org /\ org <> source.


(** From the trace [t] to the trace [t'], GET requests only were issued. *)
Definition reads_only (t t' : list Request) : Prop :=
  exists new, t' = t ++ new /\ Forall is_get new.

(** Step 2 of [configure_broker_for_organizations_bulk] from the trace [t1]:
    the connection id given, when it is truthy; else the id of the first
    connection that [get_broker_connections] returns for the source
    organization, at the trace [t2] this call leaves. *)
Definition resolved_connection (server : Server) (self : SnykAPI)
           (broker_connection_id : json) (t1 : list Request)
           (resolved : json) (t2 : list Request) : Prop :=
  (truthy broker_connection_id = true /\
   resolved = broker_connection_id /\ t2 = t1)
  \/
  (truthy broker_connection_id = false /\
   exists first rest,
     get_broker_connections server self (source_org_id self) t1 =
     (Ret (first :: rest), t2) /\
     resolved = BrokerConnection.id first).

(** [finishes m]: [m] never runs out of fuel; it returns or raises. *)
Definition finishes {A} (m : M A) : Prop :=
  forall t, fst (m t) <> OutOfFuel.

(** The entries of step 4 of [configure_broker_for_organizations_bulk]. *)
Definition failed_entry (org : Organization.t) (reason : string) : json :=
  JObj [("org_id", Organization.id org);
        ("org_name", Organization.name org);
        ("reason", JStr reason)].

Definition success_entry (org : Organization.t) (connection : json) : json :=
  JObj [("org_id", Organization.id org);
        ("org_name", Organization.name org);
        ("broker_connection_id", connection);
        ("status", JStr "configured")].

(** [recorded lists r orgs]: [r] is [lists] with one more entry, successful
    or failed, for each organization of [orgs], and nothing more skipped. *)
Definition recorded (lists r : Results) (orgs : list Organization.t) : Prop :=
  exists s f,
    success r = success lists ++ s /\
    failed r = failed lists ++ f /\
    skipped r = skipped lists /\
    List.length s + List.length f = List.length orgs /\
    Forall (fun org =>
              exists entry,
                In entry (s ++ f) /\
                py_get entry "org_id" JNull = Ok (Organization.id org))
           orgs.

Definition is_object (v : json) : Prop := exists members, v = JObj members.

(** The request [validate_organization_access] issues for one version. *)
Definition probe (org : json) (version : string) : Request :=
  mkRequest GET (url_org org) [("version", JStr version)] None.

Definition status_of (r : Reply) : option Z :=
  match r with
  | Resp r => Some (status_code r)
  | Raise _ => None
  end.

(** The status the probe of the [i]-th version of [vs] receives when the
    probes of the versions before it have been issued. *)
Definition probe_status (server : Server) (org : json) (vs : list string)
           (t : list Request) (i : nat) : option Z :=
  match nth_error vs i with
  | Some v => status_of (server (t ++ map (probe org) (firstn i vs)) (probe org v))
  | None => None
  end.

(** A status that settles nothing: neither 200 nor 401 nor 403. *)
Definition inconclusive (s : Z) : bool :=
  negb (s =? 200)%Z && negb (s =? 401)%Z && negb (s =? 403)%Z.

(** The request [get_organizations_for_group] issues for one page. *)
Definition page_request (u : Url) : Request :=
  mkRequest GET u [("version", JStr "2024-10-15"); ("limit", JNum 100)] None.

(** The URL the pagination loop follows for a [links.next] cursor. *)
Definition cursor_url (next : string) : Url :=
  if String.prefix "/" next
  then url_cursor ("https://api.snyk.io" ++ next)%string
  else url_cursor next.

(** [Serves server t u pages]: from the trace [t] on, the service answers the
    listing that starts at [u] with the non-empty pages [pages], each a 200
    response whose [links.next] leads to the next one; the listing ends with
    a page that has no cursor, or with a 200 response whose data is empty. *)
Inductive Serves (server : Server)
  : list Request -> Url -> list (list json) -> Prop :=
| serves_end_of_list t u resp doc orgs :
    server t (page_request u) = Resp resp ->
    status_code resp = 200%Z ->
    body resp = Json doc ->
    py_get doc "data" (JArr []) = Ok orgs ->
    truthy orgs = false ->
    Serves server t u []
| serves_last_page t u resp doc items links next :
    server t (page_request u) = Resp resp ->
    status_code resp = 200%Z ->
    body resp = Json doc ->
    py_get doc "data" (JArr []) = Ok (JArr items) ->
    items <> [] ->
    py_get doc "links" (JObj []) = Ok links ->
    py_get links "next" JNull = Ok next ->
    truthy next = false ->
    Serves server t u [items]
| serves_next_page t u resp doc items links next rest :
    server t (page_request u) = Resp resp ->
    status_code resp = 200%Z ->
    body resp = Json doc ->
    py_get doc "data" (JArr []) = Ok (JArr items) ->
    items <> [] ->
    py_get doc "links" (JObj []) = Ok links ->
    py_get links "next" JNull = Ok (JStr next) ->
    next <> "" ->
    Serves server (t ++ [page_request u]) (cursor_url next) rest ->
    Serves server t u (items :: rest).

(** [Breaks server t u n]: from the trace [t] on, the service answers the
    listing that starts at [u] with [n] non-empty pages of organization
    objects, each with a cursor to the next, and then with a response whose
    status is not 200. *)
Inductive Breaks (server : Server) : list Request -> Url -> nat -> Prop :=
| breaks_here t u resp :
    server t (page_request u) = Resp resp ->
    status_code resp <> 200%Z ->
    Breaks server t u 0
| breaks_later t u resp doc items page links next n :
    server t (page_request u) = Resp resp ->
    status_code resp = 200%Z ->
    body resp = Json doc ->
    py_get doc "data" (JArr []) = Ok (JArr items) ->
    items <> [] ->
    res_map organization_of items = Ok page ->
    py_get doc "links" (JObj []) = Ok links ->
    py_get links "next" JNull = Ok (JStr next) ->
    next <> "" ->
    Breaks server (t ++ [page_request u]) (cursor_url next) n ->
    Breaks server t u (S n).

(** The group the listing is asked for: the argument, else the client's. *)
Definition listed_group (self : SnykAPI) (group : option string)
  : option string :=
  match group with
  | None => group_id self
  | Some g => Some g
  end.

(** The DELETE that [delete_broker_integration] issues. *)
Definition broker_delete (tenant : string) (connection : json)
           (integration : BrokerIntegration.t) : Request :=
  mkRequest DELETE
            (url_connection_org_integrations tenant connection
               (BrokerIntegration.org_id integration)
               (BrokerIntegration.id integration))
            [("version", JStr "2025-09-28")] None.

(** The POST that [create_broker_integration] issues. *)
Definition broker_create (tenant : string) (connection org integration_type : json)
  : Request :=
  mkRequest POST (url_connection_org_integration tenant connection org)
            [("version", JStr "2025-09-28")]
            (Some (JObj [("data", JObj [("type", integration_type)])])).

(* ===================================================================== *)
(** * A scenario: one tenant, one group of four organizations *)
(* ===================================================================== *)

Module Scenario.

Definition org_data (id name : string) : json :=
  JObj [("id", JStr id); ("type", JStr "org");
        ("attributes", JObj [("name", JStr name); ("slug", JStr (lower name))])].

Definition binding (id org integration_type : string) : json :=
  JObj [("id", JStr id); ("org_id", JStr org);
        ("integration_type", JStr integration_type)].

Definition integration (id integration_type connection : string) : json :=
  JObj [("id", JStr id); ("connection", JStr connection);
        ("attributes", JObj [("type", JStr integration_type)])].

Definition ok (doc : json) : Reply := Resp (mkResponse 200 (Json doc)).

Definition status (code : Z) : Reply :=
  Resp (mkResponse code (Json (JObj [("errors", JArr [])]))).

Definition version_of (rq : Request) : json :=
  match lookup "version" (params rq) with
  | Some v => v
  | None => JNull
  end.

Definition page1 : list json := [org_data "A" "Alpha"; org_data "B" "Beta"].
Definition page2 : list json := [org_data "C" "Gamma"; org_data "D" "Delta"].

(** What the service answers to a GET.  Group [g1] holds A (the source), B,
    C and D on two pages; group [g0] is empty; the second page of group
    [g2] is not found; the connection [conn1] binds A, B and X, an
    organization of the tenant that is not in [g1].  B answers the older
    API versions only, the probe of C breaks the connection, D denies
    access. *)
Definition read (rq : Request) : Reply :=
  match url rq with
  | url_group_orgs "g1" =>
      ok (JObj [("data", JArr page1);
                ("links", JObj [("next",
                   JStr "/rest/groups/g1/orgs?starting_after=B")])])
  | url_cursor "https://api.snyk.io/rest/groups/g1/orgs?starting_after=B" =>
      ok (JObj [("data", JArr page2); ("links", JObj [])])
  | url_group_orgs "g0" => ok (JObj [("data", JArr [])])
  | url_group_orgs "g2" =>
      ok (JObj [("data", JArr page1);
                ("links", JObj [("next",
                   JStr "/rest/groups/g2/orgs?starting_after=B")])])
  | url_org (JStr "B") =>
      if py_eq (version_of rq) (JStr "2024-10-15") then status 404
      else ok (JObj [("data", org_data "B" "Beta")])
  | url_org (JStr "C") =>
      Raise (Exn RequestException "Connection aborted.")
  | url_org (JStr "D") => status 403
  | url_org_broker_connections "A" =>
      ok (JObj [("data", JArr [JObj [("id", JStr "conn1");
                                      ("attributes",
                                       JObj [("name", JStr "relay")])]])])
  | url_connection_integrations "t1" (JStr "conn1") =>
      ok (JObj [("data", JArr [binding "i1" "A" "bitbucket-server";
                                binding "i2" "B" "bitbucket-server";
                                binding "i9" "X" "github"])])
  | url_connection_integrations "t1" (JStr "conn2") =>
      ok (JObj [("data", JArr [binding "i7" "B" "gitlab"])])
  | url_org_integrations (JStr "B") =>
      ok (JObj [("data", JArr [integration "n1" "snyk-broker" "conn1";
                                integration "n2" "github" "conn1";
                                integration "n3" "Broker-GitLab" "conn2"])])
  | url_org_integrations (JStr "D") =>
      ok (JObj [("data", JArr [integration "n4" "snyk-broker" "conn1";
                                integration "n5" "broker" "conn1"])])
  | _ => status 404
  end.

(** The service: it reads as above, refuses to delete the binding [i2],
    deletes anything else, and creates a binding for B only. *)
Definition service : Server :=
  fun _ rq =>
    match method rq with
    | GET => read rq
    | DELETE =>
        match url rq with
        | url_connection_org_integrations _ _ _ binding_id =>
            if py_eq binding_id (JStr "i2") then status 500 else status 204
        | url_org_integration _ _ => status 204
        | _ => status 404
        end
    | POST =>
        match url rq with
        | url_connection_org_integration _ _ org =>
            if py_eq org (JStr "B") then status 201 else status 404
        | _ => status 404
        end
    | PATCH => status 404
    end.

(** A client of tenant [t1] for a group and a source organization. *)
Definition client_of (group source : string) : SnykAPI :=
  mkSnykAPI "token" (Some "t1") (Some group) (Some source) "SNYK-US-01" false.

Definition client : SnykAPI := client_of "g1" "A".

Definition organization (id name : string) : Organization.t :=
  Organization.mk (JStr id) (JStr name) (JStr (lower name)) (JStr "")
                  (JBool false) (JBool false) (JStr "") (JStr "").

(** The records of the four organizations of [g1], in API order. *)
Definition organizations : list Organization.t :=
  [organization "A" "Alpha"; organization "B" "Beta";
   organization "C" "Gamma"; organization "D" "Delta"].

End Scenario.

Module Example8.

(** The example of section 8 of the specification: the group holds A (the
    source), B and C; the connection [conn1] binds A with integration type
    [bitbucket-server] and B with a stale integration; C has none. *)
Definition service : Server :=
  fun _ rq =>
    match method rq with
    | GET =>
        match url rq with
        | url_group_orgs _ =>
            Scenario.ok
              (JObj [("data", JArr [Scenario.org_data "A" "Alpha";
                                     Scenario.org_data "B" "Beta";
                                     Scenario.org_data "C" "Gamma"])])
        | url_connection_integrations _ _ =>
            Scenario.ok
              (JObj [("data",
                      JArr [Scenario.binding "i1" "A" "bitbucket-server";
                            Scenario.binding "i2" "B" "bitbucket-server"])])
        | url_org _ => Scenario.ok (JObj [("data", JObj [])])
        | _ => Scenario.status 404
        end
    | DELETE => Scenario.status 204
    | POST => Scenario.status 201
    | PATCH => Scenario.status 404
    end.

Definition B : Organization.t := Scenario.organization "B" "Beta".
Definition C : Organization.t := Scenario.organization "C" "Gamma".

End Example8.

(* ===================================================================== *)
(** * The gateway: generic integrations and the raw group listing *)
(* ===================================================================== *)

Section GenericIntegrations.

Variable server : Server.

Definition create_integration (org integration_type settings : json) : M json :=
  resp <- _make_request server POST (url_org_integrations org)
            [("version", JStr "2024-10-15")]
            (Some (JObj [("data",
                          JObj [("type", JStr "integration");
                                ("attributes",
                                 JObj [("type", integration_type);
                                       ("settings", settings)])])])) ;;
  if (status_code resp =? 201)%Z then
    data <- lift (json_of resp) ;;
    lift (py_get data "data" JNull)
  else ret JNull.

Definition update_integration (org integration_id settings : json) : M json :=
  resp <- _make_request server PATCH (url_org_integration org integration_id)
            [("version", JStr "2024-10-15")]
            (Some (JObj [("data",
                          JObj [("type", JStr "integration");
                                ("id", integration_id);
                                ("attributes",
                                 JObj [("settings", settings)])])])) ;;
  if (status_code resp =? 200)%Z then
    data <- lift (json_of resp) ;;
    lift (py_get data "data" JNull)
  else ret JNull.

Definition configure_broker_integration (org broker_settings : json) : M json :=
  existing_brokers <- get_broker_integrations server org ;;
  match existing_brokers with
  | first :: _ =>
      broker_id <- lift (py_get first "id" JNull) ;;
      update_integration org broker_id broker_settings
  | [] => create_integration org (JStr "snyk-broker") broker_settings
  end.

(** The [try] block of the loop of [mass_configure_broker]. *)
Definition mass_configure_steps (broker_settings org : json)
           (results : Results) : M Results :=
  accessible <- validate_organization_access server org ;;
  if negb accessible then
    ret (add_skipped results
           (JObj [("org_id", org);
                  ("reason", JStr "Organization not accessible")]))
  else
    result <- configure_broker_integration org broker_settings ;;
    if truthy result then
      org_name <- get_organization_name server org ;;
      integration_id <- lift (py_get result "id" JNull) ;;
      ret (add_success results
             (JObj [("org_id", org);
                    ("org_name", org_name);
                    ("integration_id", integration_id);
                    ("status", JStr "configured")]))
    else
      org_name <- get_organization_name server org ;;
      ret (add_failed results
             (JObj [("org_id", org);
                    ("org_name", org_name);
                    ("reason", JStr "Failed to configure broker integration")])).

(** The body of the loop of [mass_configure_broker]: the [try] block and its
    handler. *)
Definition mass_configure_one (broker_settings org : json)
           (results : Results) : M Results :=
  try_except
    (mass_configure_steps broker_settings org results)
    (fun e =>
       org_name <- get_organization_name server org ;;
       ret (add_failed results
              (JObj [("org_id", org);
                     ("org_name", org_name);
                     ("reason", JStr ("Exception: " ++ exn_text e)%string)]))).

Definition mass_configure_broker (org_ids : list json) (broker_settings : json)
  : M Results :=
  for_each (mass_configure_one broker_settings) org_ids no_results.

(** The [while True] loop of [_get_group_orgs_with_version]; [None] is the
    [return None] of the error branches. *)
Fixpoint group_orgs_raw_pages (fuel : nat) (version : string) (u : Url)
         (all_orgs : list json) : M (option (list json)) :=
  match fuel with
  | O => fun t => (OutOfFuel, t)
  | S fuel' =>
      resp <- _make_request server GET u
                [("version", JStr version); ("limit", JNum 100)] None ;;
      if (status_code resp =? 200)%Z then
        data <- lift (json_of resp) ;;
        orgs <- lift (py_get data "data" (JArr [])) ;;
        if negb (truthy orgs) then ret (Some all_orgs)
        else
          items <- lift (py_iter orgs) ;;
          let all_orgs := all_orgs ++ items in
          links <- lift (py_get data "links" (JObj [])) ;;
          next_url <- lift (py_get links "next" JNull) ;;
          if negb (truthy next_url) then ret (Some all_orgs)
          else
            absolute <- lift (py_startswith next_url "/") ;;
            let u' := if absolute
                      then url_cursor ("https://api.snyk.io" ++ py_str next_url)%string
                      else url_cursor (py_str next_url) in
            group_orgs_raw_pages fuel' version u' all_orgs
      else if (status_code resp =? 404)%Z then ret None
      else if ((status_code resp =? 403) || (status_code resp =? 401))%Z
           then ret None
      else ret None
  end.

Definition _get_group_orgs_with_version (fuel : nat) (group version : string)
  : M (option (list json)) :=
  group_orgs_raw_pages fuel version (url_group_orgs group) [].

End GenericIntegrations.

(* ===================================================================== *)
(** * The command line: [main] of [broker_mass_configure.py] *)
(* ===================================================================== *)

Module Args.
(** What [parser.parse_args()] returns: the required options are strings,
    the optional ones default to [None], the flags to [False]. *)
Record t : Type := mk {
  snyk_token : string;
  tenant_id : string;
  group_id : string;
  source_org_id : option string;
  broker_connection_id : option string;
  remove_connection : option string;
  dry_run : bool;
  debug : bool
}.
End Args.

(** The client [main] builds from its arguments. *)
Definition client_of_args (args : Args.t) : SnykAPI :=
  mkSnykAPI (Args.snyk_token args)
            (Some (Args.tenant_id args))
            (Some (Args.group_id args))
            (Args.source_org_id args)
            "SNYK-US-01"
            (Args.debug args).

(** The connection [main] selects in step 4: the one whose id is the
    [--broker-connection-id] given ([for ... break]), else the first. *)
Definition selected_connection (args : Args.t)
           (broker_connections : list BrokerConnection.t)
  : option BrokerConnection.t :=
  if truthy (of_optional (Args.broker_connection_id args)) then
    find (fun connection =>
            py_eq (BrokerConnection.id connection)
                  (of_optional (Args.broker_connection_id args)))
         broker_connections
  else
    match broker_connections with
    | [] => None
    | first :: _ => Some first
    end.

Section Main.

Variable server : Server.

(** The removal mode of [main] (lines 60 to 88): the call of
    [snyk.remove_connection_from_all_orgs], a method [SnykAPI] does not
    define, and the report of its result. *)
Variable removal_mode : SnykAPI -> Args.t -> M unit.

(** The [try] block of [main]; the value is the exit status of a normal
    return.  What is printed is left out. *)
Definition main_steps (args : Args.t) (fuel : nat) : M Z :=
  let snyk := client_of_args args in
  if truthy (of_optional (Args.remove_connection args)) then
    _ <- removal_mode snyk args ;;
    ret 0%Z
  else
    all_orgs <- get_organizations_for_group server snyk fuel None ;;
    target_orgs <- get_target_organizations_for_broker_config server snyk fuel ;;
    if is_empty target_orgs then ret 0%Z
    else
      broker_connections <- get_broker_connections server snyk None ;;
      if is_empty broker_connections then ret 0%Z
      else
        match selected_connection args broker_connections with
        | None => ret 0%Z
        | Some selected =>
            if Args.dry_run args then ret 0%Z
            else
              results <- configure_broker_for_organizations_bulk
                           server snyk fuel (BrokerConnection.id selected) ;;
              ret 0%Z
        end.

(** [main], as the exit status of the process: 2 from [parser.error], 1
    from the [sys.exit(1)] of the handler, 0 from a normal return. *)
Definition main (args : Args.t) (fuel : nat) : M Z :=
  if negb (truthy (of_optional (Args.remove_connection args))) &&
     negb (truthy (of_optional (Args.source_org_id args)))
  then ret 2%Z
  else try_except (main_steps args fuel) (fun _ => ret 1%Z).

End Main.

(** The attributes of a [SnykAPI] object whose name does not start with two
    underscores: those [__init__] assigns, then the methods the class
    defines.  The class has no base but [object], whose attributes all
    start with two underscores, and defines no [__getattr__]. *)
Definition SnykAPI_attributes : list string :=
  ["token"; "tenant_id"; "group_id"; "source_org_id"; "region"; "debug";
   "base_url"; "session"; "logger";
   "_debug_log"; "_make_request"; "get_organizations";
   "get_organizations_for_group"; "_get_group_orgs_with_version";
   "validate_organization_access"; "get_organization_details";
   "get_organization_name"; "get_targets_for_org";
   "_get_targets_with_version"; "get_projects_for_org";
   "get_project_details"; "get_integrations_for_org"; "create_integration";
   "update_integration"; "delete_integration"; "get_broker_integrations";
   "configure_broker_integration"; "mass_configure_broker";
   "get_organization_settings"; "update_organization_settings";
   "get_broker_connections"; "get_target_organizations_for_broker_config";
   "configure_broker_for_organizations_bulk";
   "configure_broker_for_organizations";
   "get_broker_integrations_for_connection"; "delete_broker_integration";
   "create_broker_integration"; "_configure_broker_for_org"].

(** [snyk.<name>] on a [SnykAPI] object, for a name without the two leading
    underscores: the attribute is found, or [AttributeError] is raised. *)
Definition load_attribute (n : string) : res unit :=
  if existsb (String.eqb n) SnykAPI_attributes
  then Ok tt
  else Err (Exn AttributeError
                ("'SnykAPI' object has no attribute '" ++ n ++ "'")%string).

(** The removal mode of [main] (lines 59 to 88).  The call
    [snyk.remove_connection_from_all_orgs(...)] first looks the method up on
    the client; [report] is what follows the lookup: the call itself and the
    report of its result. *)
Definition removal_mode_of_main (report : SnykAPI -> Args.t -> M unit)
           (snyk : SnykAPI) (args : Args.t) : M unit :=
  _ <- lift (load_attribute "remove_connection_from_all_orgs") ;;
  report snyk args.

(* ===================================================================== *)
(** * Vocabulary of the further properties *)
(* ===================================================================== *)

(** The [ValueError] of a method that needs the tenant id. *)
Definition tenant_missing : exn :=
  Exn ValueError "Tenant ID must be provided in constructor".

(** The requests of [create_integration] and [update_integration]. *)
Definition integration_create (org integration_type settings : json) : Request :=
  mkRequest POST (url_org_integrations org)
            [("version", JStr "2024-10-15")]
            (Some (JObj [("data",
                          JObj [("type", JStr "integration");
                                ("attributes",
                                 JObj [("type", integration_type);
                                       ("settings", settings)])])])).

Definition integration_update (org integration_id settings : json) : Request :=
  mkRequest PATCH (url_org_integration org integration_id)
            [("version", JStr "2024-10-15")]
            (Some (JObj [("data",
                          JObj [("type", JStr "integration");
                                ("id", integration_id);
                                ("attributes",
                                 JObj [("settings", settings)])])])).

(** The GET requests of the three listings of integrations and connections. *)
Definition integrations_request (org : json) : Request :=
  mkRequest GET (url_org_integrations org) [("version", JStr "2024-10-15")] None.

Definition connections_request (org : string) : Request :=
  mkRequest GET (url_org_broker_connections org)
            [("version", JStr "2025-09-28"); ("limit", JNum 100)] None.

Definition connection_integrations_request (tenant : string) (connection : json)
  : Request :=
  mkRequest GET (url_connection_integrations tenant connection)
            [("version", JStr "2025-09-28")] None.

(** The entries of [mass_configure_broker] and of
    [configure_broker_for_organizations]. *)
Definition named_failure (org org_name : json) (reason : string) : json :=
  JObj [("org_id", org); ("org_name", org_name); ("reason", JStr reason)].

Definition configured_entry (org org_name integration_id : json) : json :=
  JObj [("org_id", org); ("org_name", org_name);
        ("integration_id", integration_id); ("status", JStr "configured")].

(** The number of entries of a result record. *)
Definition total (r : Results) : nat :=
  List.length (success r) + List.length (failed r) + List.length (skipped r).

(** [accounts results r ids]: [r] is [results] with one more entry,
    successful, failed or skipped, for each organization id of [ids]. *)
Definition accounts (results r : Results) (ids : list json) : Prop :=
  exists s f k,
    success r = success results ++ s /\
    failed r = failed results ++ f /\
    skipped r = skipped results ++ k /\
    List.length s + List.length f + List.length k = List.length ids /\
    Forall (fun org =>
              exists entry,
                In entry (s ++ f ++ k) /\
                py_get entry "org_id" JNull = Ok org)
           ids.

(** Text of ASCII characters only, on which [lower] is [str.lower]. *)
Definition ascii_text (s : string) : bool :=
  forallb (fun c => Nat.ltb (nat_of_ascii c) 128) (list_ascii_of_string s).

(** The test a reader of [get_broker_integrations] expects: the type, in
    lower case, mentions [broker]. *)
Definition mentions_broker (integration_type : string) : bool :=
  contains "broker" (lower integration_type).

(** An integration whose [attributes.type] is a text that mentions
    [broker]; one without [attributes] or without [type] is none. *)
Definition broker_typed (integration : json) : bool :=
  match integration with
  | JObj members =>
      match lookup "attributes" members with
      | Some (JObj attrs) =>
          match lookup "type" attrs with
          | Some (JStr integration_type) => mentions_broker integration_type
          | _ => false
          end
      | _ => false
      end
  | _ => false
  end.

(** An integration whose [attributes.type], when it is a text, is ASCII. *)
Definition ascii_typed (integration : json) : bool :=
  match integration with
  | JObj members =>
      match lookup "attributes" members with
      | Some (JObj attrs) =>
          match lookup "type" attrs with
          | Some (JStr integration_type) => ascii_text integration_type
          | _ => true
          end
      | _ => true
      end
  | _ => true
  end.




(** The two requests step 4 of [configure_broker_for_organizations_bulk]
    issues for an organization that answers the first probe. *)
Definition configuring (tenant : string) (connection integration_type : json)
           (org : Organization.t) : list Request :=
  [probe (Organization.id org) "2024-10-15";
   broker_create tenant connection (Organization.id org) integration_type].

(** The DELETE that [_configure_broker_for_org] issues for an integration
    of the organization it configures. *)
Definition org_delete (tenant : string) (connection org : json)
           (integration : BrokerIntegration.t) : Request :=
  mkRequest DELETE
            (url_connection_org_integrations tenant connection org
               (BrokerIntegration.id integration))
            [("version", JStr "2025-09-28")] None.

(** A write of [mass_configure_broker] that stays within [org_ids]: no
    DELETE, and a POST or PATCH scoped to one of the organizations given. *)
Definition configures_within (org_ids : list json) (r : Request) : Prop :=
  method r = GET \/
  (method r <> DELETE /\
   exists org, In org org_ids /\ organization_of_url (url r) = Some org).

(** What the typed listing makes of the result of the raw one. *)
Definition organizations_of (raw : option (list json))
  : res (list Organization.t) :=
  match raw with
  | Some items => res_map organization_of items
  | None => Ok []
  end.

(* ===================================================================== *)
(** * A second scenario: the integrations of single organizations *)
(* ===================================================================== *)

Module Estate.

(** A service for the per-organization integrations: E has two broker
    integrations, the first of which can be updated; F and G have none, and
    the creation for G is answered without a [data] member; the details of
    G carry no attributes; the integrations of N are answered with a null
    [data]; H is unknown. *)
Definition service : Server :=
  fun _ rq =>
    match method rq with
    | GET =>
        match url rq with
        | url_org (JStr "E") =>
            Scenario.ok (JObj [("data", Scenario.org_data "E" "Echo")])
        | url_org (JStr "F") =>
            Scenario.ok (JObj [("data", Scenario.org_data "F" "Foxtrot")])
        | url_org (JStr "G") =>
            Scenario.ok (JObj [("data", JObj [("id", JStr "G")])])
        | url_org_integrations (JStr "E") =>
            Scenario.ok
              (JObj [("data",
                      JArr [Scenario.integration "n1" "github" "conn1";
                            Scenario.integration "n2" "Snyk-Broker" "conn1";
                            Scenario.integration "n3" "broker" "conn2"])])
        | url_org_integrations (JStr "N") => Scenario.ok (JObj [("data", JNull)])
        | url_org_integrations _ => Scenario.ok (JObj [("data", JArr [])])
        | _ => Scenario.status 404
        end
    | PATCH =>
        match url rq with
        | url_org_integration (JStr "E") (JStr "n2") =>
            Scenario.ok (JObj [("data", JObj [("id", JStr "n2")])])
        | _ => Scenario.status 404
        end
    | POST =>
        match url rq with
        | url_org_integrations (JStr "F") =>
            Resp (mkResponse 201 (Json (JObj [("data", JObj [("id", JStr "n7")])])))
        | url_org_integrations (JStr "G") =>
            Resp (mkResponse 201 (Json (JObj [])))
        | _ => Scenario.status 404
        end
    | DELETE => Scenario.status 404
    end.

Definition settings : json :=
  JObj [("broker_server_url", JStr "https://broker.snyk.io")].

End Estate.

(* ===================================================================== *)
(** * Reasoning about the trace *)
(* ===================================================================== *)

Lemma issues_ret {A} (P : Request -> Prop) (a : A) : issues P (ret a).
Proof. intros t. exists []. simpl. rewrite app_nil_r. auto. Qed.

Lemma issues_raise {A} (P : Request -> Prop) (e : exn) : issues P (@raise A e).
Proof. intros t. exists []. simpl. rewrite app_nil_r. auto. Qed.

Lemma issues_out_of_fuel {A} (P : Request -> Prop) :
  issues P (fun t => (@OutOfFuel A, t)).
Proof. intros t. exists []. simpl. rewrite app_nil_r. auto. Qed.

Lemma issues_lift {A} (P : Request -> Prop) (r : res A) : issues P (lift r).
Proof. destruct r; [apply issues_ret | apply issues_raise]. Qed.

Lemma issues_bind {A B} (P : Request -> Prop) (m : M A) (k : A -> M B) :
  issues P m -> (forall a, issues P (k a)) -> issues P (bind m k).
Proof.
  intros Hm Hk t. unfold bind.
  destruct (Hm t) as [n1 [E1 F1]].
  destruct (m t) as [[a | e | ] t1]; simpl in E1; subst t1;
    try solve [exists n1; simpl; auto].
  destruct (Hk a (t ++ n1)) as [n2 [E2 F2]].
  exists (n1 ++ n2). rewrite E2, app_assoc. split; [reflexivity|].
  apply Forall_app; auto.
Qed.

Lemma issues_try_except {A} (P : Request -> Prop) (m : M A) (h : exn -> M A) :
  issues P m -> (forall e, issues P (h e)) -> issues P (try_except m h).
Proof.
  intros Hm Hh t. unfold try_except.
  destruct (Hm t) as [n1 [E1 F1]].
  destruct (m t) as [[a | e | ] t1]; simpl in E1; subst t1;
    try solve [exists n1; simpl; auto].
  destruct (Hh e (t ++ n1)) as [n2 [E2 F2]].
  exists (n1 ++ n2). rewrite E2, app_assoc. split; [reflexivity|].
  apply Forall_app; auto.
Qed.

Lemma issues_for_each {A S} (P : Request -> Prop) (body : A -> S -> M S)
      (l : list A) :
  (forall x s, In x l -> issues P (body x s)) ->
  forall s, issues P (for_each body l s).
Proof.
  induction l as [| x xs IH]; intros H s; simpl.
  - apply issues_ret.
  - apply issues_bind.
    + apply H. left. reflexivity.
    + intros s'. apply IH. intros y s0 Hy. apply H. right. exact Hy.
Qed.

Lemma issues_weaken {A} (P Q : Request -> Prop) (m : M A) :
  (forall r, P r -> Q r) -> issues P m -> issues Q m.
Proof.
  intros HPQ Hm t. destruct (Hm t) as [new [E F]].
  exists new. split; [exact E|].
  eapply Forall_impl; [exact HPQ | exact F].
Qed.

Lemma issues_make_request (P : Request -> Prop) server m u ps js :
  P (mkRequest m u ps js) -> issues P (_make_request server m u ps js).
Proof.
  intros HP t. unfold _make_request.
  exists [mkRequest m u ps js].
  destruct (server t _); simpl; auto.
Qed.

(** Breaks a goal [issues P m] along the structure of [m]; what is left are
    the requests themselves and the calls to other methods. *)
Ltac issues_step :=
  match goal with
  | |- issues _ (bind _ _) => apply issues_bind; [| intros ?]
  | |- issues _ (ret _) => apply issues_ret
  | |- issues _ (raise _) => apply issues_raise
  | |- issues _ (lift _) => apply issues_lift
  | |- issues _ (try_except _ _) => apply issues_try_except; [| intros ?]
  | |- issues _ (_make_request _ _ _ _ _) => apply issues_make_request
  | |- issues _ (if ?b then _ else _) => destruct b
  | |- issues _ (match ?x with _ => _ end) => destruct x
  end.

Lemma group_orgs_pages_reads server fuel :
  forall u all_orgs, issues is_get (group_orgs_pages server fuel u all_orgs).
Proof.
  induction fuel as [| fuel IH]; intros u all_orgs; simpl.
  - apply issues_out_of_fuel.
  - repeat issues_step; try reflexivity; apply IH.
Qed.

Lemma get_organizations_for_group_reads server self fuel group :
  issues is_get (get_organizations_for_group server self fuel group).
Proof.
  unfold get_organizations_for_group.
  issues_step; [issues_step |]. apply group_orgs_pages_reads.
Qed.

Lemma validate_versions_reads server org vs :
  issues is_get (validate_versions server org vs).
Proof.
  induction vs as [| v vs IH]; simpl.
  - apply issues_ret.
  - repeat issues_step; try reflexivity; apply IH.
Qed.

Lemma validate_organization_access_reads server org :
  issues is_get (validate_organization_access server org).
Proof. apply validate_versions_reads. Qed.

Lemma get_organization_name_reads server org :
  issues is_get (get_organization_name server org).
Proof.
  unfold get_organization_name, get_organization_details.
  repeat issues_step; reflexivity.
Qed.

Lemma get_broker_integrations_reads server org :
  issues is_get (get_broker_integrations server org).
Proof.
  unfold get_broker_integrations, get_integrations_for_org.
  repeat issues_step; reflexivity.
Qed.

Lemma get_broker_connections_reads server self org :
  issues is_get (get_broker_connections server self org).
Proof.
  unfold get_broker_connections. repeat issues_step; reflexivity.
Qed.

Lemma get_broker_integrations_for_connection_reads server self connection :
  issues is_get (get_broker_integrations_for_connection server self connection).
Proof.
  unfold get_broker_integrations_for_connection.
  repeat issues_step; reflexivity.
Qed.

(* ===================================================================== *)
(** * Calls that need no fuel *)
(* ===================================================================== *)

Lemma finishes_ret {A} (a : A) : finishes (ret a).
Proof. intros t. discriminate. Qed.

Lemma finishes_raise {A} (e : exn) : finishes (@raise A e).
Proof. intros t. discriminate. Qed.

Lemma finishes_lift {A} (r : res A) : finishes (lift r).
Proof. destruct r; [apply finishes_ret | apply finishes_raise]. Qed.

Lemma finishes_bind {A B} (m : M A) (k : A -> M B) :
  finishes m -> (forall a, finishes (k a)) -> finishes (bind m k).
Proof.
  intros Hm Hk t. unfold bind. specialize (Hm t).
  destruct (m t) as [[a | e | ] t1]; simpl in *.
  - apply Hk.
  - discriminate.
  - destruct Hm. reflexivity.
Qed.

Lemma finishes_try_except {A} (m : M A) (h : exn -> M A) :
  finishes m -> (forall e, finishes (h e)) -> finishes (try_except m h).
Proof.
  intros Hm Hh t. unfold try_except. specialize (Hm t).
  destruct (m t) as [[a | e | ] t1]; simpl in *.
  - discriminate.
  - apply Hh.
  - destruct Hm. reflexivity.
Qed.

Lemma finishes_for_each {A S} (body : A -> S -> M S) (l : list A) :
  (forall x s, finishes (body x s)) -> forall s, finishes (for_each body l s).
Proof.
  intros H. induction l as [| x xs IH]; intros s; simpl.
  - apply finishes_ret.
  - apply finishes_bind; [apply H | exact IH].
Qed.

Lemma finishes_make_request server m u ps js :
  finishes (_make_request server m u ps js).
Proof. intros t. unfold _make_request. destruct (server t _); discriminate. Qed.

Ltac finishes_step :=
  match goal with
  | |- finishes (bind _ _) => apply finishes_bind; [| intros ?]
  | |- finishes (ret _) => apply finishes_ret
  | |- finishes (raise _) => apply finishes_raise
  | |- finishes (lift _) => apply finishes_lift
  | |- finishes (try_except _ _) => apply finishes_try_except; [| intros ?]
  | |- finishes (_make_request _ _ _ _ _) => apply finishes_make_request
  | |- finishes (if ?b then _ else _) => destruct b
  | |- finishes (match ?x with _ => _ end) => destruct x
  end.

Lemma validate_organization_access_finishes server org :
  finishes (validate_organization_access server org).
Proof.
  unfold validate_organization_access. generalize versions. intros vs.
  induction vs as [| v vs IH]; simpl.
  - apply finishes_ret.
  - repeat finishes_step; exact IH.
Qed.

Lemma get_organization_name_finishes server org :
  finishes (get_organization_name server org).
Proof.
  unfold get_organization_name, get_organization_details.
  repeat finishes_step.
Qed.

Lemma get_broker_integrations_finishes server org :
  finishes (get_broker_integrations server org).
Proof.
  unfold get_broker_integrations, get_integrations_for_org.
  repeat finishes_step.
Qed.

Lemma delete_integration_finishes server org integration :
  finishes (delete_integration server org integration).
Proof. unfold delete_integration. repeat finishes_step. Qed.

Lemma get_broker_connections_finishes server self org :
  finishes (get_broker_connections server self org).
Proof. unfold get_broker_connections. repeat finishes_step. Qed.

Lemma get_broker_integrations_for_connection_finishes server self connection :
  finishes (get_broker_integrations_for_connection server self connection).
Proof. unfold get_broker_integrations_for_connection. repeat finishes_step. Qed.

Lemma delete_broker_integration_finishes server self connection org integration :
  finishes (delete_broker_integration server self connection org integration).
Proof. unfold delete_broker_integration. repeat finishes_step. Qed.

Lemma create_broker_integration_finishes server self connection org i ty :
  finishes (create_broker_integration server self connection org i ty).
Proof. unfold create_broker_integration. repeat finishes_step. Qed.

Lemma remove_existing_finishes server self connection org integrations :
  finishes (remove_existing server self connection org integrations).
Proof.
  induction integrations as [| i rest IH]; simpl.
  - apply finishes_ret.
  - repeat first [exact IH | apply delete_broker_integration_finishes | finishes_step].
Qed.

Lemma configure_one_finishes server self connection source_integration org lists :
  finishes (configure_one server self connection source_integration org lists).
Proof.
  unfold configure_one, configure_one_steps.
  repeat first [ apply validate_organization_access_finishes
               | apply create_broker_integration_finishes
               | finishes_step ].
Qed.

(* ===================================================================== *)
(** * List and value lemmas *)
(* ===================================================================== *)

Lemma firstn_S_nth {A} (l : list A) i x rest :
  skipn i l = x :: rest -> firstn (S i) l = firstn i l ++ [x] /\ skipn (S i) l = rest.
Proof.
  revert l. induction i as [| i IH]; intros l H.
  - simpl in H. subst l. auto.
  - destruct l as [| y l]; [discriminate |]. simpl in H.
    destruct (IH _ H) as [E1 E2]. split; [| exact E2].
    change (firstn (S (S i)) (y :: l)) with (y :: firstn (S i) l).
    rewrite E1. reflexivity.
Qed.


Lemma skipn_nil_length {A} (l : list A) i : skipn i l = [] -> List.length l <= i.
Proof.
  intros H. apply (f_equal (@List.length _)) in H.
  rewrite length_skipn in H. simpl in H. lia.
Qed.

Lemma skipn_cons_length {A} (l : list A) i x rest :
  skipn i l = x :: rest -> i < List.length l.
Proof.
  intros H. apply (f_equal (@List.length _)) in H.
  rewrite length_skipn in H. simpl in H. lia.
Qed.

Lemma res_map_app {A B} (f : A -> res B) (l1 l2 : list A) r :
  res_map f (l1 ++ l2) = Ok r ->
  exists r1 r2, res_map f l1 = Ok r1 /\ res_map f l2 = Ok r2 /\ r = r1 ++ r2.
Proof.
  revert r. induction l1 as [| x l1 IH]; intros r H; simpl in *.
  - exists [], r. auto.
  - destruct (f x) as [y | e]; simpl in *; [| discriminate].
    destruct (res_map f (l1 ++ l2)) as [ys | e]; simpl in *; [| discriminate].
    injection H as <-.
    destruct (IH ys eq_refl) as [r1 [r2 [E1 [E2 E3]]]].
    exists (y :: r1), r2. rewrite E1, E2, E3. auto.
Qed.

Lemma res_map_length {A B} (f : A -> res B) (l : list A) r :
  res_map f l = Ok r -> List.length r = List.length l.
Proof.
  revert r. induction l as [| x l IH]; intros r H; simpl in *.
  - injection H as <-. reflexivity.
  - destruct (f x) as [y | e]; simpl in *; [| discriminate].
    destruct (res_map f l) as [ys | e]; simpl in *; [| discriminate].
    injection H as <-. simpl. rewrite (IH ys eq_refl). reflexivity.
Qed.

Lemma truthy_JStr s : s <> "" -> truthy (JStr s) = true.
Proof.
  intros H. simpl. destruct (String.eqb_spec s ""); [contradiction | reflexivity].
Qed.

Lemma truthy_JArr items : items <> [] -> truthy (JArr items) = true.
Proof. destruct items; [contradiction | reflexivity]. Qed.

(* ===================================================================== *)
(** * validate_organization_access: the version fallback *)
(* ===================================================================== *)

Lemma probe_status_tail server org v vs t j :
  probe_status server org (v :: vs) t (S j) =
  probe_status server org vs (t ++ [probe org v]) j.
Proof.
  unfold probe_status. simpl.
  destruct (nth_error vs j); [| reflexivity].
  rewrite <- app_assoc. reflexivity.
Qed.

Lemma validate_versions_step server org v vs t s :
  probe_status server org (v :: vs) t 0 = Some s ->
  validate_versions server org (v :: vs) t =
  if (s =? 200)%Z then (Ret true, t ++ [probe org v])
  else if inconclusive s then validate_versions server org vs (t ++ [probe org v])
  else (Ret false, t ++ [probe org v]).
Proof.
  unfold probe_status. simpl. rewrite app_nil_r.
  unfold bind, _make_request. fold (probe org v).
  destruct (server t (probe org v)) as [r | e]; simpl; [| discriminate].
  intros H. injection H as ->. unfold inconclusive.
  destruct (s =? 200)%Z; [reflexivity |].
  destruct (s =? 404)%Z eqn:E404.
  - apply Z.eqb_eq in E404. subst s. reflexivity.
  - destruct (s =? 403)%Z, (s =? 401)%Z; reflexivity.
Qed.

Lemma validate_versions_skip server org :
  forall i vs t,
    (forall j, j < i -> exists s,
          probe_status server org vs t j = Some s /\ inconclusive s = true) ->
    validate_versions server org vs t =
    validate_versions server org (skipn i vs) (t ++ map (probe org) (firstn i vs)).
Proof.
  induction i as [| i IH]; intros vs t H.
  - simpl. rewrite app_nil_r. reflexivity.
  - destruct vs as [| v vs].
    + simpl. rewrite app_nil_r. reflexivity.
    + destruct (H 0) as [s [Hs Hi]]; [lia |].
      rewrite (validate_versions_step _ _ _ _ _ _ Hs). rewrite Hi.
      assert ((s =? 200)%Z = false) as ->.
      { unfold inconclusive in Hi. destruct (s =? 200)%Z; [discriminate | reflexivity]. }
      rewrite IH.
      * simpl. rewrite <- app_assoc. reflexivity.
      * intros j Hj. rewrite <- probe_status_tail. apply H. lia.
Qed.

Lemma probe_status_skip server org vs t i :
  probe_status server org vs t i =
  probe_status server org (skipn i vs) (t ++ map (probe org) (firstn i vs)) 0.
Proof.
  revert vs t. induction i as [| i IH]; intros vs t.
  - simpl. unfold probe_status. simpl. destruct vs; [reflexivity |].
    rewrite !app_nil_r. reflexivity.
  - destruct vs as [| v vs].
    + reflexivity.
    + rewrite probe_status_tail, IH. simpl. rewrite <- app_assoc. reflexivity.
Qed.

Lemma validate_versions_first server org v vs t :
  exists rest,
    snd (validate_versions server org (v :: vs) t) = t ++ probe org v :: rest.
Proof.
  simpl. unfold bind, _make_request. fold (probe org v).
  destruct (server t (probe org v)) as [r | e]; simpl; [| exists []; reflexivity].
  destruct (validate_versions_reads server org vs (t ++ [probe org v]))
    as [new [E _]].
  repeat match goal with
         | |- context [if ?b then _ else _] => destruct b
         end;
    try (exists []; reflexivity);
    (exists new; rewrite E, <- app_assoc; reflexivity).
Qed.

(** C3.  [validate_organization_access] probes the fixed list of versions
    in order.  Take the [i]-th probe, every probe before it having received
    a status that is neither 200 nor 401 nor 403.  If it receives 200 the
    result is [True]; if it receives 401 or 403 the result is [False]; in
    both cases the requests issued are the probes up to the [i]-th and no
    other, so the versions after it are not tried.  If it receives 404 and a
    version is left, the probe of the next version is issued.  If all the
    probes received such a status ([i] is the number of versions), the
    result is [False]. *)
Theorem validate_access_fallback server org t :
  versions = ["2024-10-15"; "2023-05-29"; "2023-06-18"] /\
  forall i,
    (forall j, j < i -> exists s,
          probe_status server org versions t j = Some s /\ inconclusive s = true) ->
    (probe_status server org versions t i = Some 200%Z ->
     validate_organization_access server org t =
     (Ret true, t ++ map (probe org) (firstn (S i) versions)))
    /\
    (probe_status server org versions t i = Some 401%Z \/
     probe_status server org versions t i = Some 403%Z ->
     validate_organization_access server org t =
     (Ret false, t ++ map (probe org) (firstn (S i) versions)))
    /\
    (probe_status server org versions t i = Some 404%Z ->
     S i < List.length versions ->
     exists rest,
       snd (validate_organization_access server org t) =
       t ++ map (probe org) (firstn (S (S i)) versions) ++ rest)
    /\
    (i = List.length versions ->
     validate_organization_access server org t =
     (Ret false, t ++ map (probe org) versions)).
Proof.
  split; [reflexivity |].
  intros i Hbefore. unfold validate_organization_access.
  rewrite (validate_versions_skip server org i versions t Hbefore).
  rewrite (probe_status_skip server org versions t i).
  destruct (skipn i versions) as [| v rest] eqn:Eskip.
  - apply skipn_nil_length in Eskip. repeat split.
    + unfold probe_status; simpl; discriminate.
    + unfold probe_status; simpl; intros [H | H]; discriminate.
    + intros _ Hlt. lia.
    + intros ->. rewrite firstn_all. reflexivity.
  - destruct (firstn_S_nth versions i v rest Eskip) as [Efirst Erest].
    apply skipn_cons_length in Eskip.
    repeat split.
    + intros Hs. rewrite (validate_versions_step _ _ _ _ _ _ Hs).
      rewrite Efirst, map_app, app_assoc. reflexivity.
    + intros [Hs | Hs]; rewrite (validate_versions_step _ _ _ _ _ _ Hs);
        rewrite Efirst, map_app, app_assoc; reflexivity.
    + intros Hs Hlt. rewrite (validate_versions_step _ _ _ _ _ _ Hs).
      change (if (404 =? 200)%Z then _ else if inconclusive 404 then ?x else _)
        with x.
      destruct rest as [| v' rest'].
      * apply skipn_nil_length in Erest. lia.
      * destruct (firstn_S_nth versions (S i) _ _ Erest) as [Efirst' _].
        rewrite Efirst', Efirst, !map_app.
        destruct (validate_versions_first server org v' rest'
                    ((t ++ map (probe org) (firstn i versions)) ++ [probe org v]))
          as [more E].
        exists more. rewrite E. cbn [map]. rewrite <- !app_assoc. reflexivity.
    + intros Hi. lia.
Qed.

Lemma validate_access_fallback_witness :
  validate_organization_access Scenario.service (JStr "B") [] =
  (Ret true, [probe (JStr "B") "2024-10-15"; probe (JStr "B") "2023-05-29"])
  /\
  validate_organization_access Scenario.service (JStr "D") [] =
  (Ret false, [probe (JStr "D") "2024-10-15"])
  /\
  validate_organization_access Scenario.service (JStr "E") [] =
  (Ret false, map (probe (JStr "E")) versions).
Proof.
  split; [| split].
  - destruct (validate_access_fallback Scenario.service (JStr "B") []) as [_ H].
    destruct (H 1) as [H200 _].
    + intros j Hj. exists 404%Z. assert (j = 0) as -> by lia.
      split; reflexivity.
    + exact (H200 eq_refl).
  - destruct (validate_access_fallback Scenario.service (JStr "D") []) as [_ H].
    destruct (H 0) as [_ [H403 _]].
    + intros j Hj. lia.
    + exact (H403 (or_intror eq_refl)).
  - destruct (validate_access_fallback Scenario.service (JStr "E") []) as [_ H].
    destruct (H 3) as [_ [_ [_ Hall]]].
    + intros j Hj. exists 404%Z.
      destruct j as [| [| [| j]]]; [split; reflexivity .. | lia].
    + exact (Hall eq_refl).
Defined.

(* ===================================================================== *)
(** * get_organizations_for_group: pagination *)
(* ===================================================================== *)

Lemma group_orgs_pages_complete server :
  forall t u pages,
    Serves server t u pages ->
    forall fuel all_orgs orgs,
      res_map organization_of (concat pages) = Ok orgs ->
      List.length pages < fuel ->
      exists t',
        group_orgs_pages server fuel u all_orgs t = (Ret (all_orgs ++ orgs), t').
Proof.
  intros t u pages HS.
  induction HS as [t u resp doc orgs0 Hrep Hst Hbody Hdata Hfalsy
                  | t u resp doc items links next Hrep Hst Hbody Hdata Hne Hlinks Hnext Hfalsy
                  | t u resp doc items links next rest Hrep Hst Hbody Hdata Hne Hlinks Hnext Hnz HS IH];
    intros fuel all_orgs orgs Hmap Hfuel;
    (destruct fuel as [| fuel]; [simpl in Hfuel; lia |]);
    cbn -[truthy res_map]; unfold bind, _make_request; fold (page_request u);
    rewrite Hrep; cbn -[truthy res_map]; rewrite Hst; cbn -[truthy res_map];
    unfold json_of; rewrite Hbody; cbn -[truthy res_map];
    rewrite Hdata; cbn -[truthy res_map].
  - rewrite Hfalsy. simpl in Hmap. injection Hmap as <-.
    rewrite app_nil_r. eexists. reflexivity.
  - rewrite (truthy_JArr _ Hne). cbn -[truthy res_map].
    simpl in Hmap. rewrite app_nil_r in Hmap. rewrite Hmap. cbn -[truthy].
    rewrite Hlinks. cbn -[truthy]. rewrite Hnext. cbn -[truthy].
    rewrite Hfalsy. eexists. reflexivity.
  - rewrite (truthy_JArr _ Hne). cbn -[truthy res_map].
    simpl in Hmap. destruct (res_map_app _ _ _ _ Hmap) as [r1 [r2 [E1 [E2 E3]]]].
    rewrite E1. cbn -[truthy]. rewrite Hlinks. cbn -[truthy].
    rewrite Hnext. cbn -[truthy]. rewrite (truthy_JStr _ Hnz). cbn -[truthy].
    destruct (IH fuel (all_orgs ++ r1) r2 E2) as [t' E]; [simpl in Hfuel; lia |].
    exists t'. rewrite E3, app_assoc. exact E.
Qed.

Lemma res_map_pointwise {A B} (f : A -> res B) (l : list A) r :
  res_map f l = Ok r -> Forall2 (fun x y => f x = Ok y) l r.
Proof.
  revert r. induction l as [| x l IH]; intros r H; simpl in *.
  - injection H as <-. constructor.
  - destruct (f x) as [y | e] eqn:Ex; simpl in *; [| discriminate].
    destruct (res_map f l) as [ys | e]; simpl in *; [| discriminate].
    injection H as <-. constructor; [exact Ex | apply IH; reflexivity].
Qed.

Lemma require_present (v : option string) (g msg : string) :
  v = Some g -> g <> "" -> require v msg = Ok g.
Proof.
  intros -> Hg. unfold require. rewrite (truthy_JStr _ Hg). reflexivity.
Qed.

(** C6.  Let the service answer the listing of group [g] with [P] non-empty
    pages of organization objects, each a 200 response whose [links.next]
    leads to the next page, the listing ending at a page without cursor or
    at a 200 response with empty data.  With fuel for those requests,
    [get_organizations_for_group] returns one [Organization] per object of
    the pages, in the order of the pages and of the objects within each
    page: [N] records for [N] objects.  And when the first response is a
    404, 403 or 401, it returns the empty list and raises nothing. *)
Theorem get_organizations_for_group_complete server self fuel group g t :
  listed_group self group = Some g ->
  g <> "" ->
  (forall pages orgs,
      Serves server t (url_group_orgs g) pages ->
      res_map organization_of (concat pages) = Ok orgs ->
      List.length pages < fuel ->
      exists t',
        get_organizations_for_group server self fuel group t = (Ret orgs, t') /\
        List.length orgs = List.length (concat pages) /\
        Forall2 (fun org_data org => organization_of org_data = Ok org)
                (concat pages) orgs)
  /\
  (forall resp,
      server t (page_request (url_group_orgs g)) = Resp resp ->
      status_code resp = 404%Z \/ status_code resp = 403%Z \/
      status_code resp = 401%Z ->
      0 < fuel ->
      get_organizations_for_group server self fuel group t =
      (Ret [], t ++ [page_request (url_group_orgs g)])).
Proof.
  intros Hgroup Hg.
  assert (get_organizations_for_group server self fuel group t =
          group_orgs_pages server fuel (url_group_orgs g) [] t) as Hrun.
  { unfold get_organizations_for_group.
    fold (listed_group self group).
    rewrite (require_present _ _ _ Hgroup Hg). reflexivity. }
  split.
  - intros pages orgs HS Hmap Hfuel.
    destruct (group_orgs_pages_complete server t _ pages HS fuel [] orgs Hmap Hfuel)
      as [t' E].
    exists t'. rewrite Hrun, E. repeat split.
    + apply (res_map_length _ _ _ Hmap).
    + apply res_map_pointwise. exact Hmap.
  - intros resp Hrep Hst Hfuel. rewrite Hrun.
    destruct fuel as [| fuel]; [lia |].
    simpl. unfold bind, _make_request. fold (page_request (url_group_orgs g)).
    rewrite Hrep. simpl.
    destruct Hst as [-> | [-> | ->]]; reflexivity.
Qed.

Lemma get_organizations_for_group_complete_witness :
  (exists t',
      get_organizations_for_group Scenario.service Scenario.client 3 None [] =
      (Ret Scenario.organizations, t') /\
      List.length Scenario.organizations =
      List.length (Scenario.page1 ++ Scenario.page2))
  /\
  get_organizations_for_group Scenario.service Scenario.client 1 (Some "gone") [] =
  (Ret [], [page_request (url_group_orgs "gone")]).
Proof.
  split.
  - destruct (get_organizations_for_group_complete
                Scenario.service Scenario.client 3 None "g1" [] eq_refl)
      as [H _]; [discriminate |].
    destruct (H [Scenario.page1; Scenario.page2] Scenario.organizations)
      as [t' [E [L _]]].
    + eapply serves_next_page;
        [reflexivity | reflexivity | reflexivity | reflexivity | discriminate
         | reflexivity | reflexivity | discriminate |].
      eapply serves_last_page;
        [reflexivity | reflexivity | reflexivity | reflexivity | discriminate
         | reflexivity | reflexivity | reflexivity].
    + reflexivity.
    + simpl. lia.
    + exists t'. split; [exact E | exact L].
  - destruct (get_organizations_for_group_complete
                Scenario.service Scenario.client 1 (Some "gone") "gone" [] eq_refl)
      as [_ H]; [discriminate |].
    apply (H (mkResponse 404 (Json (JObj [("errors", JArr [])])))).
    + reflexivity.
    + left. reflexivity.
    + lia.
Defined.

Lemma group_orgs_pages_breaks server :
  forall t u n,
    Breaks server t u n ->
    forall fuel all_orgs,
      n < fuel ->
      fst (group_orgs_pages server fuel u all_orgs t) = Ret [].
Proof.
  intros t u n HB.
  induction HB as [t u resp Hrep Hst
                  | t u resp doc items page links next n
                      Hrep Hst Hbody Hdata Hne Hpage Hlinks Hnext Hnz HB IH];
    intros fuel all_orgs Hfuel;
    (destruct fuel as [| fuel]; [lia |]);
    cbn -[truthy res_map]; unfold bind, _make_request; fold (page_request u);
    rewrite Hrep; cbn -[truthy res_map].
  - apply Z.eqb_neq in Hst. rewrite Hst.
    repeat match goal with
           | |- context [if ?b then _ else _] => destruct b
           end; reflexivity.
  - rewrite Hst. cbn -[truthy res_map].
    unfold json_of. rewrite Hbody. cbn -[truthy res_map].
    rewrite Hdata. cbn -[truthy res_map].
    rewrite (truthy_JArr _ Hne). cbn -[truthy res_map].
    rewrite Hpage. cbn -[truthy]. rewrite Hlinks. cbn -[truthy].
    rewrite Hnext. cbn -[truthy]. rewrite (truthy_JStr _ Hnz). cbn -[truthy].
    apply IH. lia.
Qed.

(** X2.  When the service answers the listing of a group with any number
    of good pages and then with a response whose status is not 200,
    [get_organizations_for_group] returns the empty list: the records of
    the pages already fetched are dropped. *)
Lemma group_listing_drops_pages_on_error server self fuel group g t n :
  listed_group self group = Some g ->
  g <> "" ->
  Breaks server t (url_group_orgs g) n ->
  n < fuel ->
  fst (get_organizations_for_group server self fuel group t) = Ret [].
Proof.
  intros Hgroup Hg HB Hfuel.
  unfold get_organizations_for_group. fold (listed_group self group).
  rewrite (require_present _ _ _ Hgroup Hg).
  apply (group_orgs_pages_breaks server t _ n HB fuel [] Hfuel).
Qed.

Lemma group_listing_drops_pages_on_error_witness :
  fst (get_organizations_for_group
         Scenario.service (Scenario.client_of "g2" "A") 3 None []) = Ret [].
Proof.
  apply (group_listing_drops_pages_on_error
           Scenario.service (Scenario.client_of "g2" "A") 3 None "g2" [] 1).
  - reflexivity.
  - discriminate.
  - eapply breaks_later with (page := [Scenario.organization "A" "Alpha";
                                       Scenario.organization "B" "Beta"]);
      [reflexivity | reflexivity | reflexivity | reflexivity | discriminate
       | reflexivity | reflexivity | reflexivity | discriminate |].
    eapply breaks_here; [reflexivity | discriminate].
  - lia.
Defined.

(* ===================================================================== *)
(** * The configure workflow never touches the source organization *)
(* ===================================================================== *)

Lemma py_eq_of_optional (v : json) (o : option string) :
  py_eq v (of_optional o) = true <-> v = of_optional o.
Proof.
  destruct o as [s |]; destruct v; simpl; split; intros H;
    try discriminate; try reflexivity.
  - apply String.eqb_eq in H. subst. reflexivity.
  - injection H as ->. apply String.eqb_refl.
Qed.

Lemma py_ne_of_optional (v : json) (o : option string) :
  py_ne v (of_optional o) = true <-> v <> of_optional o.
Proof.
  unfold py_ne. rewrite negb_true_iff, <- not_true_iff_false.
  rewrite py_eq_of_optional. reflexivity.
Qed.

Lemma issues_run {A} (P : Request -> Prop) (m : M A) t out t' :
  issues P m -> m t = (out, t') -> exists new, t' = t ++ new /\ Forall P new.
Proof.
  intros H E. destruct (H t) as [new [E1 F]]. rewrite E in E1. simpl in E1.
  exists new. split; assumption.
Qed.

Lemma is_get_spares source r : is_get r -> spares source r.
Proof. intros H. left. exact H. Qed.


Lemma delete_broker_integration_spares server self source connection org integration :
  org <> source ->
  issues (spares source)
         (delete_broker_integration server self connection org integration).
Proof.
  intros H. unfold delete_broker_integration.
  repeat issues_step; right; exists org; split; [reflexivity | exact H].
Qed.

Lemma create_broker_integration_spares server self source connection org i ty :
  org <> source ->
  issues (spares source)
         (create_broker_integration server self connection org i ty).
Proof.
  intros H. unfold create_broker_integration.
  repeat issues_step; right; exists org; split; [reflexivity | exact H].
Qed.

Lemma delete_broker_integration_deletes server self connection org integration :
  issues (fun r => method r = DELETE)
         (delete_broker_integration server self connection org integration).
Proof.
  unfold delete_broker_integration. repeat issues_step; reflexivity.
Qed.

Lemma target_orgs_of_spec self all_orgs org :
  In org (target_orgs_of self all_orgs) <->
  In org all_orgs /\ Organization.id org <> of_optional (source_org_id self).
Proof.
  unfold target_orgs_of. rewrite filter_In, py_ne_of_optional. reflexivity.
Qed.

Lemma deletion_pass_spares server self connection integrations :
  issues (spares (of_optional (source_org_id self)))
         (deletion_pass server self connection integrations).
Proof.
  unfold deletion_pass. apply issues_for_each. intros integration [] _.
  destruct (py_ne _ _) eqn:E.
  - apply py_ne_of_optional in E.
    repeat issues_step. apply delete_broker_integration_spares. exact E.
  - apply issues_ret.
Qed.

Lemma configure_one_spares server self connection source_integration org lists :
  Organization.id org <> of_optional (source_org_id self) ->
  issues (spares (of_optional (source_org_id self)))
         (configure_one server self connection source_integration org lists).
Proof.
  intros H. unfold configure_one, configure_one_steps.
  repeat first
         [ apply create_broker_integration_spares; exact H
         | eapply issues_weaken;
           [apply is_get_spares | apply validate_organization_access_reads]
         | issues_step ].
Qed.

Lemma bulk_with_connection_spares server self all_orgs connection :
  issues (spares (of_optional (source_org_id self)))
         (bulk_with_connection server self all_orgs connection).
Proof.
  unfold bulk_with_connection.
  apply issues_bind.
  - eapply issues_weaken;
      [apply is_get_spares | apply get_broker_integrations_for_connection_reads].
  - intros integrations. destruct (source_integration_of self integrations).
    + apply issues_bind; [apply deletion_pass_spares |]. intros _.
      unfold creation_pass. apply issues_for_each. intros org lists Hin.
      apply configure_one_spares. apply target_orgs_of_spec in Hin. apply Hin.
    + apply issues_ret.
Qed.

Lemma bulk_spares server self fuel connection :
  issues (spares (of_optional (source_org_id self)))
         (configure_broker_for_organizations_bulk server self fuel connection).
Proof.
  unfold configure_broker_for_organizations_bulk.
  apply issues_bind.
  - eapply issues_weaken;
      [apply is_get_spares | apply get_organizations_for_group_reads].
  - intros all_orgs. destruct (is_empty all_orgs); [apply issues_ret |].
    destruct (negb (truthy connection)).
    + apply issues_bind.
      * eapply issues_weaken;
          [apply is_get_spares | apply get_broker_connections_reads].
      * intros [| first rest]; [apply issues_ret |].
        apply bulk_with_connection_spares.
    + apply bulk_with_connection_spares.
Qed.




(* ===================================================================== *)
(** * The configure workflow: precondition failures *)
(* ===================================================================== *)

Lemma reads_only_run {A} (m : M A) t out t' :
  issues is_get m -> m t = (out, t') -> reads_only t t'.
Proof. intros H E. exact (issues_run _ _ _ _ _ H E). Qed.

Lemma reads_only_trans t1 t2 t3 :
  reads_only t1 t2 -> reads_only t2 t3 -> reads_only t1 t3.
Proof.
  intros [n1 [-> F1]] [n2 [-> F2]]. exists (n1 ++ n2).
  rewrite app_assoc. split; [reflexivity | apply Forall_app; auto].
Qed.

Lemma reads_only_refl t : reads_only t t.
Proof. exists []. rewrite app_nil_r. auto. Qed.

Lemma source_integration_of_none self integrations :
  (forall i, In i integrations ->
             BrokerIntegration.org_id i <> of_optional (source_org_id self)) ->
  source_integration_of self integrations = None.
Proof.
  intros H. unfold source_integration_of.
  destruct (find _ integrations) as [i |] eqn:E; [| reflexivity].
  apply find_some in E. destruct E as [Hin Heq].
  apply py_eq_of_optional in Heq. destruct (H i Hin Heq).
Qed.

Lemma resolved_connection_reads server self connection t1 resolved t2 :
  resolved_connection server self connection t1 resolved t2 ->
  reads_only t1 t2.
Proof.
  intros [[_ [_ ->]] | [_ [first [rest [E _]]]]].
  - apply reads_only_refl.
  - eapply reads_only_run; [apply get_broker_connections_reads | exact E].
Qed.

Lemma is_empty_cons {A} (l : list A) : l <> [] -> is_empty l = false.
Proof. destruct l; [contradiction | reflexivity]. Qed.

Lemma bulk_resolved server self fuel connection t all_orgs t1 resolved t2 :
  get_organizations_for_group server self fuel None t = (Ret all_orgs, t1) ->
  all_orgs <> [] ->
  resolved_connection server self connection t1 resolved t2 ->
  configure_broker_for_organizations_bulk server self fuel connection t =
  bulk_with_connection server self all_orgs resolved t2.
Proof.
  intros Hlist Hne Hres.
  unfold configure_broker_for_organizations_bulk, bind at 1.
  rewrite Hlist, (is_empty_cons _ Hne).
  destruct Hres as [[Ht [-> ->]] | [Hf [first [rest [E ->]]]]].
  - rewrite Ht. reflexivity.
  - rewrite Hf. simpl. unfold bind at 1. rewrite E. reflexivity.
Qed.

(** C4.  [configure_broker_for_organizations_bulk] returns the three empty
    lists, having issued GET requests only, in each of these cases: the
    group listing returns no organization; no connection id is given and
    the source organization has no broker connection; the integrations of
    the resolved connection hold none of the source organization. *)
Theorem bulk_precondition_failures server self fuel connection t :
  (forall t1,
      get_organizations_for_group server self fuel None t = (Ret [], t1) ->
      configure_broker_for_organizations_bulk server self fuel connection t =
      (Ret no_results, t1) /\ reads_only t t1)
  /\
  (forall all_orgs t1 t2,
      get_organizations_for_group server self fuel None t = (Ret all_orgs, t1) ->
      all_orgs <> [] ->
      truthy connection = false ->
      get_broker_connections server self (source_org_id self) t1 = (Ret [], t2) ->
      configure_broker_for_organizations_bulk server self fuel connection t =
      (Ret no_results, t2) /\ reads_only t t2)
  /\
  (forall all_orgs t1 resolved t2 integrations t3,
      get_organizations_for_group server self fuel None t = (Ret all_orgs, t1) ->
      all_orgs <> [] ->
      resolved_connection server self connection t1 resolved t2 ->
      get_broker_integrations_for_connection server self resolved t2 =
      (Ret integrations, t3) ->
      (forall i, In i integrations ->
                 BrokerIntegration.org_id i <> of_optional (source_org_id self)) ->
      configure_broker_for_organizations_bulk server self fuel connection t =
      (Ret no_results, t3) /\ reads_only t t3).
Proof.
  split; [| split].
  - intros t1 Hlist. split.
    + unfold configure_broker_for_organizations_bulk, bind. rewrite Hlist.
      reflexivity.
    + eapply reads_only_run;
        [apply get_organizations_for_group_reads | exact Hlist].
  - intros all_orgs t1 t2 Hlist Hne Hfalsy Hconn. split.
    + unfold configure_broker_for_organizations_bulk, bind at 1.
      rewrite Hlist, (is_empty_cons _ Hne), Hfalsy. simpl.
      unfold bind. rewrite Hconn. reflexivity.
    + eapply reads_only_trans.
      * eapply reads_only_run;
          [apply get_organizations_for_group_reads | exact Hlist].
      * eapply reads_only_run;
          [apply get_broker_connections_reads | exact Hconn].
  - intros all_orgs t1 resolved t2 integrations t3 Hlist Hne Hres Hints Hnone.
    split.
    + rewrite (bulk_resolved _ _ _ _ _ _ _ _ _ Hlist Hne Hres).
      unfold bulk_with_connection, bind. rewrite Hints.
      rewrite (source_integration_of_none _ _ Hnone). reflexivity.
    + eapply reads_only_trans; [| eapply reads_only_trans].
      * eapply reads_only_run;
          [apply get_organizations_for_group_reads | exact Hlist].
      * eapply resolved_connection_reads. exact Hres.
      * eapply reads_only_run;
          [apply get_broker_integrations_for_connection_reads | exact Hints].
Qed.

(* ===================================================================== *)
(** * The configure workflow: the creation pass *)
(* ===================================================================== *)

Lemma configure_one_returns server self connection source_integration org lists t :
  exists lists' t',
    configure_one server self connection source_integration org lists t =
    (Ret lists', t') /\
    (lists' = add_success lists (success_entry org connection) \/
     exists reason, lists' = add_failed lists (failed_entry org reason)).
Proof.
  unfold configure_one, configure_one_steps, try_except, bind.
  pose proof (validate_organization_access_finishes
                server (Organization.id org) t) as Hv.
  destruct (validate_organization_access server (Organization.id org) t)
    as [[[|] | e | ] t1]; simpl in *.
  - match goal with
    | |- context [create_broker_integration ?s ?c ?k ?o ?i ?ty t1] =>
        pose proof (create_broker_integration_finishes s c k o i ty t1) as Hc;
        destruct (create_broker_integration s c k o i ty t1)
          as [[[|] | e | ] t2]; simpl in *
    end.
    + do 2 eexists. split; [reflexivity | left; reflexivity].
    + do 2 eexists. split; [reflexivity | right; eexists; reflexivity].
    + do 2 eexists. split; [reflexivity | right; eexists; reflexivity].
    + destruct Hc. reflexivity.
  - do 2 eexists. split; [reflexivity | right; eexists; reflexivity].
  - do 2 eexists. split; [reflexivity | right; eexists; reflexivity].
  - destruct Hv. reflexivity.
Qed.

Lemma recorded_one server self connection source_integration org lists t :
  exists lists' t',
    configure_one server self connection source_integration org lists t =
    (Ret lists', t') /\ recorded lists lists' [org].
Proof.
  destruct (configure_one_returns server self connection source_integration
                                  org lists t)
    as [lists' [t' [E [-> | [reason ->]]]]];
    eexists; exists t'; (split; [exact E |]).
  - exists [success_entry org connection], []. simpl.
    repeat split; try reflexivity; try (rewrite app_nil_r; reflexivity).
    constructor; [| constructor].
    eexists. split; [left; reflexivity | reflexivity].
  - exists [], [failed_entry org reason]. simpl.
    repeat split; try reflexivity; try (rewrite app_nil_r; reflexivity).
    constructor; [| constructor].
    eexists. split; [left; reflexivity | reflexivity].
Qed.

Lemma recorded_step lists mid r org orgs :
  recorded lists mid [org] -> recorded mid r orgs -> recorded lists r (org :: orgs).
Proof.
  intros [s1 [f1 [Es1 [Ef1 [Ek1 [L1 F1]]]]]] [s2 [f2 [Es2 [Ef2 [Ek2 [L2 F2]]]]]].
  exists (s1 ++ s2), (f1 ++ f2).
  rewrite Es2, Es1, Ef2, Ef1, Ek2, Ek1, !app_assoc, !length_app.
  repeat split; try reflexivity.
  - simpl in *. lia.
  - constructor.
    + inversion F1 as [| ? ? [entry [Hin Hid]] _]; subst.
      exists entry. split; [| exact Hid].
      apply in_app_or in Hin. rewrite !in_app_iff. tauto.
    + eapply Forall_impl; [| exact F2].
      intros o [entry [Hin Hid]]. exists entry. split; [| exact Hid].
      apply in_app_or in Hin. rewrite !in_app_iff. tauto.
Qed.

Lemma creation_pass_records server self connection source_integration :
  forall orgs lists t,
  exists r t',
    for_each (configure_one server self connection source_integration)
             orgs lists t = (Ret r, t') /\
    recorded lists r orgs.
Proof.
  induction orgs as [| org orgs IH]; intros lists t.
  - exists lists, t. split; [reflexivity |].
    exists [], []. rewrite !app_nil_r. repeat split; constructor.
  - destruct (recorded_one server self connection source_integration org lists t)
      as [mid [t1 [E1 R1]]].
    destruct (IH mid t1) as [r [t' [E2 R2]]].
    exists r, t'. split.
    + simpl. unfold bind. rewrite E1. exact E2.
    + eapply recorded_step; eassumption.
Qed.

(** C8.  In the creation pass, an exception that escapes the [try] block of
    one organization (from the access check, from the creation call) ends
    in a [failed] entry for it whose reason is the text of the exception,
    and the pass goes on: whatever the service does, the pass returns, with
    one entry (successful or failed) for every target organization. *)
Theorem creation_pass_isolates_exceptions server self connection source_integration :
  (forall org lists t e t1,
      configure_one_steps server self connection source_integration org lists t =
      (Exc e, t1) ->
      configure_one server self connection source_integration org lists t =
      (Ret (add_failed lists (failed_entry org (exn_text e))), t1))
  /\
  (forall org lists t e t1,
      validate_organization_access server (Organization.id org) t = (Exc e, t1) ->
      configure_one server self connection source_integration org lists t =
      (Ret (add_failed lists (failed_entry org (exn_text e))), t1))
  /\
  (forall org lists t t1 e t2,
      validate_organization_access server (Organization.id org) t = (Ret true, t1) ->
      create_broker_integration server self connection (Organization.id org)
        (Value (fstring [Organization.id org; JStr "-"; connection]))
        (BrokerIntegration.integration_type source_integration) t1 = (Exc e, t2) ->
      configure_one server self connection source_integration org lists t =
      (Ret (add_failed lists (failed_entry org (exn_text e))), t2))
  /\
  (forall target_orgs t,
    exists r t',
      creation_pass server self connection source_integration target_orgs t =
      (Ret r, t') /\
      recorded no_results r target_orgs).
Proof.
  split; [| split; [| split]].
  - intros org lists t e t1 Hsteps.
    unfold configure_one, try_except. rewrite Hsteps. reflexivity.
  - intros org lists t e t1 Hv.
    unfold configure_one, configure_one_steps, try_except, bind.
    rewrite Hv. reflexivity.
  - intros org lists t t1 e t2 Hv Hc.
    unfold configure_one, configure_one_steps, try_except, bind.
    rewrite Hv. simpl. rewrite Hc. reflexivity.
  - intros target_orgs t. apply creation_pass_records.
Qed.

(** C10.  Whatever [configure_broker_for_organizations_bulk] returns, its
    [skipped] list is empty. *)
Theorem bulk_skipped_empty server self fuel connection t r t' :
  configure_broker_for_organizations_bulk server self fuel connection t = (Ret r, t') ->
  skipped r = [].
Proof.
  assert (forall all_orgs c t0,
             bulk_with_connection server self all_orgs c t0 = (Ret r, t') ->
             skipped r = []) as Hwith.
  { intros all_orgs c t0. unfold bulk_with_connection, bind.
    destruct (get_broker_integrations_for_connection server self c t0)
      as [[integrations | e | ] t1]; try discriminate.
    destruct (source_integration_of self integrations) as [si |].
    - destruct (deletion_pass server self c integrations t1)
        as [[[] | e | ] t2]; try discriminate.
      destruct (creation_pass_records server self c si
                                      (target_orgs_of self all_orgs) no_results t2)
        as [r0 [t3 [E [s [f [_ [_ [Ek _]]]]]]]].
      unfold creation_pass. rewrite E. intros H. injection H as <- <-. exact Ek.
    - intros H. injection H as <- <-. reflexivity. }
  unfold configure_broker_for_organizations_bulk, bind.
  destruct (get_organizations_for_group server self fuel None t)
    as [[all_orgs | e | ] t1]; try discriminate.
  destruct (is_empty all_orgs).
  { intros H. injection H as <- <-. reflexivity. }
  destruct (negb (truthy connection)); [| apply Hwith].
  destruct (get_broker_connections server self (source_org_id self) t1)
    as [[[| first rest] | e | ] t2]; try discriminate.
  - intros H. injection H as <- <-. reflexivity.
  - apply Hwith.
Qed.

(* ===================================================================== *)
(** * The per-organization workflow *)
(* ===================================================================== *)

Lemma load_global_integration_id :
  load_global "integration_id" =
  Err (Exn NameError "name 'integration_id' is not defined").
Proof. reflexivity. Qed.

Lemma remove_existing_not_post server self connection org integrations :
  issues (fun r => method r <> POST)
         (remove_existing server self connection org integrations).
Proof.
  induction integrations as [| i rest IH]; simpl.
  - apply issues_ret.
  - destruct (py_eq _ _); [| exact IH].
    apply issues_bind.
    + eapply issues_weaken; [| apply delete_broker_integration_deletes].
      intros r ->. discriminate.
    + intros removed. destruct (negb removed); [apply issues_ret | exact IH].
Qed.

Lemma issues_bind_raise {A B} (P : Request -> Prop) (e : exn) (k : A -> M B) :
  issues P (bind (raise e) k).
Proof. intros t. exists []. simpl. rewrite app_nil_r. auto. Qed.

(** The [try] block never yields [True] and never reaches the POST: it
    returns [False], or an exception escapes it. *)
Lemma configure_broker_for_org_steps_outcome server self org connection t :
  exists out t',
    configure_broker_for_org_steps server self org connection t = (out, t') /\
    (out = Ret false \/ exists e, out = Exc e).
Proof.
  unfold configure_broker_for_org_steps, bind.
  pose proof (get_broker_integrations_for_connection_finishes
                server self connection t) as Hfin.
  destruct (get_broker_integrations_for_connection server self connection t)
    as [[integrations | e | ] t1]; simpl in Hfin.
  - destruct (source_integration_of self integrations) as [si |].
    + pose proof (remove_existing_finishes server self connection org
                                           integrations t1) as Hrem.
      destruct (remove_existing server self connection org integrations t1)
        as [[[|] | e | ] t2]; simpl in *.
      * do 2 eexists. split; [reflexivity | right; eexists; reflexivity].
      * do 2 eexists. split; [reflexivity | left; reflexivity].
      * do 2 eexists. split; [reflexivity | right; eexists; reflexivity].
      * destruct Hrem. reflexivity.
    + do 2 eexists. split; [reflexivity | left; reflexivity].
  - do 2 eexists. split; [reflexivity | right; eexists; reflexivity].
  - destruct Hfin. reflexivity.
Qed.

Lemma configure_broker_for_org_false server self org connection t :
  exists t', _configure_broker_for_org server self org connection t = (Ret false, t').
Proof.
  unfold _configure_broker_for_org, try_except.
  destruct (configure_broker_for_org_steps_outcome server self org connection t)
    as [out [t' [E [-> | [e ->]]]]]; rewrite E; eexists; reflexivity.
Qed.

Lemma configure_org_success server self connection org results t r t' :
  configure_org server self connection org results t = (Ret r, t') ->
  success r = success results.
Proof.
  unfold configure_org, try_except, bind at 1.
  destruct (validate_organization_access server org t) as [[[|] | e | ] t1]; simpl.
  - unfold bind at 1.
    destruct (configure_broker_for_org_false server self org connection t1)
      as [t2 ->].
    unfold bind.
    destruct (get_organization_name server org t2) as [[n | e | ] t3]; simpl.
    + intros H. injection H as <- <-. reflexivity.
    + destruct (get_organization_name server org t3) as [[n | e' | ] t4];
        simpl; try discriminate.
      intros H. injection H as <- <-. reflexivity.
    + discriminate.
  - unfold bind.
    destruct (get_organization_name server org t1) as [[n | e | ] t3]; simpl.
    + intros H. injection H as <- <-. reflexivity.
    + destruct (get_organization_name server org t3) as [[n | e' | ] t4];
        simpl; try discriminate.
      intros H. injection H as <- <-. reflexivity.
    + discriminate.
  - unfold bind.
    destruct (get_organization_name server org t1) as [[n | e' | ] t3];
      simpl; try discriminate.
    intros H. injection H as <- <-. reflexivity.
  - discriminate.
Qed.

Lemma for_each_configure_org_success server self connection :
  forall ids results t r t',
    for_each (configure_org server self connection) ids results t = (Ret r, t') ->
    success r = success results.
Proof.
  induction ids as [| org ids IH]; intros results t r t'; simpl.
  - intros H. injection H as <- <-. reflexivity.
  - unfold bind.
    destruct (configure_org server self connection org results t)
      as [[mid | e | ] t1] eqn:E; try discriminate.
    intros H. rewrite (IH _ _ _ _ H).
    eapply configure_org_success. exact E.
Qed.

(** C9.  Reading [integration_id] raises [NameError]: the name is bound
    neither in the module nor among the builtins.  So
    [_configure_broker_for_org] returns [False] for every input; a run that
    finds the source integration and removes the existing ones raises the
    [NameError] inside the [try] block; no POST is ever issued; and
    [configure_broker_for_organizations] never adds an entry to [success]. *)
Theorem configure_broker_for_org_always_false server self :
  load_global "integration_id" =
  Err (Exn NameError "name 'integration_id' is not defined")
  /\
  (forall org connection t,
      exists t',
        _configure_broker_for_org server self org connection t = (Ret false, t'))
  /\
  (forall org connection t integrations t1 source_integration t2,
      get_broker_integrations_for_connection server self connection t =
      (Ret integrations, t1) ->
      source_integration_of self integrations = Some source_integration ->
      remove_existing server self connection org integrations t1 = (Ret true, t2) ->
      configure_broker_for_org_steps server self org connection t =
      (Exc (Exn NameError "name 'integration_id' is not defined"), t2))
  /\
  (forall org connection,
      issues (fun r => method r <> POST)
             (_configure_broker_for_org server self org connection))
  /\
  (forall connection org results t r t',
      configure_org server self connection org results t = (Ret r, t') ->
      success r = success results)
  /\
  (forall fuel connection target_org_ids t r t',
      configure_broker_for_organizations server self fuel connection
                                         target_org_ids t = (Ret r, t') ->
      success r = []).
Proof.
  split; [reflexivity |].
  split; [intros; apply configure_broker_for_org_false |].
  split; [| split; [| split]].
  - intros org connection t integrations t1 si t2 Hi Hs Hr.
    unfold configure_broker_for_org_steps, bind. rewrite Hi, Hs, Hr. reflexivity.
  - intros org connection.
    unfold _configure_broker_for_org, configure_broker_for_org_steps.
    apply issues_try_except; [| intros; apply issues_ret].
    apply issues_bind.
    + eapply issues_weaken;
        [| apply get_broker_integrations_for_connection_reads].
      intros r ->. discriminate.
    + intros integrations.
      destruct (source_integration_of self integrations); [| apply issues_ret].
      apply issues_bind; [apply remove_existing_not_post |].
      intros removed. destruct (negb removed); [apply issues_ret |].
      rewrite load_global_integration_id. simpl.
      apply issues_bind_raise.
  - intros connection org results t r t'. apply configure_org_success.
  - intros fuel connection ids t r t'.
    unfold configure_broker_for_organizations, bind at 1.
    destruct ids as [ids |].
    + simpl. apply for_each_configure_org_success.
    + unfold bind at 1.
      destruct (get_target_organizations_for_broker_config server self fuel t)
        as [[orgs | e | ] t1]; simpl; try discriminate.
      apply for_each_configure_org_success.
Qed.

(* ===================================================================== *)
(** * get_broker_integrations returns objects *)
(* ===================================================================== *)

Lemma is_broker_object integration keep :
  is_broker integration = Ok keep -> is_object integration.
Proof.
  unfold is_broker. destruct integration; simpl; try discriminate.
  intros _. eexists. reflexivity.
Qed.

Lemma select_brokers_objects integrations kept :
  select_brokers integrations = Ok kept -> Forall is_object kept.
Proof.
  revert kept. induction integrations as [| i rest IH]; intros kept; simpl.
  - intros H. injection H as <-. constructor.
  - destruct (is_broker i) as [keep | e] eqn:Ei; simpl; [| discriminate].
    destruct (select_brokers rest) as [kept' | e]; simpl; [| discriminate].
    intros H. injection H as <-.
    specialize (IH kept' eq_refl).
    destruct keep; [constructor; [eapply is_broker_object; exact Ei | exact IH]
                   | exact IH].
Qed.

Lemma get_broker_integrations_objects server org t brokers t1 :
  get_broker_integrations server org t = (Ret brokers, t1) ->
  Forall is_object brokers.
Proof.
  unfold get_broker_integrations, bind.
  destruct (get_integrations_for_org server org t) as [[v | e | ] t0];
    try discriminate.
  destruct (py_iter v) as [items | e]; simpl; [| discriminate].
  destruct (select_brokers items) as [kept | e] eqn:Es; simpl; [| discriminate].
  intros H. injection H as <- _. eapply select_brokers_objects. exact Es.
Qed.

(* ===================================================================== *)
(** * The configure workflow: the deletion pass *)
(* ===================================================================== *)

Lemma bind_ret_run {A B} (m : M A) (k : A -> M B) t a t1 :
  m t = (Ret a, t1) -> bind m k t = k a t1.
Proof. intros E. unfold bind. rewrite E. reflexivity. Qed.

Lemma delete_broker_integration_run server self tenant connection integration t :
  tenant_id self = Some tenant ->
  tenant <> "" ->
  (forall t0 rq, method rq = DELETE -> exists resp, server t0 rq = Resp resp) ->
  exists deleted,
    delete_broker_integration server self connection
      (BrokerIntegration.org_id integration) (BrokerIntegration.id integration) t =
    (Ret deleted, t ++ [broker_delete tenant connection integration]).
Proof.
  intros Htenant Hne Hserver. unfold delete_broker_integration.
  rewrite (require_present _ _ _ Htenant Hne).
  unfold bind, lift, ret, _make_request. cbv beta iota.
  fold (broker_delete tenant connection integration).
  destruct (Hserver t (broker_delete tenant connection integration) eq_refl)
    as [resp ->].
  destruct (status_code resp =? 204)%Z; eexists; reflexivity.
Qed.

(** X1.  With a tenant id set and a service that answers every DELETE, the
    deletion pass issues one DELETE for each integration of the connection
    whose organization is not the source, in the order of the list, whether
    or not the organization belongs to the group and whatever the status of
    each answer, and issues nothing else. *)
Lemma deletion_pass_deletes server self tenant connection integrations t :
  tenant_id self = Some tenant ->
  tenant <> "" ->
  (forall t0 rq, method rq = DELETE -> exists resp, server t0 rq = Resp resp) ->
  deletion_pass server self connection integrations t =
  (Ret tt,
   t ++ map (broker_delete tenant connection)
            (filter (fun integration =>
                       py_ne (BrokerIntegration.org_id integration)
                             (of_optional (source_org_id self)))
                    integrations)).
Proof.
  intros Htenant Hne Hserver. unfold deletion_pass.
  revert t. induction integrations as [| i rest IH]; intros t.
  - simpl. rewrite app_nil_r. reflexivity.
  - cbn [for_each filter].
    destruct (py_ne (BrokerIntegration.org_id i) _).
    + destruct (delete_broker_integration_run
                  server self tenant connection i t Htenant Hne Hserver)
        as [deleted E].
      erewrite bind_ret_run;
        [| erewrite bind_ret_run; [| exact E]; reflexivity].
      rewrite IH. cbn [map]. rewrite <- app_assoc. reflexivity.
    + erewrite bind_ret_run; [| reflexivity]. apply IH.
Qed.

(** C5, at the failing input.  In the scenario the group lists A, B, C and
    D, none of them X, and the connection binds A (the source), B and X.
    The configure workflow issues the DELETE of the binding of X, an
    organization outside the group; the DELETE of the binding of B is
    answered with status 500 and the workflow still returns. *)
Theorem bulk_deletes_outside_group :
  fst (get_organizations_for_group Scenario.service Scenario.client 3 None []) =
  Ret Scenario.organizations
  /\
  (forall org, In org Scenario.organizations -> Organization.id org <> JStr "X")
  /\
  In (broker_delete "t1" (JStr "conn1")
        (BrokerIntegration.mk (JStr "i9") (JStr "X") (JStr "github")))
     (snd (configure_broker_for_organizations_bulk
             Scenario.service Scenario.client 3 (JStr "conn1") []))
  /\
  exists r,
    fst (configure_broker_for_organizations_bulk
           Scenario.service Scenario.client 3 (JStr "conn1") []) = Ret r.
Proof.
  split; [vm_compute; reflexivity |].
  split.
  - intros org [<- | [<- | [<- | [<- | []]]]]; discriminate.
  - split.
    + vm_compute. do 4 right. left. reflexivity.
    + eexists. vm_compute. reflexivity.
Qed.

(* ===================================================================== *)
(** * The properties on the scenario *)
(* ===================================================================== *)


Lemma bulk_precondition_failures_witness :
  fst (configure_broker_for_organizations_bulk
         Scenario.service (Scenario.client_of "g0" "A") 3 (JStr "conn1") []) =
  Ret no_results
  /\
  fst (configure_broker_for_organizations_bulk
         Scenario.service (Scenario.client_of "g1" "Z") 3 JNull []) =
  Ret no_results
  /\
  fst (configure_broker_for_organizations_bulk
         Scenario.service Scenario.client 3 (JStr "conn2") []) =
  Ret no_results.
Proof.
  split; [| split].
  - destruct (bulk_precondition_failures
                Scenario.service (Scenario.client_of "g0" "A") 3 (JStr "conn1") [])
      as [H _].
    edestruct H as [E _]; [vm_compute; reflexivity |].
    rewrite E. reflexivity.
  - destruct (bulk_precondition_failures
                Scenario.service (Scenario.client_of "g1" "Z") 3 JNull [])
      as [_ [H _]].
    edestruct H as [E _];
      [vm_compute; reflexivity | discriminate | reflexivity
       | vm_compute; reflexivity |].
    rewrite E. reflexivity.
  - destruct (bulk_precondition_failures
                Scenario.service Scenario.client 3 (JStr "conn2") [])
      as [_ [_ H]].
    edestruct H as [E _].
    + vm_compute. reflexivity.
    + discriminate.
    + left. split; [reflexivity | split; reflexivity].
    + vm_compute. reflexivity.
    + intros i [<- | []]. discriminate.
    + rewrite E. reflexivity.
Defined.

Lemma creation_pass_isolates_exceptions_witness :
  fst (configure_one Scenario.service Scenario.client (JStr "conn1")
         (BrokerIntegration.mk (JStr "i1") (JStr "A") (JStr "bitbucket-server"))
         (Scenario.organization "C" "Gamma") no_results []) =
  Ret (add_failed no_results
         (failed_entry (Scenario.organization "C" "Gamma") "Connection aborted."))
  /\
  exists r t',
    creation_pass Scenario.service Scenario.client (JStr "conn1")
      (BrokerIntegration.mk (JStr "i1") (JStr "A") (JStr "bitbucket-server"))
      (target_orgs_of Scenario.client Scenario.organizations) [] = (Ret r, t') /\
    recorded no_results r (target_orgs_of Scenario.client Scenario.organizations).
Proof.
  destruct (creation_pass_isolates_exceptions
              Scenario.service Scenario.client (JStr "conn1")
              (BrokerIntegration.mk (JStr "i1") (JStr "A")
                                    (JStr "bitbucket-server")))
    as [_ [Hv [_ Hpass]]].
  split.
  - rewrite (Hv (Scenario.organization "C" "Gamma") no_results []
                 (Exn RequestException "Connection aborted.")
                 [probe (JStr "C") "2024-10-15"] eq_refl).
    reflexivity.
  - apply Hpass.
Defined.

Lemma bulk_skipped_empty_witness :
  exists r t',
    configure_broker_for_organizations_bulk
      Scenario.service Scenario.client 3 (JStr "conn1") [] = (Ret r, t') /\
    List.length (success r) = 1 /\ List.length (failed r) = 2 /\ skipped r = [].
Proof.
  do 2 eexists. split; [vm_compute; reflexivity |].
  split; [reflexivity |]. split; [reflexivity |].
  eapply (bulk_skipped_empty Scenario.service Scenario.client 3 (JStr "conn1") []).
  vm_compute. reflexivity.
Defined.

Lemma configure_broker_for_org_always_false_witness :
  configure_broker_for_org_steps Scenario.service Scenario.client
                                 (JStr "C") (JStr "conn1") [] =
  (Exc (Exn NameError "name 'integration_id' is not defined"),
   [mkRequest GET (url_connection_integrations "t1" (JStr "conn1"))
              [("version", JStr "2025-09-28")] None])
  /\
  fst (_configure_broker_for_org Scenario.service Scenario.client
                                 (JStr "C") (JStr "conn1") []) = Ret false
  /\
  (forall r t',
      configure_broker_for_organizations
        Scenario.service Scenario.client 3 (JStr "conn1")
        (Some [JStr "B"; JStr "D"]) [] = (Ret r, t') ->
      success r = []).
Proof.
  destruct (configure_broker_for_org_always_false Scenario.service Scenario.client)
    as [_ [Hfalse [Hname [_ [_ Hnever]]]]].
  split; [| split].
  - eapply Hname; vm_compute; reflexivity.
  - destruct (Hfalse (JStr "C") (JStr "conn1") []) as [t' ->]. reflexivity.
  - intros r t'. apply Hnever.
Defined.

Lemma deletion_pass_deletes_witness :
  deletion_pass Scenario.service Scenario.client (JStr "conn1")
    [BrokerIntegration.mk (JStr "i1") (JStr "A") (JStr "bitbucket-server");
     BrokerIntegration.mk (JStr "i2") (JStr "B") (JStr "bitbucket-server");
     BrokerIntegration.mk (JStr "i9") (JStr "X") (JStr "github")] [] =
  (Ret tt,
   [broker_delete "t1" (JStr "conn1")
      (BrokerIntegration.mk (JStr "i2") (JStr "B") (JStr "bitbucket-server"));
    broker_delete "t1" (JStr "conn1")
      (BrokerIntegration.mk (JStr "i9") (JStr "X") (JStr "github"))]).
Proof.
  apply (deletion_pass_deletes Scenario.service Scenario.client "t1").
  - reflexivity.
  - discriminate.
  - intros t0 [m u ps js] Hm. simpl in Hm. subst m.
    unfold Scenario.service. simpl.
    destruct u; try (eexists; reflexivity).
    destruct (py_eq _ _); eexists; reflexivity.
Defined.

(** The example of section 8 of the specification: the stale
    integration of B is deleted, then B and C each get an integration of
    type [bitbucket-server] on [conn1]; the result is success: [B, C],
    failed: [], skipped: []. *)
Example spec_example_configure :
  let run := configure_broker_for_organizations_bulk
               Example8.service Scenario.client 3 (JStr "conn1") [] in
  fst run =
  Ret (mkResults [success_entry Example8.B (JStr "conn1");
                  success_entry Example8.C (JStr "conn1")] [] [])
  /\
  filter (fun rq => match method rq with GET => false | _ => true end) (snd run) =
  [broker_delete "t1" (JStr "conn1")
     (BrokerIntegration.mk (JStr "i2") (JStr "B") (JStr "bitbucket-server"));
   broker_create "t1" (JStr "conn1") (JStr "B") (JStr "bitbucket-server");
   broker_create "t1" (JStr "conn1") (JStr "C") (JStr "bitbucket-server")].
Proof. split; vm_compute; reflexivity. Qed.

(* ===================================================================== *)
(** * The configure workflow: the run in which nothing fails *)
(* ===================================================================== *)

Lemma configure_one_configured
      server self tenant connection source_integration org lists t resp1 resp2 :
  tenant_id self = Some tenant ->
  tenant <> "" ->
  server t (probe (Organization.id org) "2024-10-15") = Resp resp1 ->
  status_code resp1 = 200%Z ->
  server (t ++ [probe (Organization.id org) "2024-10-15"])
         (broker_create tenant connection (Organization.id org)
            (BrokerIntegration.integration_type source_integration)) =
  Resp resp2 ->
  status_code resp2 = 201%Z ->
  configure_one server self connection source_integration org lists t =
  (Ret (add_success lists (success_entry org connection)),
   t ++ configuring tenant connection
          (BrokerIntegration.integration_type source_integration) org).
Proof.
  intros Ht Hne H1 Hs1 H2 Hs2.
  unfold configure_one, try_except, configure_one_steps,
    validate_organization_access, versions.
  cbn [validate_versions]. unfold bind at 1 2, _make_request at 1.
  fold (probe (Organization.id org) "2024-10-15"). rewrite H1.
  cbv beta iota. rewrite Hs1. change (200 =? 200)%Z with true. cbv iota.
  unfold ret at 1. cbn [negb].
  unfold create_broker_integration.
  rewrite (require_present _ _ _ Ht Hne).
  unfold bind, lift, ret, _make_request. cbv beta iota.
  fold (broker_create tenant connection (Organization.id org)
          (BrokerIntegration.integration_type source_integration)).
  rewrite H2. cbv beta iota. rewrite Hs2. change (201 =? 201)%Z with true.
  cbv iota. unfold configuring, success_entry. rewrite <- app_assoc.
  reflexivity.
Qed.

Lemma creation_pass_configured
      server self tenant connection source_integration :
  tenant_id self = Some tenant ->
  tenant <> "" ->
  forall targets,
    (forall t0 org,
        In org targets ->
        exists resp,
          server t0 (probe (Organization.id org) "2024-10-15") = Resp resp /\
          status_code resp = 200%Z) ->
    (forall t0 org,
        In org targets ->
        exists resp,
          server t0 (broker_create tenant connection (Organization.id org)
                       (BrokerIntegration.integration_type source_integration)) =
          Resp resp /\
          status_code resp = 201%Z) ->
    forall lists t,
      for_each (configure_one server self connection source_integration)
               targets lists t =
      (Ret (mkResults
              (success lists ++
               map (fun org => success_entry org connection) targets)
              (failed lists) (skipped lists)),
       t ++ flat_map (configuring tenant connection
                        (BrokerIntegration.integration_type source_integration))
                     targets).
Proof.
  intros Ht Hne. induction targets as [| org targets IH];
    intros Hprobe Hcreate lists t.
  - simpl. rewrite !app_nil_r. destruct lists. reflexivity.
  - destruct (Hprobe t org (or_introl eq_refl)) as [resp1 [H1 Hs1]].
    destruct (Hcreate (t ++ [probe (Organization.id org) "2024-10-15"]) org
                      (or_introl eq_refl)) as [resp2 [H2 Hs2]].
    cbn [for_each].
    rewrite (bind_ret_run _ _ _ _ _
               (configure_one_configured _ _ _ _ _ _ lists _ _ _
                  Ht Hne H1 Hs1 H2 Hs2)).
    rewrite IH.
    + cbn [flat_map map add_success success failed skipped].
      rewrite <- !app_assoc. reflexivity.
    + intros t0 o Ho. apply Hprobe. right. exact Ho.
    + intros t0 o Ho. apply Hcreate. right. exact Ho.
Qed.

(** X3.  The run in which nothing fails.  With a tenant id set, a listing
    of the group that is not empty, a connection that binds the source
    organization, a deletion pass that returns, and a service that answers
    the first probe of every target with 200 and every creation for a target
    with 201, [configure_broker_for_organizations_bulk] returns one success
    entry per target organization, in the order of the listing, with
    [failed] and [skipped] empty; after the deletion pass it issues, for
    each target in turn, one probe and one POST that carries the integration
    type of the source, and nothing else.  What the deletions were answered
    has no part in the result. *)
Theorem bulk_configures_every_target
        server self fuel tenant connection t all_orgs t1 resolved t2
        integrations t3 source_integration t4 :
  tenant_id self = Some tenant ->
  tenant <> "" ->
  get_organizations_for_group server self fuel None t = (Ret all_orgs, t1) ->
  all_orgs <> [] ->
  resolved_connection server self connection t1 resolved t2 ->
  get_broker_integrations_for_connection server self resolved t2 =
  (Ret integrations, t3) ->
  source_integration_of self integrations = Some source_integration ->
  deletion_pass server self resolved integrations t3 = (Ret tt, t4) ->
  (forall t0 org,
      In org (target_orgs_of self all_orgs) ->
      exists resp,
        server t0 (probe (Organization.id org) "2024-10-15") = Resp resp /\
        status_code resp = 200%Z) ->
  (forall t0 org,
      In org (target_orgs_of self all_orgs) ->
      exists resp,
        server t0 (broker_create tenant resolved (Organization.id org)
                     (BrokerIntegration.integration_type source_integration)) =
        Resp resp /\
        status_code resp = 201%Z) ->
  configure_broker_for_organizations_bulk server self fuel connection t =
  (Ret (mkResults
          (map (fun org => success_entry org resolved)
               (target_orgs_of self all_orgs))
          [] []),
   t4 ++ flat_map (configuring tenant resolved
                     (BrokerIntegration.integration_type source_integration))
                  (target_orgs_of self all_orgs)).
Proof.
  intros Ht Hne Hlist Hsome Hres Hints Hsource Hdel Hprobe Hcreate.
  rewrite (bulk_resolved _ _ _ _ _ _ _ _ _ Hlist Hsome Hres).
  unfold bulk_with_connection.
  rewrite (bind_ret_run _ _ _ _ _ Hints). rewrite Hsource.
  rewrite (bind_ret_run _ _ _ _ _ Hdel).
  unfold creation_pass.
  apply (creation_pass_configured _ _ _ _ _ Ht Hne _ Hprobe Hcreate no_results).
Qed.

Lemma bulk_configures_every_target_witness :
  fst (configure_broker_for_organizations_bulk
         Example8.service Scenario.client 3 (JStr "conn1") []) =
  Ret (mkResults [success_entry Example8.B (JStr "conn1");
                  success_entry Example8.C (JStr "conn1")] [] []).
Proof.
  erewrite (bulk_configures_every_target
              Example8.service Scenario.client 3 "t1" (JStr "conn1") []);
    cycle 1.
  - reflexivity.
  - discriminate.
  - reflexivity.
  - discriminate.
  - left. split; [reflexivity |]. split; reflexivity.
  - reflexivity.
  - reflexivity.
  - reflexivity.
  - intros t0 org _. eexists. split; reflexivity.
  - intros t0 org _. eexists. split; reflexivity.
  - reflexivity.
Defined.

(* ===================================================================== *)
(** * Identifiers the client was built without *)
(* ===================================================================== *)

Lemma require_absent (v : option string) (msg : string) :
  truthy (of_optional v) = false -> require v msg = Err (Exn ValueError msg).
Proof.
  destruct v as [s |]; simpl; [| reflexivity].
  intros H. unfold require. simpl. rewrite H. reflexivity.
Qed.

Lemma bind_exc_run {A B} (m : M A) (k : A -> M B) t e t1 :
  m t = (Exc e, t1) -> bind m k t = (Exc e, t1).
Proof. intros E. unfold bind. rewrite E. reflexivity. Qed.

(** X4.  Without a tenant id (absent or empty) the three tenant-scoped
    calls raise [ValueError] before any request is issued; and
    [configure_broker_for_organizations_bulk], which asks for the tenant id
    only when it lists the integrations of the connection, raises that
    [ValueError] after the group has been listed and the connection
    resolved, having issued GET requests only. *)
Theorem tenant_id_required server self :
  truthy (of_optional (tenant_id self)) = false ->
  (forall connection t,
      get_broker_integrations_for_connection server self connection t =
      (Exc tenant_missing, t))
  /\
  (forall connection org integration t,
      delete_broker_integration server self connection org integration t =
      (Exc tenant_missing, t))
  /\
  (forall connection org integration_id integration_type t,
      create_broker_integration server self connection org integration_id
                                integration_type t =
      (Exc tenant_missing, t))
  /\
  (forall fuel connection t all_orgs t1 resolved t2,
      get_organizations_for_group server self fuel None t = (Ret all_orgs, t1) ->
      all_orgs <> [] ->
      resolved_connection server self connection t1 resolved t2 ->
      configure_broker_for_organizations_bulk server self fuel connection t =
      (Exc tenant_missing, t2) /\ reads_only t t2).
Proof.
  intros Hnone.
  assert (forall connection t,
             get_broker_integrations_for_connection server self connection t =
             (Exc tenant_missing, t)) as Hget.
  { intros connection t. unfold get_broker_integrations_for_connection.
    rewrite (require_absent _ _ Hnone). reflexivity. }
  split; [exact Hget |]. split; [| split].
  - intros connection org integration t. unfold delete_broker_integration.
    rewrite (require_absent _ _ Hnone). reflexivity.
  - intros connection org i ty t. unfold create_broker_integration.
    rewrite (require_absent _ _ Hnone). reflexivity.
  - intros fuel connection t all_orgs t1 resolved t2 Hlist Hne Hres. split.
    + rewrite (bulk_resolved _ _ _ _ _ _ _ _ _ Hlist Hne Hres).
      unfold bulk_with_connection. apply bind_exc_run. apply Hget.
    + eapply reads_only_trans.
      * eapply reads_only_run;
          [apply get_organizations_for_group_reads | exact Hlist].
      * eapply resolved_connection_reads. exact Hres.
Qed.

Lemma tenant_id_required_witness :
  fst (configure_broker_for_organizations_bulk
         Scenario.service
         (mkSnykAPI "token" None (Some "g1") (Some "A") "SNYK-US-01" false)
         3 (JStr "conn1") []) = Exc tenant_missing.
Proof.
  destruct (tenant_id_required
              Scenario.service
              (mkSnykAPI "token" None (Some "g1") (Some "A") "SNYK-US-01" false)
              eq_refl) as [_ [_ [_ Hbulk]]].
  edestruct (Hbulk 3 (JStr "conn1") []) as [Hrun _].
  - vm_compute. reflexivity.
  - discriminate.
  - left. split; [reflexivity |]. split; reflexivity.
  - rewrite Hrun. reflexivity.
Defined.

Lemma get_target_organizations_listing server self fuel t target_orgs t1 :
  get_target_organizations_for_broker_config server self fuel t =
  (Ret target_orgs, t1) ->
  exists all_orgs,
    get_organizations_for_group server self fuel None t = (Ret all_orgs, t1) /\
    target_orgs = target_orgs_of self all_orgs.
Proof.
  unfold get_target_organizations_for_broker_config.
  destruct (require (group_id self) _); simpl; [| discriminate].
  destruct (require (source_org_id self) _); simpl; [| discriminate].
  unfold bind, ret.
  destruct (get_organizations_for_group server self fuel None t)
    as [[all_orgs | e | ] t0]; try discriminate.
  intros H. injection H as <- <-.
  exists all_orgs. split; reflexivity.
Qed.

(** X5.  [get_target_organizations_for_broker_config] raises [ValueError]
    without a request when the client has no group id, and when it has a
    group id but no source organization id; when it returns, its result is
    the listing of the group without the organizations whose id is the
    source's, at the trace the listing left.  With no list of targets given,
    [configure_broker_for_organizations] lets that [ValueError] escape. *)
Theorem target_organizations_need_group_and_source server self fuel t :
  (truthy (of_optional (group_id self)) = false ->
   get_target_organizations_for_broker_config server self fuel t =
   (Exc (Exn ValueError "Group ID must be provided in constructor"), t))
  /\
  (truthy (of_optional (group_id self)) = true ->
   truthy (of_optional (source_org_id self)) = false ->
   get_target_organizations_for_broker_config server self fuel t =
   (Exc (Exn ValueError "Source organization ID must be provided in constructor"),
    t))
  /\
  (forall target_orgs t1,
      get_target_organizations_for_broker_config server self fuel t =
      (Ret target_orgs, t1) ->
      exists all_orgs,
        get_organizations_for_group server self fuel None t = (Ret all_orgs, t1) /\
        target_orgs = target_orgs_of self all_orgs /\
        forall org, In org target_orgs ->
                    Organization.id org <> of_optional (source_org_id self))
  /\
  (truthy (of_optional (group_id self)) = false \/
   truthy (of_optional (source_org_id self)) = false ->
   forall connection,
     exists e,
       configure_broker_for_organizations server self fuel connection None t =
       (Exc e, t) /\ exn_kind e = ValueError).
Proof.
  assert (forall v msg, truthy (of_optional v) = true ->
                        exists s, require v msg = Ok s) as Hpresent.
  { intros [s |] msg H; simpl in H; [| discriminate].
    exists s. unfold require. simpl. rewrite H. reflexivity. }
  split; [| split; [| split]].
  - intros Hg. unfold get_target_organizations_for_broker_config.
    rewrite (require_absent _ _ Hg). reflexivity.
  - intros Hg Hs. unfold get_target_organizations_for_broker_config.
    destruct (Hpresent _ "Group ID must be provided in constructor" Hg) as [g ->].
    rewrite (require_absent _ _ Hs). reflexivity.
  - intros target_orgs t1 H.
    destruct (get_target_organizations_listing _ _ _ _ _ _ H)
      as [all_orgs [Hlist ->]].
    exists all_orgs. split; [exact Hlist |]. split; [reflexivity |].
    intros org Hin. apply target_orgs_of_spec in Hin. apply Hin.
  - intros Hmissing connection.
    unfold configure_broker_for_organizations,
      get_target_organizations_for_broker_config.
    destruct (truthy (of_optional (group_id self))) eqn:Hg.
    + destruct Hmissing as [Hm | Hs]; [discriminate |].
      destruct (Hpresent _ "Group ID must be provided in constructor" Hg) as [g ->].
      rewrite (require_absent _ _ Hs). eexists. split; reflexivity.
    + rewrite (require_absent _ _ Hg). eexists. split; reflexivity.
Qed.

Lemma target_organizations_need_group_and_source_witness :
  get_target_organizations_for_broker_config
    Scenario.service (Scenario.client_of "" "A") 3 [] =
  (Exc (Exn ValueError "Group ID must be provided in constructor"), [])
  /\
  get_target_organizations_for_broker_config
    Scenario.service (Scenario.client_of "g1" "") 3 [] =
  (Exc (Exn ValueError "Source organization ID must be provided in constructor"),
   []).
Proof.
  split.
  - apply (proj1 (target_organizations_need_group_and_source
                    Scenario.service (Scenario.client_of "" "A") 3 [])).
    reflexivity.
  - apply (proj1 (proj2 (target_organizations_need_group_and_source
                           Scenario.service (Scenario.client_of "g1" "") 3 [])));
      reflexivity.
Defined.

(* ===================================================================== *)
(** * configure_broker_integration: update or create *)
(* ===================================================================== *)

Lemma create_integration_trace server org ty settings t :
  snd (create_integration server org ty settings t) =
  t ++ [integration_create org ty settings].
Proof.
  unfold create_integration, bind, _make_request.
  fold (integration_create org ty settings).
  destruct (server t _) as [resp | e]; [| reflexivity].
  cbv beta iota. destruct (status_code resp =? 201)%Z; [| reflexivity].
  destruct (lift (json_of resp) _) as [[data | e | ] t1] eqn:E;
    unfold lift in E; destruct (json_of resp); simpl in E;
      inversion E; subst; try reflexivity.
  destruct (py_get _ _ _); reflexivity.
Qed.

Lemma update_integration_trace server org integration_id settings t :
  snd (update_integration server org integration_id settings t) =
  t ++ [integration_update org integration_id settings].
Proof.
  unfold update_integration, bind, _make_request.
  fold (integration_update org integration_id settings).
  destruct (server t _) as [resp | e]; [| reflexivity].
  cbv beta iota. destruct (status_code resp =? 200)%Z; [| reflexivity].
  destruct (lift (json_of resp) _) as [[data | e | ] t1] eqn:E;
    unfold lift in E; destruct (json_of resp); simpl in E;
      inversion E; subst; try reflexivity.
  destruct (py_get _ _ _); reflexivity.
Qed.

(** X6.  [configure_broker_integration] updates or creates, never both.
    Once the broker integrations of the organization are listed, it issues
    exactly one more request: a POST that creates an integration of type
    [snyk-broker] when the list is empty, else a PATCH of the first broker
    integration of the list, addressed by its [id]; further broker
    integrations are left alone. *)
Theorem configure_broker_integration_upserts server org settings t brokers t1 :
  get_broker_integrations server org t = (Ret brokers, t1) ->
  (brokers = [] ->
   snd (configure_broker_integration server org settings t) =
   t1 ++ [integration_create org (JStr "snyk-broker") settings])
  /\
  (forall first rest,
      brokers = first :: rest ->
      exists broker_id,
        py_get first "id" JNull = Ok broker_id /\
        snd (configure_broker_integration server org settings t) =
        t1 ++ [integration_update org broker_id settings]).
Proof.
  intros Hb. split.
  - intros ->. unfold configure_broker_integration.
    rewrite (bind_ret_run _ _ _ _ _ Hb). apply create_integration_trace.
  - intros first rest ->.
    pose proof (get_broker_integrations_objects _ _ _ _ _ Hb) as Hobj.
    inversion Hobj as [| ? ? [members ->] _]; subst.
    eexists. split; [reflexivity |].
    unfold configure_broker_integration.
    rewrite (bind_ret_run _ _ _ _ _ Hb).
    apply update_integration_trace.
Qed.

Lemma configure_broker_integration_upserts_witness :
  snd (configure_broker_integration
         Estate.service (JStr "F") Estate.settings []) =
  [mkRequest GET (url_org_integrations (JStr "F"))
             [("version", JStr "2024-10-15")] None;
   integration_create (JStr "F") (JStr "snyk-broker") Estate.settings]
  /\
  snd (configure_broker_integration
         Estate.service (JStr "E") Estate.settings []) =
  [mkRequest GET (url_org_integrations (JStr "E"))
             [("version", JStr "2024-10-15")] None;
   integration_update (JStr "E") (JStr "n2") Estate.settings].
Proof.
  split.
  - apply (proj1 (configure_broker_integration_upserts
                    Estate.service (JStr "F") Estate.settings [] []
                    [mkRequest GET (url_org_integrations (JStr "F"))
                               [("version", JStr "2024-10-15")] None]
                    eq_refl)).
    reflexivity.
  - destruct (proj2 (configure_broker_integration_upserts
                       Estate.service (JStr "E") Estate.settings []
                       [Scenario.integration "n2" "Snyk-Broker" "conn1";
                        Scenario.integration "n3" "broker" "conn2"]
                       [mkRequest GET (url_org_integrations (JStr "E"))
                                  [("version", JStr "2024-10-15")] None]
                       eq_refl)
                    (Scenario.integration "n2" "Snyk-Broker" "conn1")
                    [Scenario.integration "n3" "broker" "conn2"] eq_refl)
      as [broker_id [Hid Htrace]].
    vm_compute in Hid. injection Hid as <-. exact Htrace.
Defined.

(* ===================================================================== *)
(** * Broker integrations and organization names *)
(* ===================================================================== *)

Lemma prefix_app_contains (a b : string) :
  forall s, String.prefix (a ++ b) s = true -> contains b s = true.
Proof.
  induction a as [| c a IH]; intros s H.
  - change (String.prefix b s = true) in H.
    destruct s; cbn [contains]; rewrite H; reflexivity.
  - destruct s as [| d s]; simpl in H; [discriminate |].
    destruct (ascii_dec c d); [| discriminate].
    simpl. rewrite (IH s H). apply orb_true_r.
Qed.

Lemma contains_app (a b : string) :
  forall s, contains (a ++ b) s = true -> contains b s = true.
Proof.
  induction s as [| d s IH]; intros H.
  - cbn [contains] in H. rewrite orb_false_r in H.
    apply (prefix_app_contains a b). exact H.
  - change (contains (a ++ b) (String d s))
      with (String.prefix (a ++ b) (String d s) || contains (a ++ b) s) in H.
    apply orb_true_iff in H. destruct H as [H | H].
    + apply (prefix_app_contains a b). exact H.
    + change (contains b (String d s))
        with (String.prefix b (String d s) || contains b s).
      rewrite (IH H). apply orb_true_r.
Qed.

Lemma snyk_broker_redundant (s : string) :
  contains "broker" s || contains "snyk-broker" s = contains "broker" s.
Proof.
  destruct (contains "broker" s) eqn:E; [reflexivity |].
  destruct (contains "snyk-broker" s) eqn:E'; [| reflexivity].
  rewrite (contains_app "snyk-" "broker" s E') in E. discriminate.
Qed.

Lemma is_broker_typed integration keep :
  is_broker integration = Ok keep -> keep = broker_typed integration.
Proof.
  unfold is_broker, broker_typed.
  destruct integration as [| | | | | members]; simpl; try discriminate.
  destruct (lookup "attributes" members) as [[| | | | | attrs] |]; simpl;
    try discriminate.
  - destruct (lookup "type" attrs) as [[| | | ty | |] |]; simpl;
      try discriminate.
    + intros H. injection H as <-. apply snyk_broker_redundant.
    + intros H. injection H as <-. reflexivity.
  - intros H. injection H as <-. reflexivity.
Qed.

Lemma select_brokers_filter integrations kept :
  select_brokers integrations = Ok kept ->
  kept = filter broker_typed integrations.
Proof.
  revert kept. induction integrations as [| i rest IH]; intros kept; simpl.
  - intros H. injection H as <-. reflexivity.
  - destruct (is_broker i) as [keep | e] eqn:Ei; simpl; [| discriminate].
    destruct (select_brokers rest) as [kept' | e]; simpl; [| discriminate].
    intros H. injection H as <-. rewrite <- (IH kept' eq_refl).
    rewrite <- (is_broker_typed _ _ Ei). destruct keep; reflexivity.
Qed.

(** X7.  What [get_broker_integrations] keeps, for integration types that
    are ASCII text.  An integration whose [attributes.type] is such a text
    is kept exactly when the type, in lower case, contains [broker]: the
    second test of the condition, for [snyk-broker], never decides.  An
    integration without [attributes] is not kept.  When every type is ASCII
    text, the result is the integrations of the organization whose type
    mentions [broker], in the order the service gave them. *)
Theorem broker_heuristic server :
  (forall integration attrs ty,
      py_get integration "attributes" (JObj []) = Ok attrs ->
      py_get attrs "type" (JStr "") = Ok (JStr ty) ->
      ascii_text ty = true ->
      is_broker integration = Ok (mentions_broker ty))
  /\
  (forall members,
      lookup "attributes" members = None ->
      is_broker (JObj members) = Ok false)
  /\
  (forall org t brokers t1,
      get_broker_integrations server org t = (Ret brokers, t1) ->
      exists integrations items,
        get_integrations_for_org server org t = (Ret integrations, t1) /\
        py_iter integrations = Ok items /\
        (forallb ascii_typed items = true ->
         brokers = filter broker_typed items)).
Proof.
  split; [| split].
  - intros integration attrs ty Ha Ht _. unfold is_broker, mentions_broker.
    rewrite Ha. simpl. rewrite Ht. simpl. rewrite snyk_broker_redundant.
    reflexivity.
  - intros members H. unfold is_broker. simpl. rewrite H. reflexivity.
  - intros org t brokers t1. unfold get_broker_integrations, bind.
    destruct (get_integrations_for_org server org t) as [[v | e | ] t0];
      try discriminate.
    destruct (py_iter v) as [items | e] eqn:Ei; simpl; [| discriminate].
    destruct (select_brokers items) as [kept | e] eqn:Es; simpl; [| discriminate].
    intros H. injection H as <- <-.
    exists v, items. split; [reflexivity |]. split; [exact Ei |].
    intros _. apply select_brokers_filter. exact Es.
Qed.

Lemma broker_heuristic_witness :
  is_broker (Scenario.integration "n3" "Broker-GitLab" "conn2") = Ok true /\
  is_broker (JObj [("id", JStr "n6")]) = Ok false /\
  fst (get_broker_integrations Scenario.service (JStr "B") []) =
  Ret [Scenario.integration "n1" "snyk-broker" "conn1";
       Scenario.integration "n3" "Broker-GitLab" "conn2"].
Proof.
  destruct (broker_heuristic Scenario.service) as [Htype [Hnone Hfilter]].
  split; [| split].
  - apply (Htype (Scenario.integration "n3" "Broker-GitLab" "conn2")
                 (JObj [("type", JStr "Broker-GitLab")]) "Broker-GitLab");
      reflexivity.
  - apply (Hnone [("id", JStr "n6")]). reflexivity.
  - destruct (get_broker_integrations Scenario.service (JStr "B") [])
      as [out t1] eqn:E.
    assert (exists brokers, out = Ret brokers) as [brokers ->].
    { vm_compute in E. injection E as <- _. eexists. reflexivity. }
    destruct (Hfilter (JStr "B") [] brokers t1 E)
      as [integrations [items [Hint [Hiter Hbrokers]]]].
    vm_compute in Hint. injection Hint as <- _.
    vm_compute in Hiter. injection Hiter as <-.
    rewrite (Hbrokers eq_refl). reflexivity.
Defined.

(** X8.  [get_organization_name] issues one request, the GET that
    [validate_organization_access] issues first.  It answers with the
    organization id itself when the status is not 200, when the document
    has no (or a falsy) [data] member, and when [data] has no [attributes]
    or they have no [name]; else with the name.  An exception of the
    transport escapes it. *)
Theorem organization_name_falls_back server org t :
  snd (get_organization_name server org t) = t ++ [probe org "2024-10-15"]
  /\
  (forall resp,
      server t (probe org "2024-10-15") = Resp resp ->
      status_code resp <> 200%Z ->
      fst (get_organization_name server org t) = Ret org)
  /\
  (forall resp doc details,
      server t (probe org "2024-10-15") = Resp resp ->
      status_code resp = 200%Z ->
      body resp = Json doc ->
      py_get doc "data" JNull = Ok details ->
      (truthy details = false ->
       fst (get_organization_name server org t) = Ret org)
      /\
      (forall members,
          details = JObj members ->
          lookup "attributes" members = None ->
          fst (get_organization_name server org t) = Ret org)
      /\
      (forall members attrs,
          details = JObj members ->
          lookup "attributes" members = Some (JObj attrs) ->
          fst (get_organization_name server org t) =
          Ret (match lookup "name" attrs with
               | Some name => name
               | None => org
               end)))
  /\
  (forall e,
      server t (probe org "2024-10-15") = Raise e ->
      fst (get_organization_name server org t) = Exc e).
Proof.
  unfold get_organization_name, get_organization_details, bind, _make_request.
  fold (probe org "2024-10-15").
  split; [| split; [| split]].
  - destruct (server t (probe org "2024-10-15")) as [resp | e]; [| reflexivity].
    cbv beta iota. destruct (status_code resp =? 200)%Z; [| reflexivity].
    unfold lift, json_of. destruct (body resp) as [doc | err]; [| reflexivity].
    simpl. destruct (py_get doc "data" JNull) as [details | e]; [| reflexivity].
    simpl. destruct (truthy details); [| reflexivity].
    destruct (py_get details "attributes" (JObj [])) as [attrs | e];
      [| reflexivity].
    simpl. destruct (py_get attrs "name" org); reflexivity.
  - intros resp -> Hs. cbv beta iota.
    apply Z.eqb_neq in Hs. rewrite Hs. reflexivity.
  - intros resp doc details -> Hs Hb Hd. cbv beta iota.
    rewrite Hs. unfold lift, json_of. rewrite Hb.
    cbn -[py_get truthy lookup]. rewrite Hd. cbn -[py_get truthy lookup].
    split; [| split].
    + intros ->. reflexivity.
    + intros members -> Hl. destruct members as [| m ms]; [reflexivity |].
      cbn -[lookup]. rewrite Hl. reflexivity.
    + intros members attrs -> Hl. destruct members as [| m ms];
        [discriminate |].
      cbn -[lookup]. rewrite Hl. reflexivity.
  - intros e ->. reflexivity.
Qed.

Lemma organization_name_falls_back_witness :
  fst (get_organization_name Scenario.service (JStr "D") []) = Ret (JStr "D") /\
  fst (get_organization_name Scenario.service (JStr "B")
         [probe (JStr "B") "2024-10-15"]) = Ret (JStr "B") /\
  fst (get_organization_name Scenario.service (JStr "C") []) =
  Exc (Exn RequestException "Connection aborted.").
Proof.
  split; [| split].
  - apply (proj1 (proj2 (organization_name_falls_back
                           Scenario.service (JStr "D") []))
                 (mkResponse 403 (Json (JObj [("errors", JArr [])]))));
      [reflexivity | discriminate].
  - apply (proj1 (proj2 (organization_name_falls_back
                           Scenario.service (JStr "B")
                           [probe (JStr "B") "2024-10-15"]))
                 (mkResponse 404 (Json (JObj [("errors", JArr [])]))));
      [reflexivity | discriminate].
  - apply (proj2 (proj2 (proj2 (organization_name_falls_back
                                  Scenario.service (JStr "C") [])))).
    reflexivity.
Defined.

(* ===================================================================== *)
(** * The per-organization loops: one entry per organization *)
(* ===================================================================== *)

Lemma bind_ret_inv {A B} (m : M A) (k : A -> M B) t b t' :
  bind m k t = (Ret b, t') ->
  exists a t1, m t = (Ret a, t1) /\ k a t1 = (Ret b, t').
Proof.
  unfold bind. destruct (m t) as [[a | e | ] t1]; try discriminate.
  intros H. exists a, t1. split; [reflexivity | exact H].
Qed.

Lemma try_except_ret_inv {A} (m : M A) (h : exn -> M A) t a t' :
  try_except m h t = (Ret a, t') ->
  m t = (Ret a, t') \/ exists e t1, m t = (Exc e, t1) /\ h e t1 = (Ret a, t').
Proof.
  unfold try_except. destruct (m t) as [[a0 | e | ] t1]; try discriminate.
  - intros H. left. exact H.
  - intros H. right. exists e, t1. split; [reflexivity | exact H].
Qed.

Lemma ret_inv {A} (a b : A) t t' : ret a t = (Ret b, t') -> a = b /\ t = t'.
Proof. unfold ret. intros H. injection H as <- <-. split; reflexivity. Qed.

Lemma for_each_app {A S} (body : A -> S -> M S) (l1 l2 : list A) :
  forall s t,
    for_each body (l1 ++ l2) s t = bind (for_each body l1 s) (for_each body l2) t.
Proof.
  induction l1 as [| x l1 IH]; intros s t; simpl.
  - reflexivity.
  - unfold bind. destruct (body x s t) as [[s' | e | ] t1]; try reflexivity.
    rewrite IH. reflexivity.
Qed.

Lemma accounts_nil r : accounts r r [].
Proof.
  exists [], [], []. rewrite !app_nil_r.
  repeat (split; [reflexivity |]). constructor.
Qed.

Lemma accounts_step results mid r org ids :
  accounts results mid [org] -> accounts mid r ids ->
  accounts results r (org :: ids).
Proof.
  intros [s1 [f1 [k1 [Hs1 [Hf1 [Hk1 [Hn1 Ho1]]]]]]]
         [s2 [f2 [k2 [Hs2 [Hf2 [Hk2 [Hn2 Ho2]]]]]]].
  exists (s1 ++ s2), (f1 ++ f2), (k1 ++ k2).
  rewrite Hs2, Hs1, Hf2, Hf1, Hk2, Hk1, !app_assoc.
  split; [reflexivity |]. split; [reflexivity |]. split; [reflexivity |].
  split.
  - rewrite !length_app. simpl in Hn1 |- *. lia.
  - constructor.
    + apply Forall_inv in Ho1. destruct Ho1 as [entry [Hin Hid]].
      exists entry. split; [| exact Hid].
      rewrite !in_app_iff in Hin. rewrite !in_app_iff. tauto.
    + eapply Forall_impl; [| exact Ho2].
      intros o [entry [Hin Hid]]. exists entry. split; [| exact Hid].
      rewrite !in_app_iff in Hin. rewrite !in_app_iff. tauto.
Qed.

Lemma accounts_add_success results entry org :
  py_get entry "org_id" JNull = Ok org ->
  accounts results (add_success results entry) [org].
Proof.
  intros H. exists [entry], [], []. simpl. rewrite !app_nil_r.
  repeat (split; [reflexivity |]). constructor; [| constructor].
  exists entry. split; [left; reflexivity | exact H].
Qed.

Lemma accounts_add_failed results entry org :
  py_get entry "org_id" JNull = Ok org ->
  accounts results (add_failed results entry) [org].
Proof.
  intros H. exists [], [entry], []. simpl. rewrite !app_nil_r.
  repeat (split; [reflexivity |]). constructor; [| constructor].
  exists entry. split; [left; reflexivity | exact H].
Qed.

Lemma accounts_add_skipped results entry org :
  py_get entry "org_id" JNull = Ok org ->
  accounts results (add_skipped results entry) [org].
Proof.
  intros H. exists [], [], [entry]. simpl. rewrite !app_nil_r.
  repeat (split; [reflexivity |]). constructor; [| constructor].
  exists entry. split; [left; reflexivity | exact H].
Qed.

Lemma for_each_accounts (body : json -> Results -> M Results) :
  (forall org results t r t',
      body org results t = (Ret r, t') -> accounts results r [org]) ->
  forall ids results t r t',
    for_each body ids results t = (Ret r, t') -> accounts results r ids.
Proof.
  intros Hbody. induction ids as [| org ids IH]; intros results t r t' H.
  - apply ret_inv in H. destruct H as [<- _]. apply accounts_nil.
  - simpl in H. apply bind_ret_inv in H.
    destruct H as [mid [t1 [Hone Hrest]]].
    eapply accounts_step; [eapply Hbody; exact Hone | eapply IH; exact Hrest].
Qed.

Lemma accounts_total r ids :
  accounts no_results r ids -> total r = List.length ids.
Proof.
  intros [s [f [k [Hs [Hf [Hk [Hn _]]]]]]]. unfold total.
  rewrite Hs, Hf, Hk. simpl. exact Hn.
Qed.

Lemma mass_configure_one_accounts server settings org results t r t' :
  mass_configure_one server settings org results t = (Ret r, t') ->
  accounts results r [org].
Proof.
  unfold mass_configure_one. intros H.
  apply try_except_ret_inv in H. destruct H as [H | [e [t1 [_ H]]]].
  - unfold mass_configure_steps in H.
    apply bind_ret_inv in H. destruct H as [accessible [t1 [_ H]]].
    destruct accessible; simpl in H.
    + apply bind_ret_inv in H. destruct H as [result [t2 [_ H]]].
      destruct (truthy result).
      * apply bind_ret_inv in H. destruct H as [name [t3 [_ H]]].
        apply bind_ret_inv in H. destruct H as [id [t4 [_ H]]].
        apply ret_inv in H. destruct H as [<- _].
        apply accounts_add_success. reflexivity.
      * apply bind_ret_inv in H. destruct H as [name [t3 [_ H]]].
        apply ret_inv in H. destruct H as [<- _].
        apply accounts_add_failed. reflexivity.
    + apply ret_inv in H. destruct H as [<- _].
      apply accounts_add_skipped. reflexivity.
  - apply bind_ret_inv in H. destruct H as [name [t2 [_ H]]].
    apply ret_inv in H. destruct H as [<- _].
    apply accounts_add_failed. reflexivity.
Qed.

Lemma configure_org_accounts server self connection org results t r t' :
  configure_org server self connection org results t = (Ret r, t') ->
  accounts results r [org].
Proof.
  unfold configure_org. intros H.
  apply try_except_ret_inv in H. destruct H as [H | [e [t1 [_ H]]]].
  - apply bind_ret_inv in H. destruct H as [accessible [t1 [_ H]]].
    destruct accessible; simpl in H.
    + apply bind_ret_inv in H. destruct H as [configured [t2 [_ H]]].
      destruct configured.
      * apply bind_ret_inv in H. destruct H as [name [t3 [_ H]]].
        apply ret_inv in H. destruct H as [<- _].
        apply accounts_add_success. reflexivity.
      * apply bind_ret_inv in H. destruct H as [name [t3 [_ H]]].
        apply ret_inv in H. destruct H as [<- _].
        apply accounts_add_failed. reflexivity.
    + apply bind_ret_inv in H. destruct H as [name [t3 [_ H]]].
      apply ret_inv in H. destruct H as [<- _].
      apply accounts_add_skipped. reflexivity.
  - apply bind_ret_inv in H. destruct H as [name [t2 [_ H]]].
    apply ret_inv in H. destruct H as [<- _].
    apply accounts_add_failed. reflexivity.
Qed.

(** X9.  When [mass_configure_broker] returns, its result holds exactly
    one entry per organization id given, in one of [success], [failed] and
    [skipped], and each id is the [org_id] of an entry. *)
Theorem mass_configure_broker_accounts server org_ids settings t r t' :
  mass_configure_broker server org_ids settings t = (Ret r, t') ->
  accounts no_results r org_ids /\ total r = List.length org_ids.
Proof.
  unfold mass_configure_broker. intros H.
  assert (accounts no_results r org_ids) as Ha.
  { eapply for_each_accounts; [| exact H].
    intros org results t0 r0 t0'. apply mass_configure_one_accounts. }
  split; [exact Ha | apply accounts_total; exact Ha].
Qed.

Lemma mass_configure_broker_accounts_witness :
  exists r t',
    mass_configure_broker
      Estate.service [JStr "E"; JStr "F"; JStr "G"; JStr "H"]
      Estate.settings [] = (Ret r, t') /\
    List.length (success r) = 2 /\ List.length (failed r) = 1 /\
    List.length (skipped r) = 1 /\ total r = 4.
Proof.
  destruct (mass_configure_broker
              Estate.service [JStr "E"; JStr "F"; JStr "G"; JStr "H"]
              Estate.settings []) as [out t'] eqn:E.
  assert (exists r, out = Ret r /\
                    List.length (success r) = 2 /\ List.length (failed r) = 1 /\
                    List.length (skipped r) = 1) as [r [-> Hr]].
  { vm_compute in E. injection E as <- _. eexists.
    split; [reflexivity |]. split; [reflexivity |]. split; reflexivity. }
  exists r, t'. split; [reflexivity |].
  destruct Hr as [Hs [Hf Hk]].
  split; [exact Hs |]. split; [exact Hf |]. split; [exact Hk |].
  apply (proj2 (mass_configure_broker_accounts _ _ _ _ _ _ E)).
Defined.

(** X10.  When [configure_broker_for_organizations] returns for a given
    list of organization ids, [success] is empty and [failed] and [skipped]
    together hold exactly one entry per id, each id the [org_id] of one. *)
Theorem configure_broker_for_organizations_accounts
        server self fuel connection org_ids t r t' :
  configure_broker_for_organizations server self fuel connection (Some org_ids) t =
  (Ret r, t') ->
  accounts no_results r org_ids /\
  success r = [] /\
  List.length (failed r) + List.length (skipped r) = List.length org_ids.
Proof.
  unfold configure_broker_for_organizations. intros H.
  apply bind_ret_inv in H. destruct H as [ids [t1 [Hids H]]].
  apply ret_inv in Hids. destruct Hids as [<- <-].
  assert (accounts no_results r org_ids) as Ha.
  { eapply for_each_accounts; [| exact H].
    intros org results t0 r0 t0'. apply configure_org_accounts. }
  assert (success r = []) as Hs.
  { apply (for_each_configure_org_success _ _ _ _ _ _ _ _ H). }
  split; [exact Ha |]. split; [exact Hs |].
  apply accounts_total in Ha. unfold total in Ha. rewrite Hs in Ha.
  simpl in Ha. exact Ha.
Qed.

Lemma configure_broker_for_organizations_accounts_witness :
  exists r t',
    configure_broker_for_organizations
      Scenario.service Scenario.client 3 (JStr "conn1")
      (Some [JStr "B"; JStr "D"]) [] = (Ret r, t') /\
    success r = [] /\
    List.length (failed r) + List.length (skipped r) = 2.
Proof.
  destruct (configure_broker_for_organizations
              Scenario.service Scenario.client 3 (JStr "conn1")
              (Some [JStr "B"; JStr "D"]) []) as [out t'] eqn:E.
  assert (exists r, out = Ret r) as [r ->].
  { vm_compute in E. injection E as <- _. eexists. reflexivity. }
  exists r, t'. split; [reflexivity |].
  apply (proj2 (configure_broker_for_organizations_accounts
                  _ _ _ _ _ _ _ _ E)).
Defined.

Lemma mass_configure_one_probe_raises server settings org results t e1 e2 :
  server t (probe org "2024-10-15") = Raise e1 ->
  server (t ++ [probe org "2024-10-15"]) (probe org "2024-10-15") = Raise e2 ->
  mass_configure_one server settings org results t =
  (Exc e2, t ++ [probe org "2024-10-15"; probe org "2024-10-15"]).
Proof.
  intros H1 H2.
  unfold mass_configure_one, try_except, mass_configure_steps,
    validate_organization_access, versions.
  cbn [validate_versions]. unfold bind at 1 2, _make_request at 1.
  fold (probe org "2024-10-15"). rewrite H1.
  unfold get_organization_name, get_organization_details, bind, _make_request.
  fold (probe org "2024-10-15"). rewrite H2.
  rewrite <- app_assoc. reflexivity.
Qed.

Lemma configure_org_probe_raises server self connection org results t e1 e2 :
  server t (probe org "2024-10-15") = Raise e1 ->
  server (t ++ [probe org "2024-10-15"]) (probe org "2024-10-15") = Raise e2 ->
  configure_org server self connection org results t =
  (Exc e2, t ++ [probe org "2024-10-15"; probe org "2024-10-15"]).
Proof.
  intros H1 H2.
  unfold configure_org, try_except,
    validate_organization_access, versions.
  cbn [validate_versions]. unfold bind at 1 2, _make_request at 1.
  fold (probe org "2024-10-15"). rewrite H1.
  unfold get_organization_name, get_organization_details, bind, _make_request.
  fold (probe org "2024-10-15"). rewrite H2.
  rewrite <- app_assoc. reflexivity.
Qed.

(** X11.  The handlers of [mass_configure_broker] and of
    [configure_broker_for_organizations] look the organization name up, with
    a request of their own.  When the probe of an organization raises and
    the lookup in the handler raises again, the second exception escapes
    the whole call: the entries recorded for the organizations before it
    are lost and those after it are never visited. *)
Theorem handler_failure_aborts_run
        server self fuel settings connection before org after t :
  (forall mid t1 e1 e2,
      mass_configure_broker server before settings t = (Ret mid, t1) ->
      server t1 (probe org "2024-10-15") = Raise e1 ->
      server (t1 ++ [probe org "2024-10-15"]) (probe org "2024-10-15") =
      Raise e2 ->
      mass_configure_broker server (before ++ org :: after) settings t =
      (Exc e2, t1 ++ [probe org "2024-10-15"; probe org "2024-10-15"]))
  /\
  (forall mid t1 e1 e2,
      configure_broker_for_organizations server self fuel connection
                                         (Some before) t = (Ret mid, t1) ->
      server t1 (probe org "2024-10-15") = Raise e1 ->
      server (t1 ++ [probe org "2024-10-15"]) (probe org "2024-10-15") =
      Raise e2 ->
      configure_broker_for_organizations server self fuel connection
                                         (Some (before ++ org :: after)) t =
      (Exc e2, t1 ++ [probe org "2024-10-15"; probe org "2024-10-15"])).
Proof.
  split.
  - intros mid t1 e1 e2 Hbefore H1 H2. unfold mass_configure_broker in *.
    rewrite for_each_app. rewrite (bind_ret_run _ _ _ _ _ Hbefore).
    cbn [for_each]. apply bind_exc_run.
    apply (mass_configure_one_probe_raises _ _ _ _ _ e1 e2 H1 H2).
  - intros mid t1 e1 e2 Hbefore H1 H2.
    unfold configure_broker_for_organizations in *.
    unfold bind at 1 in Hbefore. unfold bind at 1. unfold ret at 1 in Hbefore.
    unfold ret at 1.
    rewrite for_each_app. rewrite (bind_ret_run _ _ _ _ _ Hbefore).
    cbn [for_each]. apply bind_exc_run.
    apply (configure_org_probe_raises _ _ _ _ _ _ e1 e2 H1 H2).
Qed.

Lemma handler_failure_aborts_run_witness :
  fst (mass_configure_broker
         Scenario.service [JStr "B"; JStr "C"; JStr "D"] Estate.settings []) =
  Exc (Exn RequestException "Connection aborted.")
  /\
  fst (configure_broker_for_organizations
         Scenario.service Scenario.client 3 (JStr "conn1")
         (Some [JStr "B"; JStr "C"; JStr "D"]) []) =
  Exc (Exn RequestException "Connection aborted.").
Proof.
  destruct (handler_failure_aborts_run
              Scenario.service Scenario.client 3 Estate.settings (JStr "conn1")
              [JStr "B"] (JStr "C") [JStr "D"] []) as [Hmass Hconf].
  split.
  - destruct (mass_configure_broker
                Scenario.service [JStr "B"] Estate.settings [])
      as [out t1] eqn:E.
    assert (exists mid, out = Ret mid) as [mid ->].
    { vm_compute in E. injection E as <- _. eexists. reflexivity. }
    change [JStr "B"; JStr "C"; JStr "D"]
      with ([JStr "B"] ++ JStr "C" :: [JStr "D"]).
    rewrite (Hmass mid t1 (Exn RequestException "Connection aborted.")
                   (Exn RequestException "Connection aborted.")
                   eq_refl eq_refl eq_refl).
    reflexivity.
  - destruct (configure_broker_for_organizations
                Scenario.service Scenario.client 3 (JStr "conn1")
                (Some [JStr "B"]) []) as [out t1] eqn:E.
    assert (exists mid, out = Ret mid) as [mid ->].
    { vm_compute in E. injection E as <- _. eexists. reflexivity. }
    change [JStr "B"; JStr "C"; JStr "D"]
      with ([JStr "B"] ++ JStr "C" :: [JStr "D"]).
    rewrite (Hconf mid t1 (Exn RequestException "Connection aborted.")
                   (Exn RequestException "Connection aborted.")
                   eq_refl eq_refl eq_refl).
    reflexivity.
Defined.

(* ===================================================================== *)
(** * mass_configure_broker: what it reports and what it touches *)
(* ===================================================================== *)

Lemma create_integration_answer server org ty settings t resp doc data :
  server t (integration_create org ty settings) = Resp resp ->
  status_code resp = 201%Z ->
  body resp = Json doc ->
  py_get doc "data" JNull = Ok data ->
  create_integration server org ty settings t =
  (Ret data, t ++ [integration_create org ty settings]).
Proof.
  intros Hr Hs Hb Hd. unfold create_integration, bind at 1, _make_request.
  fold (integration_create org ty settings). rewrite Hr. cbv beta iota.
  rewrite Hs. cbv beta iota. change (201 =? 201)%Z with true. cbv iota.
  unfold json_of. rewrite Hb. cbn [lift]. unfold bind, ret.
  rewrite Hd. reflexivity.
Qed.

(** X12.  In [mass_configure_broker], for an accessible organization
    without broker integration whose creation is answered with 201, the
    report follows the [data] member of the answer, not the status: no
    [data] (or a falsy one) gives a failed entry with reason
    [Failed to configure broker integration]; a non-empty object gives a
    success entry that carries its [id]; a non-empty string makes
    [result.get] raise, and the handler records a failed entry after a
    second lookup of the name. *)
Theorem mass_configure_reports_by_data
        server settings org results t t1 t2 resp doc data name t3 :
  validate_organization_access server org t = (Ret true, t1) ->
  get_broker_integrations server org t1 = (Ret [], t2) ->
  server t2 (integration_create org (JStr "snyk-broker") settings) = Resp resp ->
  status_code resp = 201%Z ->
  body resp = Json doc ->
  py_get doc "data" JNull = Ok data ->
  get_organization_name
    server org (t2 ++ [integration_create org (JStr "snyk-broker") settings]) =
  (Ret name, t3) ->
  (truthy data = false ->
   mass_configure_one server settings org results t =
   (Ret (add_failed results
           (named_failure org name "Failed to configure broker integration")),
    t3))
  /\
  (forall members,
      data = JObj members ->
      members <> [] ->
      mass_configure_one server settings org results t =
      (Ret (add_success results
              (configured_entry org name
                 (match lookup "id" members with
                  | Some integration_id => integration_id
                  | None => JNull
                  end))),
       t3))
  /\
  (forall s name' t4,
      data = JStr s ->
      s <> "" ->
      get_organization_name server org t3 = (Ret name', t4) ->
      mass_configure_one server settings org results t =
      (Ret (add_failed results
              (named_failure org name'
                 "Exception: 'str' object has no attribute 'get'")),
       t4)).
Proof.
  intros Hv Hb Hr Hs Hbody Hd Hn.
  assert (configure_broker_integration server org settings t1 =
          (Ret data,
           t2 ++ [integration_create org (JStr "snyk-broker") settings]))
    as Hc.
  { unfold configure_broker_integration.
    rewrite (bind_ret_run _ _ _ _ _ Hb).
    apply (create_integration_answer _ _ _ _ _ resp doc data Hr Hs Hbody Hd). }
  unfold mass_configure_one, try_except, mass_configure_steps.
  rewrite (bind_ret_run _ _ _ _ _ Hv). cbn [negb].
  rewrite (bind_ret_run _ _ _ _ _ Hc).
  split; [| split].
  - intros ->. rewrite (bind_ret_run _ _ _ _ _ Hn). reflexivity.
  - intros members -> Hne.
    replace (truthy (JObj members)) with true
      by (destruct members; [contradiction | reflexivity]).
    rewrite (bind_ret_run _ _ _ _ _ Hn). reflexivity.
  - intros s name' t4 -> Hne Hn'.
    rewrite (truthy_JStr s Hne).
    rewrite (bind_ret_run _ _ _ _ _ Hn). cbn [py_get lift].
    unfold bind at 1, raise. cbv beta iota.
    rewrite (bind_ret_run _ _ _ _ _ Hn'). reflexivity.
Qed.

Lemma mass_configure_reports_by_data_witness :
  fst (mass_configure_one
         Estate.service Estate.settings (JStr "G") no_results []) =
  Ret (add_failed no_results
         (named_failure (JStr "G") (JStr "G")
                        "Failed to configure broker integration"))
  /\
  fst (mass_configure_one
         Estate.service Estate.settings (JStr "F") no_results []) =
  Ret (add_success no_results
         (configured_entry (JStr "F") (JStr "Foxtrot") (JStr "n7"))).
Proof.
  split.
  - edestruct (mass_configure_reports_by_data
                 Estate.service Estate.settings (JStr "G") no_results [])
      as [Hfalsy _].
    + reflexivity.
    + reflexivity.
    + reflexivity.
    + reflexivity.
    + reflexivity.
    + reflexivity.
    + reflexivity.
    + rewrite Hfalsy; reflexivity.
  - edestruct (mass_configure_reports_by_data
                 Estate.service Estate.settings (JStr "F") no_results [])
      as [_ [Hdict _]].
    + reflexivity.
    + reflexivity.
    + reflexivity.
    + reflexivity.
    + reflexivity.
    + reflexivity.
    + reflexivity.
    + rewrite (Hdict [("id", JStr "n7")] eq_refl); [reflexivity | discriminate].
Defined.

Lemma update_integration_within server org_ids org integration_id settings :
  In org org_ids ->
  issues (configures_within org_ids)
         (update_integration server org integration_id settings).
Proof.
  intros Hin. unfold update_integration.
  repeat issues_step; right; (split; [discriminate |]);
    exists org; (split; [exact Hin | reflexivity]).
Qed.

Lemma create_integration_within server org_ids org integration_type settings :
  In org org_ids ->
  issues (configures_within org_ids)
         (create_integration server org integration_type settings).
Proof.
  intros Hin. unfold create_integration.
  repeat issues_step; right; (split; [discriminate |]);
    exists org; (split; [exact Hin | reflexivity]).
Qed.

Lemma reads_within {A} org_ids (m : M A) :
  issues is_get m -> issues (configures_within org_ids) m.
Proof. apply issues_weaken. intros r Hr. left. exact Hr. Qed.

Lemma configure_broker_integration_within server org_ids org settings :
  In org org_ids ->
  issues (configures_within org_ids)
         (configure_broker_integration server org settings).
Proof.
  intros Hin. unfold configure_broker_integration.
  apply issues_bind; [apply reads_within, get_broker_integrations_reads |].
  intros [| first rest].
  - apply create_integration_within. exact Hin.
  - apply issues_bind; [apply issues_lift |].
    intros broker_id. apply update_integration_within. exact Hin.
Qed.

Lemma mass_configure_one_within server org_ids settings org results :
  In org org_ids ->
  issues (configures_within org_ids)
         (mass_configure_one server settings org results).
Proof.
  intros Hin. unfold mass_configure_one, mass_configure_steps.
  apply issues_try_except.
  - apply issues_bind;
      [apply reads_within, validate_organization_access_reads |].
    intros accessible. destruct accessible; cbn [negb]; [| apply issues_ret].
    apply issues_bind; [apply configure_broker_integration_within; exact Hin |].
    intros result. destruct (truthy result).
    + apply issues_bind;
        [apply reads_within, get_organization_name_reads |].
      intros name. repeat issues_step.
    + apply issues_bind;
        [apply reads_within, get_organization_name_reads |].
      intros name. apply issues_ret.
  - intros e. apply issues_bind;
      [apply reads_within, get_organization_name_reads |].
    intros name. apply issues_ret.
Qed.

Lemma update_integration_finishes server org integration_id settings :
  finishes (update_integration server org integration_id settings).
Proof. unfold update_integration. repeat finishes_step. Qed.

Lemma create_integration_finishes server org integration_type settings :
  finishes (create_integration server org integration_type settings).
Proof. unfold create_integration. repeat finishes_step. Qed.

Lemma mass_configure_one_finishes server settings org results :
  finishes (mass_configure_one server settings org results).
Proof.
  unfold mass_configure_one, mass_configure_steps, configure_broker_integration.
  apply finishes_try_except.
  - apply finishes_bind; [apply validate_organization_access_finishes |].
    intros accessible. destruct accessible; cbn [negb]; [| apply finishes_ret].
    apply finishes_bind.
    + apply finishes_bind; [apply get_broker_integrations_finishes |].
      intros [| first rest]; [apply create_integration_finishes |].
      apply finishes_bind; [apply finishes_lift |].
      intros broker_id. apply update_integration_finishes.
    + intros result. destruct (truthy result);
        (apply finishes_bind; [apply get_organization_name_finishes |]);
        intros name; repeat finishes_step.
  - intros e. apply finishes_bind; [apply get_organization_name_finishes |].
    intros name. apply finishes_ret.
Qed.

(** X13.  [mass_configure_broker] never issues a DELETE, every POST or
    PATCH it issues is scoped to one of the organization ids it was given,
    and it needs no fuel: it returns or raises. *)
Theorem mass_configure_broker_scope server org_ids settings :
  issues (configures_within org_ids)
         (mass_configure_broker server org_ids settings)
  /\
  finishes (mass_configure_broker server org_ids settings).
Proof.
  unfold mass_configure_broker. split.
  - apply issues_for_each. intros org results Hin.
    apply mass_configure_one_within. exact Hin.
  - apply finishes_for_each. intros org results.
    apply mass_configure_one_finishes.
Qed.

(* ===================================================================== *)
(** * _configure_broker_for_org: removal without creation *)
(* ===================================================================== *)

Lemma remove_existing_removes server self tenant connection org :
  tenant_id self = Some tenant ->
  tenant <> "" ->
  (forall t0 rq,
      method rq = DELETE ->
      exists resp, server t0 rq = Resp resp /\ status_code resp = 204%Z) ->
  forall integrations t,
    remove_existing server self connection org integrations t =
    (Ret true,
     t ++ map (org_delete tenant connection org)
              (filter (fun i => py_eq (BrokerIntegration.org_id i) org)
                      integrations)).
Proof.
  intros Ht Hne Hserver. induction integrations as [| i rest IH]; intros t.
  - simpl. rewrite app_nil_r. reflexivity.
  - cbn [remove_existing filter].
    destruct (py_eq (BrokerIntegration.org_id i) org); [| apply IH].
    unfold delete_broker_integration at 1.
    rewrite (require_present _ _ _ Ht Hne).
    unfold bind at 1 2 3, lift, ret, _make_request. cbv beta iota.
    fold (org_delete tenant connection org i).
    destruct (Hserver t (org_delete tenant connection org i) eq_refl)
      as [resp [-> Hs]].
    cbv beta iota. rewrite Hs. change (204 =? 204)%Z with true. cbv iota.
    cbn [negb]. rewrite IH. cbn [map]. rewrite <- app_assoc. reflexivity.
Qed.

(** X14.  [_configure_broker_for_org] removes and never creates.  With a
    tenant id set, a connection that binds the source organization and a
    service that answers every DELETE with 204, it issues one DELETE for
    each integration of the connection whose [org_id] equals the
    organization it was asked to configure, in list order, and then returns
    [False]. *)
Theorem configure_broker_for_org_only_deletes
        server self tenant connection org t integrations t1 source_integration :
  tenant_id self = Some tenant ->
  tenant <> "" ->
  get_broker_integrations_for_connection server self connection t =
  (Ret integrations, t1) ->
  source_integration_of self integrations = Some source_integration ->
  (forall t0 rq,
      method rq = DELETE ->
      exists resp, server t0 rq = Resp resp /\ status_code resp = 204%Z) ->
  _configure_broker_for_org server self org connection t =
  (Ret false,
   t1 ++ map (org_delete tenant connection org)
             (filter (fun i => py_eq (BrokerIntegration.org_id i) org)
                     integrations)).
Proof.
  intros Ht Hne Hints Hsource Hserver.
  unfold _configure_broker_for_org, try_except, configure_broker_for_org_steps.
  rewrite (bind_ret_run _ _ _ _ _ Hints). rewrite Hsource.
  rewrite (bind_ret_run _ _ _ _ _
             (remove_existing_removes _ _ _ _ _ Ht Hne Hserver _ _)).
  cbn [negb]. rewrite load_global_integration_id. reflexivity.
Qed.

Lemma configure_broker_for_org_only_deletes_witness :
  _configure_broker_for_org
    Example8.service Scenario.client (JStr "B") (JStr "conn1") [] =
  (Ret false,
   [mkRequest GET (url_connection_integrations "t1" (JStr "conn1"))
              [("version", JStr "2025-09-28")] None;
    org_delete "t1" (JStr "conn1") (JStr "B")
               (BrokerIntegration.mk (JStr "i2") (JStr "B")
                                     (JStr "bitbucket-server"))]).
Proof.
  erewrite (configure_broker_for_org_only_deletes
              Example8.service Scenario.client "t1" (JStr "conn1") (JStr "B") []);
    cycle 1.
  - reflexivity.
  - discriminate.
  - reflexivity.
  - reflexivity.
  - intros t0 rq Hm. exists (mkResponse 204 (Json (JObj [("errors", JArr [])]))).
    split; [| reflexivity]. unfold Example8.service. rewrite Hm. reflexivity.
  - reflexivity.
Defined.

(* ===================================================================== *)
(** * The command line *)
(* ===================================================================== *)

Lemma try_except_ret_run {A} (m : M A) (h : exn -> M A) t a t' :
  m t = (Ret a, t') -> try_except m h t = (Ret a, t').
Proof. intros E. unfold try_except. rewrite E. reflexivity. Qed.

Lemma reads_spare {A} source (m : M A) :
  issues is_get m -> issues (spares source) m.
Proof. apply issues_weaken. intros r. apply is_get_spares. Qed.

Lemma get_target_organizations_reads server self fuel :
  issues is_get (get_target_organizations_for_broker_config server self fuel).
Proof.
  unfold get_target_organizations_for_broker_config.
  repeat (apply issues_bind; [apply issues_lift | intros ?]).
  apply issues_bind; [apply get_organizations_for_group_reads |].
  intros all_orgs. apply issues_ret.
Qed.

Lemma main_steps_spares server removal_mode args fuel :
  truthy (of_optional (Args.remove_connection args)) = false ->
  issues (spares (of_optional (Args.source_org_id args)))
         (main_steps server removal_mode args fuel).
Proof.
  intros Hmode. unfold main_steps. rewrite Hmode.
  apply issues_bind;
    [apply reads_spare, get_organizations_for_group_reads |].
  intros all_orgs.
  apply issues_bind; [apply reads_spare, get_target_organizations_reads |].
  intros target_orgs. destruct (is_empty target_orgs); [apply issues_ret |].
  apply issues_bind; [apply reads_spare, get_broker_connections_reads |].
  intros broker_connections.
  destruct (is_empty broker_connections); [apply issues_ret |].
  destruct (selected_connection args broker_connections) as [selected |];
    [| apply issues_ret].
  destruct (Args.dry_run args); [apply issues_ret |].
  apply issues_bind; [| intros results; apply issues_ret].
  apply (bulk_spares server (client_of_args args)).
Qed.

Lemma main_steps_dry_run_reads server removal_mode args fuel :
  truthy (of_optional (Args.remove_connection args)) = false ->
  Args.dry_run args = true ->
  issues is_get (main_steps server removal_mode args fuel).
Proof.
  intros Hmode Hdry. unfold main_steps. rewrite Hmode, Hdry.
  apply issues_bind; [apply get_organizations_for_group_reads |].
  intros all_orgs.
  apply issues_bind; [apply get_target_organizations_reads |].
  intros target_orgs. destruct (is_empty target_orgs); [apply issues_ret |].
  apply issues_bind; [apply get_broker_connections_reads |].
  intros broker_connections.
  destruct (is_empty broker_connections); [apply issues_ret |].
  destruct (selected_connection args broker_connections) as [selected |];
    apply issues_ret.
Qed.

(** X15.  [main] without [--remove-connection]: every request is a GET or
    is scoped to an organization other than [--source-org-id]; with
    [--dry-run] every request is a GET; and no exception escapes. *)
Theorem main_configure_mode_requests server removal_mode args fuel :
  truthy (of_optional (Args.remove_connection args)) = false ->
  issues (spares (of_optional (Args.source_org_id args)))
         (main server removal_mode args fuel)
  /\
  (Args.dry_run args = true ->
   issues is_get (main server removal_mode args fuel))
  /\
  (forall t e, fst (main server removal_mode args fuel t) <> Exc e).
Proof.
  intros Hmode. unfold main. rewrite Hmode. cbn [negb andb].
  split; [| split].
  - destruct (negb (truthy (of_optional (Args.source_org_id args))));
      [apply issues_ret |].
    apply issues_try_except; [| intros e; apply issues_ret].
    apply main_steps_spares. exact Hmode.
  - intros Hdry.
    destruct (negb (truthy (of_optional (Args.source_org_id args))));
      [apply issues_ret |].
    apply issues_try_except; [| intros e; apply issues_ret].
    apply main_steps_dry_run_reads; assumption.
  - intros t e.
    destruct (negb (truthy (of_optional (Args.source_org_id args))));
      [discriminate |].
    unfold try_except.
    destruct (main_steps server removal_mode args fuel t) as [[code | e' | ] t'];
      discriminate.
Qed.

Lemma main_configure_mode_requests_witness :
  Forall is_get
         (snd (main Scenario.service (fun _ _ => ret tt)
                    (Args.mk "token" "t1" "g1" (Some "A") None None true false)
                    3 [])).
Proof.
  destruct (main_configure_mode_requests
              Scenario.service (fun _ _ => ret tt)
              (Args.mk "token" "t1" "g1" (Some "A") None None true false)
              3 eq_refl) as [_ [Hdry _]].
  destruct (Hdry eq_refl []) as [new [E F]].
  rewrite E. exact F.
Defined.

(** X16.  The exit status of [main] without [--remove-connection].
    Without [--source-org-id] it is 2 and no request is issued.  When the
    first request of the group listing raises, it is 1.  It is 0 when the
    group has no target organization, when the source organization has no
    broker connection, when [--broker-connection-id] names none of its
    connections, after a dry run, and whenever
    [configure_broker_for_organizations_bulk] returns, whatever the result
    it returns. *)
Theorem main_exit_status server removal_mode args fuel t :
  truthy (of_optional (Args.remove_connection args)) = false ->
  (truthy (of_optional (Args.source_org_id args)) = false ->
   main server removal_mode args fuel t = (Ret 2%Z, t))
  /\
  (truthy (of_optional (Args.source_org_id args)) = true ->
   Args.group_id args <> "" ->
   forall e,
     server t (page_request (url_group_orgs (Args.group_id args))) = Raise e ->
     main server removal_mode args (S fuel) t =
     (Ret 1%Z, t ++ [page_request (url_group_orgs (Args.group_id args))]))
  /\
  (truthy (of_optional (Args.source_org_id args)) = true ->
   forall all_orgs t1 target_orgs t2,
     get_organizations_for_group server (client_of_args args) fuel None t =
     (Ret all_orgs, t1) ->
     get_target_organizations_for_broker_config
       server (client_of_args args) fuel t1 = (Ret target_orgs, t2) ->
     (target_orgs = [] ->
      main server removal_mode args fuel t = (Ret 0%Z, t2))
     /\
     (target_orgs <> [] ->
      forall broker_connections t3,
        get_broker_connections server (client_of_args args) None t2 =
        (Ret broker_connections, t3) ->
        (selected_connection args broker_connections = None ->
         main server removal_mode args fuel t = (Ret 0%Z, t3))
        /\
        (forall selected,
            selected_connection args broker_connections = Some selected ->
            (Args.dry_run args = true ->
             main server removal_mode args fuel t = (Ret 0%Z, t3))
            /\
            (Args.dry_run args = false ->
             forall results t4,
               configure_broker_for_organizations_bulk
                 server (client_of_args args) fuel
                 (BrokerConnection.id selected) t3 = (Ret results, t4) ->
               main server removal_mode args fuel t = (Ret 0%Z, t4))))).
Proof.
  intros Hmode. unfold main. rewrite Hmode. cbn [negb andb].
  split; [| split].
  - intros ->. reflexivity.
  - intros -> Hgroup e Hraise. cbn [negb].
    unfold main_steps, try_except. rewrite Hmode.
    unfold get_organizations_for_group at 1.
    change (group_id (client_of_args args)) with (Some (Args.group_id args)).
    rewrite (require_present _ _ _ eq_refl Hgroup).
    cbn [lift group_orgs_pages].
    unfold bind, ret, _make_request.
    fold (page_request (url_group_orgs (Args.group_id args))).
    rewrite Hraise. reflexivity.
  - intros -> all_orgs t1 target_orgs t2 Hlist Htargets. cbn [negb].
    unfold main_steps. rewrite Hmode.
    split.
    + intros ->. apply try_except_ret_run.
      rewrite (bind_ret_run _ _ _ _ _ Hlist).
      rewrite (bind_ret_run _ _ _ _ _ Htargets). reflexivity.
    + intros Hsome broker_connections t3 Hconns.
      split.
      * intros Hnone. apply try_except_ret_run.
        rewrite (bind_ret_run _ _ _ _ _ Hlist).
        rewrite (bind_ret_run _ _ _ _ _ Htargets).
        rewrite (is_empty_cons _ Hsome).
        rewrite (bind_ret_run _ _ _ _ _ Hconns).
        rewrite Hnone. destruct (is_empty broker_connections); reflexivity.
      * intros selected Hsel.
        assert (is_empty broker_connections = false) as Hne.
        { destruct broker_connections; [| reflexivity].
          unfold selected_connection in Hsel.
          destruct (truthy (of_optional (Args.broker_connection_id args)));
            discriminate Hsel. }
        split.
        -- intros Hdry. apply try_except_ret_run.
           rewrite (bind_ret_run _ _ _ _ _ Hlist).
           rewrite (bind_ret_run _ _ _ _ _ Htargets).
           rewrite (is_empty_cons _ Hsome).
           rewrite (bind_ret_run _ _ _ _ _ Hconns).
           rewrite Hne, Hsel, Hdry. reflexivity.
        -- intros Hdry results t4 Hbulk. apply try_except_ret_run.
           rewrite (bind_ret_run _ _ _ _ _ Hlist).
           rewrite (bind_ret_run _ _ _ _ _ Htargets).
           rewrite (is_empty_cons _ Hsome).
           rewrite (bind_ret_run _ _ _ _ _ Hconns).
           rewrite Hne, Hsel, Hdry.
           rewrite (bind_ret_run _ _ _ _ _ Hbulk). reflexivity.
Qed.

Lemma main_exit_status_witness :
  fst (main Scenario.service (fun _ _ => ret tt)
            (Args.mk "token" "t1" "g1" (Some "A") (Some "conn9") None
                     false false)
            3 []) = Ret 0%Z
  /\
  fst (main Scenario.service (fun _ _ => ret tt)
            (Args.mk "token" "t1" "g1" (Some "A") None None false false)
            3 []) = Ret 0%Z
  /\
  main Scenario.service (fun _ _ => ret tt)
       (Args.mk "token" "t1" "g1" None None None false false) 3 [] =
  (Ret 2%Z, []).
Proof.
  split; [| split].
  - destruct (main_exit_status
                Scenario.service (fun _ _ => ret tt)
                (Args.mk "token" "t1" "g1" (Some "A") (Some "conn9") None
                         false false)
                3 [] eq_refl) as [_ [_ Hrun]].
    edestruct (Hrun eq_refl) as [_ Hsome];
      [vm_compute; reflexivity | vm_compute; reflexivity |].
    edestruct Hsome as [Hnone _]; [discriminate | vm_compute; reflexivity |].
    rewrite Hnone; reflexivity.
  - destruct (main_exit_status
                Scenario.service (fun _ _ => ret tt)
                (Args.mk "token" "t1" "g1" (Some "A") None None false false)
                3 [] eq_refl) as [_ [_ Hrun]].
    edestruct (Hrun eq_refl) as [_ Hsome];
      [vm_compute; reflexivity | vm_compute; reflexivity |].
    edestruct Hsome as [_ Hfound]; [discriminate | vm_compute; reflexivity |].
    edestruct Hfound as [_ Hbulk]; [reflexivity |].
    erewrite Hbulk; [reflexivity | reflexivity | vm_compute; reflexivity].
  - apply (proj1 (main_exit_status
                    Scenario.service (fun _ _ => ret tt)
                    (Args.mk "token" "t1" "g1" None None None false false)
                    3 [] eq_refl)).
    reflexivity.
Defined.

(* ===================================================================== *)
(** * The raw and the typed group listing *)
(* ===================================================================== *)

Lemma lift_ret_inv {A} (r : res A) t a t' :
  lift r t = (Ret a, t') -> r = Ok a /\ t' = t.
Proof.
  destruct r as [a0 | e]; simpl; unfold ret, raise; intros H;
    [injection H as <- <-; split; reflexivity | discriminate].
Qed.

Lemma res_map_app_ok {A B} (f : A -> res B) (l1 l2 : list A) r1 r2 :
  res_map f l1 = Ok r1 -> res_map f l2 = Ok r2 ->
  res_map f (l1 ++ l2) = Ok (r1 ++ r2).
Proof.
  revert r1. induction l1 as [| x l1 IH]; intros r1; simpl.
  - intros H. injection H as <-. intros H2. exact H2.
  - destruct (f x) as [y | e]; simpl; [| discriminate].
    destruct (res_map f l1) as [ys | e]; simpl; [| discriminate].
    intros H H2. injection H as <-. rewrite (IH ys eq_refl H2). reflexivity.
Qed.

Lemma raw_pages_extend server version fuel :
  forall u all_orgs t items t',
    group_orgs_raw_pages server fuel version u all_orgs t =
    (Ret (Some items), t') ->
    exists more, items = all_orgs ++ more.
Proof.
  induction fuel as [| fuel IH]; intros u all_orgs t items t' H.
  - discriminate.
  - cbn [group_orgs_raw_pages] in H.
    apply bind_ret_inv in H. destruct H as [resp [t0 [_ H]]].
    destruct (status_code resp =? 200)%Z.
    + apply bind_ret_inv in H. destruct H as [data [t1 [_ H]]].
      apply bind_ret_inv in H. destruct H as [orgs [t2 [_ H]]].
      destruct (negb (truthy orgs)).
      { apply ret_inv in H. destruct H as [H _]. injection H as <-.
        exists []. rewrite app_nil_r. reflexivity. }
      apply bind_ret_inv in H. destruct H as [page [t3 [_ H]]].
      apply bind_ret_inv in H. destruct H as [links [t4 [_ H]]].
      apply bind_ret_inv in H. destruct H as [next_url [t5 [_ H]]].
      destruct (negb (truthy next_url)).
      { apply ret_inv in H. destruct H as [H _]. injection H as <-.
        exists page. reflexivity. }
      apply bind_ret_inv in H. destruct H as [absolute [t6 [_ H]]].
      apply IH in H. destruct H as [more ->].
      exists (page ++ more). rewrite app_assoc. reflexivity.
    + destruct (status_code resp =? 404)%Z;
        [| destruct ((status_code resp =? 403) || (status_code resp =? 401))%Z];
        apply ret_inv in H; destruct H as [H _]; discriminate.
Qed.

Lemma raw_pages_of_typed server fuel :
  forall u raw_acc typed_acc t orgs t',
    res_map organization_of raw_acc = Ok typed_acc ->
    group_orgs_pages server fuel u typed_acc t = (Ret orgs, t') ->
    exists raw,
      group_orgs_raw_pages server fuel "2024-10-15" u raw_acc t = (Ret raw, t') /\
      organizations_of raw = Ok orgs.
Proof.
  induction fuel as [| fuel IH]; intros u raw_acc typed_acc t orgs t' Hacc H.
  - discriminate.
  - cbn [group_orgs_pages] in H. cbn [group_orgs_raw_pages].
    apply bind_ret_inv in H. destruct H as [resp [t0 [Hreq H]]].
    rewrite (bind_ret_run _ _ _ _ _ Hreq).
    destruct (status_code resp =? 200)%Z.
    + apply bind_ret_inv in H. destruct H as [data [t1 [Hdata H]]].
      rewrite (bind_ret_run _ _ _ _ _ Hdata).
      apply bind_ret_inv in H. destruct H as [page_data [t2 [Hpd H]]].
      rewrite (bind_ret_run _ _ _ _ _ Hpd).
      destruct (negb (truthy page_data)).
      { apply ret_inv in H. destruct H as [<- <-].
        exists (Some raw_acc). split; [reflexivity | exact Hacc]. }
      apply bind_ret_inv in H. destruct H as [items [t3 [Hitems H]]].
      rewrite (bind_ret_run _ _ _ _ _ Hitems).
      apply bind_ret_inv in H. destruct H as [page [t4 [Hpage H]]].
      apply lift_ret_inv in Hpage. destruct Hpage as [Hpage ->].
      pose proof (res_map_app_ok _ _ _ _ _ Hacc Hpage) as Hacc'.
      apply bind_ret_inv in H. destruct H as [links [t5 [Hlinks H]]].
      rewrite (bind_ret_run _ _ _ _ _ Hlinks).
      apply bind_ret_inv in H. destruct H as [next_url [t6 [Hnext H]]].
      rewrite (bind_ret_run _ _ _ _ _ Hnext).
      destruct (negb (truthy next_url)).
      { apply ret_inv in H. destruct H as [<- <-].
        exists (Some (raw_acc ++ items)). split; [reflexivity | exact Hacc']. }
      apply bind_ret_inv in H. destruct H as [absolute [t7 [Habs H]]].
      rewrite (bind_ret_run _ _ _ _ _ Habs).
      apply (IH _ _ _ _ _ _ Hacc' H).
    + destruct (status_code resp =? 404)%Z;
        [| destruct ((status_code resp =? 403) || (status_code resp =? 401))%Z];
        apply ret_inv in H; destruct H as [<- <-];
        exists None; (split; reflexivity).
Qed.

Lemma typed_pages_of_raw_items server fuel :
  forall u raw_acc typed_acc t items t' orgs,
    res_map organization_of raw_acc = Ok typed_acc ->
    group_orgs_raw_pages server fuel "2024-10-15" u raw_acc t =
    (Ret (Some items), t') ->
    res_map organization_of items = Ok orgs ->
    group_orgs_pages server fuel u typed_acc t = (Ret orgs, t').
Proof.
  induction fuel as [| fuel IH];
    intros u raw_acc typed_acc t items t' orgs Hacc H Hitems.
  - discriminate.
  - cbn [group_orgs_raw_pages] in H. cbn [group_orgs_pages].
    apply bind_ret_inv in H. destruct H as [resp [t0 [Hreq H]]].
    rewrite (bind_ret_run _ _ _ _ _ Hreq).
    destruct (status_code resp =? 200)%Z.
    + apply bind_ret_inv in H. destruct H as [data [t1 [Hdata H]]].
      rewrite (bind_ret_run _ _ _ _ _ Hdata).
      apply bind_ret_inv in H. destruct H as [page_data [t2 [Hpd H]]].
      rewrite (bind_ret_run _ _ _ _ _ Hpd).
      destruct (negb (truthy page_data)).
      { apply ret_inv in H. destruct H as [H <-]. injection H as <-.
        rewrite Hacc in Hitems. injection Hitems as <-. reflexivity. }
      apply bind_ret_inv in H. destruct H as [page_items [t3 [Hpi H]]].
      rewrite (bind_ret_run _ _ _ _ _ Hpi).
      assert (exists page, res_map organization_of page_items = Ok page)
        as [page Hpage].
      { apply bind_ret_inv in H. destruct H as [links [t5 [_ H]]].
        apply bind_ret_inv in H. destruct H as [next_url [t6 [_ H]]].
        assert (exists more, items = (raw_acc ++ page_items) ++ more)
          as [more ->].
        { destruct (negb (truthy next_url)).
          - apply ret_inv in H. destruct H as [H _]. injection H as <-.
            exists []. rewrite app_nil_r. reflexivity.
          - apply bind_ret_inv in H. destruct H as [absolute [t7 [_ H]]].
            eapply raw_pages_extend. exact H. }
        apply res_map_app in Hitems.
        destruct Hitems as [r1 [r2 [Hr1 _]]].
        apply res_map_app in Hr1.
        destruct Hr1 as [r3 [r4 [_ [Hr4 _]]]].
        exists r4. exact Hr4. }
      pose proof (res_map_app_ok _ _ _ _ _ Hacc Hpage) as Hacc'.
      rewrite Hpage. cbn [lift]. unfold bind at 1, ret at 1. cbv beta iota.
      apply lift_ret_inv in Hpi. destruct Hpi as [_ ->].
      apply bind_ret_inv in H. destruct H as [links [t5 [Hlinks H]]].
      rewrite (bind_ret_run _ _ _ _ _ Hlinks).
      apply bind_ret_inv in H. destruct H as [next_url [t6 [Hnext H]]].
      rewrite (bind_ret_run _ _ _ _ _ Hnext).
      destruct (negb (truthy next_url)).
      { apply ret_inv in H. destruct H as [H <-]. injection H as <-.
        rewrite Hacc' in Hitems. injection Hitems as <-. reflexivity. }
      apply bind_ret_inv in H. destruct H as [absolute [t7 [Habs H]]].
      rewrite (bind_ret_run _ _ _ _ _ Habs).
      apply (IH _ _ _ _ _ _ _ Hacc' H Hitems).
    + destruct (status_code resp =? 404)%Z;
        [| destruct ((status_code resp =? 403) || (status_code resp =? 401))%Z];
        apply ret_inv in H; destruct H as [H _]; discriminate.
Qed.

(** X17.  [get_organizations_for_group] and
    [_get_group_orgs_with_version] for version [2024-10-15] walk the same
    pages.  When the typed listing returns, the raw one returns at the same
    trace, and the typed result is the conversion of the raw one, [None]
    read as the empty list; when the raw listing returns a list whose
    elements convert, the typed listing returns their records at the same
    trace. *)
Theorem group_listing_is_raw_listing_converted server self fuel group g t :
  listed_group self group = Some g ->
  g <> "" ->
  (forall orgs t',
      get_organizations_for_group server self fuel group t = (Ret orgs, t') ->
      exists raw,
        _get_group_orgs_with_version server fuel g "2024-10-15" t =
        (Ret raw, t') /\
        organizations_of raw = Ok orgs)
  /\
  (forall items t' orgs,
      _get_group_orgs_with_version server fuel g "2024-10-15" t =
      (Ret (Some items), t') ->
      res_map organization_of items = Ok orgs ->
      get_organizations_for_group server self fuel group t = (Ret orgs, t')).
Proof.
  intros Hgroup Hne.
  assert (get_organizations_for_group server self fuel group t =
          group_orgs_pages server fuel (url_group_orgs g) [] t) as ->.
  { unfold get_organizations_for_group. unfold listed_group in Hgroup.
    rewrite (require_present _ _ _ Hgroup Hne). reflexivity. }
  unfold _get_group_orgs_with_version. split.
  - intros orgs t' H.
    apply (raw_pages_of_typed server fuel _ [] [] _ _ _ eq_refl H).
  - intros items t' orgs H Hitems.
    apply (typed_pages_of_raw_items server fuel _ [] [] _ _ _ _ eq_refl H Hitems).
Qed.

Lemma group_listing_is_raw_listing_converted_witness :
  exists raw t',
    _get_group_orgs_with_version Scenario.service 3 "g1" "2024-10-15" [] =
    (Ret raw, t') /\
    organizations_of raw = Ok Scenario.organizations.
Proof.
  destruct (group_listing_is_raw_listing_converted
              Scenario.service Scenario.client 3 None "g1" []
              eq_refl ltac:(discriminate)) as [Htyped _].
  destruct (get_organizations_for_group Scenario.service Scenario.client 3 None [])
    as [out t'] eqn:E.
  assert (out = Ret Scenario.organizations) as ->.
  { vm_compute in E. injection E as <- _. reflexivity. }
  destruct (Htyped Scenario.organizations t' eq_refl) as [raw [Hraw Hconv]].
  exists raw, t'. split; [exact Hraw | exact Hconv].
Defined.

(* ===================================================================== *)
(** * configure_broker_for_organizations never touches the source organization *)
(* ===================================================================== *)

Lemma remove_existing_spares server self connection org integrations :
  org <> of_optional (source_org_id self) ->
  issues (spares (of_optional (source_org_id self)))
         (remove_existing server self connection org integrations).
Proof.
  intros Hne. induction integrations as [| i rest IH]; simpl.
  - apply issues_ret.
  - destruct (py_eq _ _); [| exact IH].
    apply issues_bind.
    + apply delete_broker_integration_spares. exact Hne.
    + intros removed. destruct (negb removed); [apply issues_ret | exact IH].
Qed.

Lemma configure_broker_for_org_spares server self org connection :
  org <> of_optional (source_org_id self) ->
  issues (spares (of_optional (source_org_id self)))
         (_configure_broker_for_org server self org connection).
Proof.
  intros Hne. unfold _configure_broker_for_org, configure_broker_for_org_steps.
  apply issues_try_except; [| intros e; apply issues_ret].
  apply issues_bind;
    [apply reads_spare, get_broker_integrations_for_connection_reads |].
  intros integrations.
  destruct (source_integration_of self integrations) as [si |];
    [| apply issues_ret].
  apply issues_bind; [apply remove_existing_spares; exact Hne |].
  intros removed. destruct (negb removed); [apply issues_ret |].
  rewrite load_global_integration_id. apply issues_bind_raise.
Qed.

Lemma configure_org_spares server self connection org results :
  org <> of_optional (source_org_id self) ->
  issues (spares (of_optional (source_org_id self)))
         (configure_org server self connection org results).
Proof.
  intros Hne. unfold configure_org.
  apply issues_try_except.
  - apply issues_bind;
      [apply reads_spare, validate_organization_access_reads |].
    intros accessible. destruct accessible; cbn [negb].
    + apply issues_bind; [apply configure_broker_for_org_spares; exact Hne |].
      intros configured.
      destruct configured;
        (apply issues_bind;
         [apply reads_spare, get_organization_name_reads |]);
        intros name; apply issues_ret.
    + apply issues_bind; [apply reads_spare, get_organization_name_reads |].
      intros name. apply issues_ret.
  - intros e.
    apply issues_bind; [apply reads_spare, get_organization_name_reads |].
    intros name. apply issues_ret.
Qed.

Lemma issues_bind_post {A B} (P : Request -> Prop) (Q : A -> Prop)
      (m : M A) (k : A -> M B) :
  issues P m ->
  (forall t a t', m t = (Ret a, t') -> Q a) ->
  (forall a, Q a -> issues P (k a)) ->
  issues P (bind m k).
Proof.
  intros Hm Hpost Hk t. unfold bind.
  destruct (Hm t) as [n1 [E1 F1]].
  destruct (m t) as [[a | e | ] t1] eqn:E; simpl in E1; subst t1;
    try solve [exists n1; simpl; auto].
  destruct (Hk a (Hpost _ _ _ E) (t ++ n1)) as [n2 [E2 F2]].
  exists (n1 ++ n2). rewrite E2, app_assoc. split; [reflexivity |].
  apply Forall_app; auto.
Qed.

Lemma for_each_configure_org_spares server self connection org_ids :
  ~ In (of_optional (source_org_id self)) org_ids ->
  issues (spares (of_optional (source_org_id self)))
         (for_each (configure_org server self connection) org_ids no_results).
Proof.
  intros Hnot. apply issues_for_each. intros org results Hin.
  apply configure_org_spares. intros ->. apply Hnot. exact Hin.
Qed.

(** X18.  [configure_broker_for_organizations] with no list of targets,
    or with a list that does not hold the id of the source organization,
    issues GET requests and requests scoped to an organization other than
    the source, for every service, fuel and outcome. *)
Theorem configure_broker_for_organizations_spares_source
        server self fuel connection :
  issues (spares (of_optional (source_org_id self)))
         (configure_broker_for_organizations server self fuel connection None)
  /\
  (forall org_ids,
      ~ In (of_optional (source_org_id self)) org_ids ->
      issues (spares (of_optional (source_org_id self)))
             (configure_broker_for_organizations
                server self fuel connection (Some org_ids))).
Proof.
  unfold configure_broker_for_organizations. split.
  - apply (issues_bind_post _
             (fun ids => ~ In (of_optional (source_org_id self)) ids)).
    + apply issues_bind;
        [apply reads_spare, get_target_organizations_reads |].
      intros target_orgs. apply issues_ret.
    + intros t ids t' H.
      apply bind_ret_inv in H. destruct H as [target_orgs [t1 [Htargets H]]].
      apply ret_inv in H. destruct H as [<- _].
      destruct (get_target_organizations_listing _ _ _ _ _ _ Htargets)
        as [all_orgs [_ ->]].
      intros Hin. apply in_map_iff in Hin. destruct Hin as [org [Hid Hin]].
      apply target_orgs_of_spec in Hin. apply (proj2 Hin). exact Hid.
    + intros ids Hnot. apply for_each_configure_org_spares. exact Hnot.
  - intros org_ids Hnot.
    apply (issues_bind_post _
             (fun ids => ~ In (of_optional (source_org_id self)) ids)).
    + apply issues_ret.
    + intros t ids t' H. apply ret_inv in H. destruct H as [<- _]. exact Hnot.
    + intros ids Hnot'. apply for_each_configure_org_spares. exact Hnot'.
Qed.

(* ===================================================================== *)
(** * Answers without data *)
(* ===================================================================== *)

(** X19.  A 200 answer without [data] member and one whose [data] is
    [null].  Without the member the three listings of integrations and
    connections return the empty list.  With [null], the default of
    [data.get] does not apply: [get_broker_integrations] raises the
    [TypeError] of [len(None)], [get_broker_connections] and
    [get_broker_integrations_for_connection] that of iterating [None].  The
    group listing returns the empty list in both cases. *)
Theorem null_data_member server self t resp members :
  status_code resp = 200%Z ->
  body resp = Json (JObj members) ->
  (forall org,
      server t (integrations_request org) = Resp resp ->
      (lookup "data" members = None ->
       get_broker_integrations server org t =
       (Ret [], t ++ [integrations_request org]))
      /\
      (lookup "data" members = Some JNull ->
       get_broker_integrations server org t =
       (Exc (Exn TypeError "object of type 'NoneType' has no len()"),
        t ++ [integrations_request org])))
  /\
  (forall org,
      org <> "" ->
      server t (connections_request org) = Resp resp ->
      (lookup "data" members = None ->
       get_broker_connections server self (Some org) t =
       (Ret [], t ++ [connections_request org]))
      /\
      (lookup "data" members = Some JNull ->
       get_broker_connections server self (Some org) t =
       (Exc (Exn TypeError "'NoneType' object is not iterable"),
        t ++ [connections_request org])))
  /\
  (forall tenant connection,
      tenant_id self = Some tenant ->
      tenant <> "" ->
      server t (connection_integrations_request tenant connection) = Resp resp ->
      (lookup "data" members = None ->
       get_broker_integrations_for_connection server self connection t =
       (Ret [], t ++ [connection_integrations_request tenant connection]))
      /\
      (lookup "data" members = Some JNull ->
       get_broker_integrations_for_connection server self connection t =
       (Exc (Exn TypeError "'NoneType' object is not iterable"),
        t ++ [connection_integrations_request tenant connection])))
  /\
  (forall group fuel,
      group <> "" ->
      server t (page_request (url_group_orgs group)) = Resp resp ->
      lookup "data" members = None \/ lookup "data" members = Some JNull ->
      get_organizations_for_group server self (S fuel) (Some group) t =
      (Ret [], t ++ [page_request (url_group_orgs group)])).
Proof.
  intros Hs Hb. split; [| split; [| split]].
  - intros org Hr.
    unfold get_broker_integrations, get_integrations_for_org, bind,
      _make_request.
    fold (integrations_request org). rewrite Hr. cbv beta iota.
    rewrite Hs. change (200 =? 200)%Z with true. cbv iota.
    unfold json_of. rewrite Hb. cbn [lift ret py_get].
    split; intros ->; reflexivity.
  - intros org Hne Hr. unfold get_broker_connections.
    rewrite (require_present _ _ _ eq_refl Hne).
    unfold bind, _make_request. cbn [lift ret].
    fold (connections_request org). rewrite Hr. cbv beta iota.
    rewrite Hs. change (200 =? 200)%Z with true. cbv iota.
    unfold json_of. rewrite Hb. cbn [lift ret py_get].
    split; intros ->; reflexivity.
  - intros tenant connection Ht Hne Hr.
    unfold get_broker_integrations_for_connection.
    rewrite (require_present _ _ _ Ht Hne).
    unfold bind, _make_request. cbn [lift ret].
    fold (connection_integrations_request tenant connection).
    rewrite Hr. cbv beta iota.
    rewrite Hs. change (200 =? 200)%Z with true. cbv iota.
    unfold json_of. rewrite Hb. cbn [lift ret py_get].
    split; intros ->; reflexivity.
  - intros group fuel Hne Hr Hdata. unfold get_organizations_for_group.
    rewrite (require_present _ _ _ eq_refl Hne).
    cbn [lift group_orgs_pages]. unfold bind, _make_request, ret.
    fold (page_request (url_group_orgs group)). rewrite Hr. cbv beta iota.
    rewrite Hs. change (200 =? 200)%Z with true. cbv iota.
    unfold json_of. rewrite Hb. cbn [lift ret py_get].
    destruct Hdata as [-> | ->]; reflexivity.
Qed.

Lemma null_data_member_witness :
  get_broker_integrations Estate.service (JStr "N") [] =
  (Exc (Exn TypeError "object of type 'NoneType' has no len()"),
   [integrations_request (JStr "N")]).
Proof.
  apply (proj2 (proj1 (null_data_member
                         Estate.service Scenario.client []
                         (mkResponse 200 (Json (JObj [("data", JNull)])))
                         [("data", JNull)] eq_refl eq_refl)
                      (JStr "N") eq_refl)).
  reflexivity.
Defined.

(* ===================================================================== *)
(** * The command line: the removal mode *)
(* ===================================================================== *)

(** C1.  The removal workflow the claim describes is not in the program:
    [SnykAPI] has no attribute [remove_connection_from_all_orgs], so the
    lookup of the method raises [AttributeError].  With
    [--remove-connection], whatever the group, the connection id and the
    dry-run flag, and whatever would follow the lookup, [main] issues no
    request, returns no record and ends with exit status 1; so it does on
    the dry run of connection [conn1] over group [g1]. *)
Theorem removal_mode_raises_attribute_error :
  load_attribute "remove_connection_from_all_orgs" =
  Err (Exn AttributeError
           "'SnykAPI' object has no attribute 'remove_connection_from_all_orgs'")
  /\
  (forall server report args fuel t,
      truthy (of_optional (Args.remove_connection args)) = true ->
      main server (removal_mode_of_main report) args fuel t = (Ret 1%Z, t))
  /\
  (forall report,
      main Scenario.service (removal_mode_of_main report)
           (Args.mk "token" "t1" "g1" None None (Some "conn1") true false)
           3 [] = (Ret 1%Z, [])).
Proof.
  assert (forall server report args fuel t,
             truthy (of_optional (Args.remove_connection args)) = true ->
             main server (removal_mode_of_main report) args fuel t =
             (Ret 1%Z, t)) as Hmain.
  { intros server report args fuel t Hmode.
    unfold main, main_steps. rewrite Hmode. cbn [negb andb].
    unfold removal_mode_of_main, try_except, bind. reflexivity. }
  split; [reflexivity |]. split; [exact Hmain |].
  intros report. apply Hmain. reflexivity.
Qed.

(* ===================================================================== *)
(** * Access denied: failed in one workflow, skipped in the other *)
(* ===================================================================== *)









